(** * Cisco to Cradlepoint zone-firewall converter (cisco_to_cradlepoint_converter_v3.py)

    A shallow embedding of the conversion engine of
    [src/configuration/samples/Cisco to Cradlepoint converter/cisco_to_cradlepoint_converter_v3.py].

    Modelling conventions.
    - Python [str] is modelled by [string] (byte strings); configurations are ASCII
      text, so [strip], [split], [lower], [upper], [isdigit] are written for the
      ASCII range, with Python's whitespace set.
    - Python dicts keep insertion order; they are association lists
      [dict V = list (string * V)] with Python's assignment semantics
      ([d[k] = v] replaces the value in place when [k] is present, appends otherwise).
    - [uuid.uuid4()] is modelled by a counter in the session: the [n]-th call
      returns [uuid n]; distinct calls give distinct ids.
    - The converter object is the record [session]; every method is a function
      from session to session (plus a result).  A raised exception is [None]. *)

From stdpp Require Import base list strings pretty.
From Stdlib Require Import Ascii ZArith Lia.

Local Open Scope Z_scope.

(* ------------------------------------------------------------------ *)
(** ** Ordered dictionaries *)

Definition dict (V : Type) := list (string * V).

Section Dict.
Context {V : Type}.

Fixpoint dict_get (k : string) (d : dict V) : option V :=
  match d with
  | [] => None
  | (k', v) :: d' => if String.eqb k k' then Some v else dict_get k d'
  end.

Definition dict_mem (k : string) (d : dict V) : bool :=
  match dict_get k d with Some _ => true | None => false end.

(** [d[k] = v]: replace in place, or append a new key at the end. *)
Fixpoint dict_set (k : string) (v : V) (d : dict V) : dict V :=
  match d with
  | [] => [(k, v)]
  | (k', v') :: d' => if String.eqb k k' then (k', v) :: d' else (k', v') :: dict_set k v d'
  end.

Definition dict_keys (d : dict V) : list string := map fst d.
Definition dict_values (d : dict V) : list V := map snd d.

End Dict.

(* ------------------------------------------------------------------ *)
(** ** Python string operations (ASCII) *)

Module Py.

(** [str.isspace] on ASCII: \t \n \v \f \r, \x1c-\x1f and space. *)
Definition is_space (c : ascii) : bool :=
  let n := nat_of_ascii c in
  ((9 <=? n) && (n <=? 13))%nat || ((28 <=? n) && (n <=? 32))%nat.

Fixpoint lstrip (s : string) : string :=
  match s with
  | EmptyString => EmptyString
  | String c s' => if is_space c then lstrip s' else s
  end.

Definition rev_string (s : string) : string :=
  String.string_of_list_ascii (rev (String.list_ascii_of_string s)).

(** [s.strip()] *)
Definition strip (s : string) : string := rev_string (lstrip (rev_string (lstrip s))).

(** [s.split()]: split on runs of whitespace, no empty pieces. *)
Fixpoint split_go (s : string) (cur : list ascii) : list string :=
  match s with
  | EmptyString => match cur with [] => [] | _ => [String.string_of_list_ascii (rev cur)] end
  | String c s' =>
      if is_space c
      then match cur with
           | [] => split_go s' []
           | _ => String.string_of_list_ascii (rev cur) :: split_go s' []
           end
      else split_go s' (c :: cur)
  end.
Definition split (s : string) : list string := split_go s [].

(** [s.split(sep)] for a non-empty separator: left-to-right, non-overlapping. *)
Fixpoint split_sep_go (fuel : nat) (sep s : string) (cur : list ascii) : list string :=
  match fuel with
  | O => [String.string_of_list_ascii (rev cur) +:+ s]
  | S f =>
      match s with
      | EmptyString => [String.string_of_list_ascii (rev cur)]
      | String c s' =>
          if String.prefix sep s
          then String.string_of_list_ascii (rev cur)
                 :: split_sep_go f sep (String.substring (String.length sep) (String.length s) s) []
          else split_sep_go f sep s' (c :: cur)
      end
  end.
Definition split_sep (s sep : string) : list string :=
  split_sep_go (S (String.length s)) sep s [].

(** [s.replace(old, new)] for a non-empty [old]. *)
Fixpoint replace_go (fuel : nat) (old new s : string) : string :=
  match fuel with
  | O => s
  | S f =>
      match s with
      | EmptyString => EmptyString
      | String c s' =>
          if String.prefix old s
          then new +:+ replace_go f old new (String.substring (String.length old) (String.length s) s)
          else String c (replace_go f old new s')
      end
  end.
Definition replace (s old new : string) : string := replace_go (S (String.length s)) old new s.

(** [sub in s] *)
Fixpoint contains (sub s : string) : bool :=
  String.prefix sub s ||
  match s with EmptyString => false | String _ s' => contains sub s' end.

Definition startswith (s pre : string) : bool := String.prefix pre s.

Definition map_chars (f : ascii -> ascii) (s : string) : string :=
  String.string_of_list_ascii (map f (String.list_ascii_of_string s)).

Definition lower_char (c : ascii) : ascii :=
  let n := nat_of_ascii c in
  if ((65 <=? n) && (n <=? 90))%nat then ascii_of_nat (n + 32) else c.
Definition upper_char (c : ascii) : ascii :=
  let n := nat_of_ascii c in
  if ((97 <=? n) && (n <=? 122))%nat then ascii_of_nat (n - 32) else c.

Definition lower (s : string) : string := map_chars lower_char s.
Definition upper (s : string) : string := map_chars upper_char s.

Definition is_digit (c : ascii) : bool :=
  let n := nat_of_ascii c in ((48 <=? n) && (n <=? 57))%nat.
Definition digit_val (c : ascii) : Z := Z.of_nat (nat_of_ascii c) - 48.

(** [s.isdigit()] *)
Definition isdigit (s : string) : bool :=
  match s with
  | EmptyString => false
  | _ => forallb is_digit (String.list_ascii_of_string s)
  end.

(** Digits of [int(s)]: a digit first, then digits each optionally preceded
    by a single underscore. *)
Fixpoint digits_us (l : list ascii) (acc : Z) : option Z :=
  match l with
  | [] => Some acc
  | c :: l' =>
      if is_digit c then digits_us l' (acc * 10 + digit_val c)
      else if Ascii.eqb c "_"%char then
        match l' with
        | d :: l'' => if is_digit d then digits_us l'' (acc * 10 + digit_val d) else None
        | [] => None
        end
      else None
  end.

Definition int_body (l : list ascii) : option Z :=
  match l with
  | c :: l' => if is_digit c then digits_us l' (digit_val c) else None
  | [] => None
  end.

(** [int(s)]: [None] is a raised [ValueError]. *)
Definition int (s : string) : option Z :=
  match String.list_ascii_of_string (strip s) with
  | c :: l => if Ascii.eqb c "-"%char then option_map Z.opp (int_body l)
              else if Ascii.eqb c "+"%char then int_body l
              else int_body (c :: l)
  | [] => None
  end.

Definition str_nat (n : nat) : string := pretty n.
Definition str_Z (z : Z) : string := pretty z.

(** ["_".join(l)] *)
Definition join (sep : string) (l : list string) : string := String.concat sep l.

(** [sorted(l)] on strings (code-point order) *)
Fixpoint insert_sorted (x : string) (l : list string) : list string :=
  match l with
  | [] => [x]
  | y :: l' => if String.leb x y then x :: l else y :: insert_sorted x l'
  end.
Definition sorted (l : list string) : list string := fold_right insert_sorted [] l.

(** A Python [set] of ints, kept as a sorted duplicate-free list, so that
    [sorted(s)] is the list itself. *)
Fixpoint set_add (x : Z) (l : list Z) : list Z :=
  match l with
  | [] => [x]
  | y :: l' => if x =? y then l else if x <? y then x :: l else y :: set_add x l'
  end.

End Py.

(* ------------------------------------------------------------------ *)
(** ** [ipaddress.ip_address] validity ([_is_valid_ip_address]) *)

Module Ip.

(** [IPv4Address._parse_octet] *)
Definition octet_ok (o : string) : bool :=
  match String.list_ascii_of_string o with
  | [] => false
  | c :: rest as l =>
      forallb Py.is_digit l && (List.length l <=? 3)%nat
      && (String.eqb o "0" || negb (Ascii.eqb c "0"%char))
      && match Py.int o with Some v => v <=? 255 | None => false end
  end.

Definition octet_val (o : string) : Z := match Py.int o with Some v => v | None => 0 end.

(** [IPv4Address(s)]: the address as an integer, or [None] when invalid. *)
Definition ipv4_int (s : string) : option Z :=
  if Py.contains "/" s then None else
  match Py.split_sep s "." with
  | [a; b; c; d] =>
      if octet_ok a && octet_ok b && octet_ok c && octet_ok d
      then Some (((octet_val a * 256 + octet_val b) * 256 + octet_val c) * 256 + octet_val d)
      else None
  | _ => None
  end.

Definition is_hex (c : ascii) : bool :=
  let n := nat_of_ascii c in
  Py.is_digit c || ((97 <=? n) && (n <=? 102))%nat || ((65 <=? n) && (n <=? 70))%nat.

(** [IPv6Address._parse_hextet] (validity only; the empty string fails [int(_, 16)]) *)
Definition hextet_ok (h : string) : bool :=
  let l := String.list_ascii_of_string h in
  forallb is_hex l && (1 <=? List.length l)%nat && (List.length l <=? 4)%nat.

Fixpoint skip_index (parts : list string) (i : nat) (last : nat) (acc : option nat)
  : option (option nat) :=
  (* [for i in range(1, len(parts) - 1): if not parts[i]: ...]; outer [None] = raise *)
  match parts with
  | [] => Some acc
  | p :: ps =>
      if ((1 <=? i) && (i <? last))%nat && String.eqb p ""
      then match acc with Some _ => None | None => skip_index ps (S i) last (Some i) end
      else skip_index ps (S i) last acc
  end.

(** [IPv6Address._ip_int_from_string], validity only. *)
Definition ipv6_parts_ok (parts0 : list string) : bool :=
  if (List.length parts0 <? 3)%nat then false else
  let last0 := List.last parts0 "" in
  let parts :=
    if Py.contains "." last0
    then match ipv4_int last0 with
         | Some _ => Some (removelast parts0 ++ ["0"; "0"])
         | None => None
         end
    else Some parts0 in
  match parts with
  | None => false
  | Some parts =>
      let n := List.length parts in
      if (9 <? n)%nat then false else
      match skip_index parts 0 (n - 1) None with
      | None => false
      | Some (Some si) =>
          let hi0 := si in
          let lo0 := (n - si - 1)%nat in
          let first_empty := String.eqb (List.hd "" parts) "" in
          let last_empty := String.eqb (List.last parts "") "" in
          let hi := if first_empty then (hi0 - 1)%nat else hi0 in
          let lo := if last_empty then (lo0 - 1)%nat else lo0 in
          if first_empty && negb (hi =? 0)%nat then false
          else if last_empty && negb (lo =? 0)%nat then false
          else if (8 <=? hi + lo)%nat then false (* parts_skipped = 8 - (hi + lo) < 1 *)
          else forallb hextet_ok (firstn hi parts)
               && forallb hextet_ok (skipn (n - lo) parts)
      | Some None =>
          (n =? 8)%nat && forallb hextet_ok parts
      end
  end.

Definition ipv6_ok (s : string) : bool :=
  if Py.contains "/" s then false else
  let addr := List.hd "" (Py.split_sep s "%") in
  let scope_ok :=
    match Py.split_sep s "%" with
    | [_] => true
    | [_; sc] => negb (String.eqb sc "")
    | _ => false
    end in
  scope_ok && negb (String.eqb addr "") && ipv6_parts_ok (Py.split_sep addr ":").

(** [_is_valid_ip_address]: [ip_address(ip)] succeeds as IPv4 or as IPv6. *)
Definition is_valid_ip_address (ip : string) : bool :=
  match ipv4_int ip with Some _ => true | None => ipv6_ok ip end.

End Ip.
(* ------------------------------------------------------------------ *)
(** ** Data model: the converter's dictionaries as records *)

Record zone_device := mk_device { dev_id : string; dev_name : string; dev_type : string }.

Record trigger := mk_trigger {
  trigger_field : string; trigger_group : string; trigger_neg : bool;
  trigger_predicate : string; trigger_value : string }.

(** A zone's ['devices'] entry: absent, a dict of interface devices, or the
    list of WAN triggers of the internet zone. *)
Inductive zone_devices :=
| NoDevices
| DeviceDict (d : dict zone_device)
| TriggerList (l : list trigger).

Record zone := mk_zone { zone_id : string; zone_name : string; zone_devs : zone_devices }.

Record interface := mk_interface {
  if_name : string; if_zone : option string;
  if_ip_address : option string; if_subnet_mask : option string }.

Inductive port_value := PortNum (n : Z) | PortName (s : string).

(** Object-group members ([{'type': 'host', ...}] and so on). *)
Inductive og_object :=
| ObjHost (value : string)
| ObjNetwork (network mask : string)
| ObjRange (start_ip end_ip : string)
| ObjPort (port : port_value)
| ObjPortRange (start_port end_port : Z)
| ObjGroupRef (reference : string).

Record object_group := mk_og { og_name : string; og_type : string; og_objects : list og_object }.

(** A parsed ACL rule: the optional keys of the rule dict are [option] fields. *)
Record acl_rule := mk_acl_rule {
  r_action : string; r_protocol : string; r_protocol_id : Z;
  service_object_group : option string;
  source_object_group : option string;
  destination_object_group : option string;
  source_ip : option string;
  destination_ip : option string;
  source_port : option string;
  destination_port : option string }.

Record acl := mk_acl { acl_name : string; acl_rules : list acl_rule }.

Record class_map := mk_cm {
  cm_name : string; cm_match_type : string;
  acl_references : list string; object_group_references : list string }.

Inductive pm_action := ActInspect (protocol : string) | ActDrop | ActPass.
Record class_action := mk_ca { ca_class_name : string; ca_actions : list pm_action }.
Record policy_map := mk_pm { pm_name : string; pm_class_actions : list class_action }.

Record zone_pair := mk_zp {
  zp_name : string; zp_source_zone : string; zp_destination_zone : string;
  zp_policy_map : option string }.

Record ip_identity := mk_ipi {
  ipi_id : string; ipi_name : string; ipi_friendly_name : string; ipi_members : list string }.
Record port_identity := mk_pti { pti_id : string; pti_name : string; pti_members : list (Z * Z) }.

(** ['protocols']: [[]] (any protocol) or [{'0': {'identity': n}, ...}]. *)
Inductive protocols := ProtoAny | ProtoIds (l : list (string * Z)).

(** An identity-reference field ([ip] or [port]): the code writes [[]] when
    empty and [{'0': {'identity': id0}, '1': ...}] otherwise; both are the list
    of referenced identity ids in key order.  [None]: the key is absent. *)
Record side := mk_side { side_ip : option (list string); side_port : option (list string) }.

(** A Cradlepoint filter rule. ['app_sets'] and ['mac'] are always [[]]. *)
Record frule := mk_frule {
  fr_action : string; fr_ip_version : string; fr_name : string; fr_priority : Z;
  fr_protocols : protocols; fr_src : side; fr_dst : option side }.

(** A policy's ['rules']: the list [[]], or a dict keyed ["0"], ["1"], ... *)
Inductive rules_field := RulesList | RulesDict (l : list frule).

Record filter_policy := mk_fp {
  fp_id : string; fp_name : string; fp_default_action : string; fp_rules : rules_field }.

Record forwarding := mk_fw {
  fw_id : string; src_zone_id : string; dst_zone_id : string;
  fw_enabled : bool; filter_policy_id : string }.

(** The converter object. *)
Record session := mk_session {
  config_lines : list string;
  zones : dict zone;
  zone_forwardings : dict forwarding;
  filter_policies : dict filter_policy;
  interfaces : dict interface;
  acls : dict acl;
  class_maps : dict class_map;
  object_groups : dict object_group;
  policy_maps : dict policy_map;
  zone_pairs : dict zone_pair;
  identities_ip : list ip_identity;
  identities_port : list port_identity;
  object_group_to_identity : dict string;
  add_internet_zone : bool;
  internet_zone_name : string;
  next_id : N }.

(** [__init__] (the file is read by [parse_config]). *)
Definition init_session (lines : list string) (add_inet : bool) (inet_name : string) : session :=
  mk_session lines [] [] [] [] [] [] [] [] [] [] [] [] add_inet inet_name 0%N.

Section Setters.
Variable s : session.
Definition set_zones z := mk_session (config_lines s) z (zone_forwardings s) (filter_policies s) (interfaces s) (acls s) (class_maps s) (object_groups s) (policy_maps s) (zone_pairs s) (identities_ip s) (identities_port s) (object_group_to_identity s) (add_internet_zone s) (internet_zone_name s) (next_id s).
Definition set_forwardings f := mk_session (config_lines s) (zones s) f (filter_policies s) (interfaces s) (acls s) (class_maps s) (object_groups s) (policy_maps s) (zone_pairs s) (identities_ip s) (identities_port s) (object_group_to_identity s) (add_internet_zone s) (internet_zone_name s) (next_id s).
Definition set_policies p := mk_session (config_lines s) (zones s) (zone_forwardings s) p (interfaces s) (acls s) (class_maps s) (object_groups s) (policy_maps s) (zone_pairs s) (identities_ip s) (identities_port s) (object_group_to_identity s) (add_internet_zone s) (internet_zone_name s) (next_id s).
Definition set_interfaces i := mk_session (config_lines s) (zones s) (zone_forwardings s) (filter_policies s) i (acls s) (class_maps s) (object_groups s) (policy_maps s) (zone_pairs s) (identities_ip s) (identities_port s) (object_group_to_identity s) (add_internet_zone s) (internet_zone_name s) (next_id s).
Definition set_acls a := mk_session (config_lines s) (zones s) (zone_forwardings s) (filter_policies s) (interfaces s) a (class_maps s) (object_groups s) (policy_maps s) (zone_pairs s) (identities_ip s) (identities_port s) (object_group_to_identity s) (add_internet_zone s) (internet_zone_name s) (next_id s).
Definition set_class_maps c := mk_session (config_lines s) (zones s) (zone_forwardings s) (filter_policies s) (interfaces s) (acls s) c (object_groups s) (policy_maps s) (zone_pairs s) (identities_ip s) (identities_port s) (object_group_to_identity s) (add_internet_zone s) (internet_zone_name s) (next_id s).
Definition set_object_groups o := mk_session (config_lines s) (zones s) (zone_forwardings s) (filter_policies s) (interfaces s) (acls s) (class_maps s) o (policy_maps s) (zone_pairs s) (identities_ip s) (identities_port s) (object_group_to_identity s) (add_internet_zone s) (internet_zone_name s) (next_id s).
Definition set_policy_maps p := mk_session (config_lines s) (zones s) (zone_forwardings s) (filter_policies s) (interfaces s) (acls s) (class_maps s) (object_groups s) p (zone_pairs s) (identities_ip s) (identities_port s) (object_group_to_identity s) (add_internet_zone s) (internet_zone_name s) (next_id s).
Definition set_zone_pairs z := mk_session (config_lines s) (zones s) (zone_forwardings s) (filter_policies s) (interfaces s) (acls s) (class_maps s) (object_groups s) (policy_maps s) z (identities_ip s) (identities_port s) (object_group_to_identity s) (add_internet_zone s) (internet_zone_name s) (next_id s).
Definition set_identities_ip l := mk_session (config_lines s) (zones s) (zone_forwardings s) (filter_policies s) (interfaces s) (acls s) (class_maps s) (object_groups s) (policy_maps s) (zone_pairs s) l (identities_port s) (object_group_to_identity s) (add_internet_zone s) (internet_zone_name s) (next_id s).
Definition set_identities_port l := mk_session (config_lines s) (zones s) (zone_forwardings s) (filter_policies s) (interfaces s) (acls s) (class_maps s) (object_groups s) (policy_maps s) (zone_pairs s) (identities_ip s) l (object_group_to_identity s) (add_internet_zone s) (internet_zone_name s) (next_id s).
Definition set_og_map m := mk_session (config_lines s) (zones s) (zone_forwardings s) (filter_policies s) (interfaces s) (acls s) (class_maps s) (object_groups s) (policy_maps s) (zone_pairs s) (identities_ip s) (identities_port s) m (add_internet_zone s) (internet_zone_name s) (next_id s).
Definition set_next_id n := mk_session (config_lines s) (zones s) (zone_forwardings s) (filter_policies s) (interfaces s) (acls s) (class_maps s) (object_groups s) (policy_maps s) (zone_pairs s) (identities_ip s) (identities_port s) (object_group_to_identity s) (add_internet_zone s) (internet_zone_name s) n.
End Setters.

(** [uuid.uuid4()] as a counter. *)
Definition uuid (n : N) : string := "uuid-" +:+ pretty n.

(** [_generate_id] *)
Definition generate_id (s : session) : string * session :=
  (uuid (next_id s), set_next_id s (N.succ (next_id s))).

(** [self.port_map] *)
Definition port_map : dict Z :=
  [("http", 80); ("https", 443); ("ssh", 22); ("telnet", 23); ("smtp", 25); ("dns", 53);
   ("domain", 53); ("dhcp", 67); ("tftp", 69); ("ftp", 21); ("pop3", 110); ("imap", 143);
   ("snmp", 161); ("ldap", 389); ("https-alt", 8443); ("mysql", 3306); ("rdp", 3389);
   ("kerberos", 88); ("kpasswd", 464); ("ldaps", 636); ("msrpc", 135); ("netbios-ssn", 139);
   ("netbios-dgm", 138); ("netbios-ns", 137); ("smb", 445); ("microsoft-ds", 445);
   ("citrix", 1494); ("citrix-ica", 1494); ("citrix-xenapp", 1494); ("ntp", 123); ("time", 37);
   ("daytime", 13); ("chargen", 19); ("echo", 7); ("discard", 9); ("systat", 11); ("finger", 79);
   ("whois", 43); ("gopher", 70); ("rje", 77); ("hostname", 101); ("iso-tsap", 102);
   ("acr-nema", 104); ("csnet-ns", 105); ("rtelnet", 107); ("pop-2", 109); ("pop-3", 110);
   ("sunrpc", 111); ("ident", 113); ("auth", 113); ("sftp", 115); ("uucp-path", 117);
   ("nntp", 119); ("pwdgen", 129); ("loc-srv", 135); ("imap2", 143); ("news", 144); ("www", 80);
   ("ftp-data", 20); ("netbios-ss", 139); ("nameserver", 42); ("snmptrap", 162); ("lpd", 515);
   ("cmd", 514); ("syslog", 514); ("tacacs", 49)]%string.

Definition dict_update {V} (k : string) (f : V -> V) (d : dict V) : dict V :=
  map (fun kv => if String.eqb k (fst kv) then (fst kv, f (snd kv)) else kv) d.

Definition starts_any (line : string) (pres : list string) : bool :=
  existsb (Py.startswith line) pres.

(* ------------------------------------------------------------------ *)
(** ** Section parsers ([parse_zones] ... [parse_zone_pairs]) *)

(** [parse_zones] *)
Fixpoint parse_zones_go (lines : list string) (s : session) : session :=
  match lines with
  | [] => s
  | l :: ls =>
      let line := Py.strip l in
      let s' :=
        if Py.startswith line "zone security " then
          let zname := nth 1 (Py.split_sep line "zone security ") "" in
          let (zid, s1) := generate_id s in
          set_zones s1 (dict_set zid (mk_zone zid zname NoDevices) (zones s1))
        else s in
      parse_zones_go ls s'
  end.
Definition parse_zones (s : session) : session := parse_zones_go (config_lines s) s.

Fixpoint find_zone_id_by_name (name : string) (zs : dict zone) : option string :=
  match zs with
  | [] => None
  | (zid, z) :: zs' => if String.eqb (zone_name z) name then Some zid else find_zone_id_by_name name zs'
  end.

Definition add_device (did : string) (dev : zone_device) (z : zone) : zone :=
  mk_zone (zone_id z) (zone_name z)
    match zone_devs z with
    | NoDevices => DeviceDict [(did, dev)]
    | DeviceDict d => DeviceDict (dict_set did dev d)
    | TriggerList l => TriggerList l (* not reached: only the internet zone has triggers *)
    end.

(** [parse_interfaces]; [current_interface] is the dict stored under its name,
    so it is represented by that name. *)
Fixpoint parse_interfaces_go (lines : list string) (cur : option string) (s : session) : session :=
  match lines with
  | [] => s
  | l :: ls =>
      let line := Py.strip l in
      if Py.startswith line "interface " then
        let iname := nth 1 (Py.split_sep line "interface ") "" in
        parse_interfaces_go ls (Some iname)
          (set_interfaces s (dict_set iname (mk_interface iname None None None) (interfaces s)))
      else match cur with
      | Some iname =>
        if Py.startswith line "zone-member security " then
          let zname := nth 1 (Py.split_sep line "zone-member security ") "" in
          let s1 := set_interfaces s (dict_update iname
                      (fun i => mk_interface (if_name i) (Some zname) (if_ip_address i) (if_subnet_mask i))
                      (interfaces s)) in
          let s2 :=
            match find_zone_id_by_name zname (zones s1) with
            | Some zid =>
                let (did, s3) := generate_id s1 in
                set_zones s3 (dict_update zid (add_device did (mk_device did iname "interface")) (zones s3))
            | None => s1
            end in
          parse_interfaces_go ls cur s2
        else if Py.startswith line "ip address " then
          let parts := Py.split line in
          let s1 :=
            if (3 <=? List.length parts)%nat then
              set_interfaces s (dict_update iname
                (fun i => mk_interface (if_name i) (if_zone i) (Some (nth 2 parts ""))
                   (if (4 <=? List.length parts)%nat then Some (nth 3 parts "") else if_subnet_mask i))
                (interfaces s))
            else s in
          parse_interfaces_go ls cur s1
        else if negb (String.eqb line "") && negb (Py.startswith line " ")
                && negb (Py.startswith line "!") && negb (Py.startswith line "interface") then
          parse_interfaces_go ls None s
        else parse_interfaces_go ls cur s
      | None => parse_interfaces_go ls cur s
      end
  end.
Definition parse_interfaces (s : session) : session := parse_interfaces_go (config_lines s) None s.

Definition og_end_prefixes : list string :=
  ["!"; "interface "; "ip "; "router "; "zone "; "class-map "; "policy-map "; "crypto ";
   "line "; "access-list "; "logging "; "ntp "; "snmp-server "; "tacacs "; "banner "; "mgcp ";
   "gatekeeper "; "control-plane "; "scheduler "; "end"].

Definition og_entry_line (line : string) : bool :=
  starts_any line ["host "; "network "; "range "; "description "; "tcp "; "udp "; "tcp-udp "]
  || (negb (String.eqb line "") && negb (starts_any line og_end_prefixes)
      && negb (Py.startswith line "object-group")).

(** The member parsed from one line of a network object-group. *)
Definition network_entry (line : string) : option og_object :=
  if Py.contains "host " line then
    Some (ObjHost (Py.strip (nth 1 (Py.split_sep line "host ") "")))
  else if Py.contains "network " line then
    let parts := Py.split line in
    if (3 <=? List.length parts)%nat then Some (ObjNetwork (nth 1 parts "") (nth 2 parts "")) else None
  else if Py.contains "range " line then
    let parts := Py.split line in
    if (3 <=? List.length parts)%nat then Some (ObjRange (nth 1 parts "") (nth 2 parts "")) else None
  else if negb (Py.startswith line "description ") then
    let parts := Py.split line in
    if (2 <=? List.length parts)%nat then Some (ObjNetwork (nth 0 parts "") (nth 1 parts ""))
    else if (List.length parts =? 1)%nat then Some (ObjHost (nth 0 parts ""))
    else None
  else None.

(** The member parsed from one line of a service object-group;
    the outer [None] is the [ValueError] of [int()] in the range branch. *)
Definition service_entry (line : string) : option (option og_object) :=
  if starts_any line ["tcp "; "udp "; "tcp-udp "] then
    let parts := Py.split line in
    if (3 <=? List.length parts)%nat && String.eqb (nth 1 parts "") "eq" then
      let port := nth 2 parts "" in
      if Py.isdigit port then
        Some (Some (ObjPort (PortNum (default 0 (Py.int port)))))
      else match dict_get port port_map with
      | Some n => Some (Some (ObjPort (PortNum n)))
      | None =>
          match Py.int port with
          | Some n => Some (Some (ObjPort (PortNum n)))
          | None => Some (Some (ObjPort (PortName port)))
          end
      end
    else Some None
  else if Py.contains "range " line then
    let parts := Py.split line in
    if (4 <=? List.length parts)%nat then
      match Py.int (nth 2 parts ""), Py.int (nth 3 parts "") with
      | Some a, Some b => Some (Some (ObjPortRange a b))
      | _, _ => None
      end
    else Some None
  else if Py.contains "object-group " line then
    Some (Some (ObjGroupRef (Py.strip (nth 1 (Py.split_sep line "object-group ") ""))))
  else Some None.

Definition og_append (o : og_object) (g : object_group) : object_group :=
  mk_og (og_name g) (og_type g) (og_objects g ++ [o]).

(** [parse_object_groups]; [None] when a [ValueError] escapes. *)
Fixpoint parse_object_groups_go (lines : list string) (cur : option string) (s : session)
  : option session :=
  match lines with
  | [] => Some s
  | l :: ls =>
      let line := Py.strip l in
      if Py.startswith line "object-group " then
        let parts := Py.split line in
        if (3 <=? List.length parts)%nat then
          let gname := nth 2 parts "" in
          parse_object_groups_go ls (Some gname)
            (set_object_groups s (dict_set gname (mk_og gname (nth 1 parts "") []) (object_groups s)))
        else parse_object_groups_go ls cur s
      else match cur with
      | Some gname =>
        if starts_any line og_end_prefixes then parse_object_groups_go ls None s
        else if og_entry_line line then
          let gtype := match dict_get gname (object_groups s) with Some g => og_type g | None => "" end in
          let entry :=
            if String.eqb gtype "network" then Some (network_entry line)
            else if String.eqb gtype "service" then service_entry line
            else Some None in
          match entry with
          | None => None
          | Some None => parse_object_groups_go ls cur s
          | Some (Some o) =>
              parse_object_groups_go ls cur
                (set_object_groups s (dict_update gname (og_append o) (object_groups s)))
          end
        else if negb (String.eqb line "") && negb (Py.startswith line " ")
                && negb (Py.startswith line "!") && negb (Py.startswith line "object-group") then
          parse_object_groups_go ls None s
        else parse_object_groups_go ls cur s
      | None => parse_object_groups_go ls cur s
      end
  end.
Definition parse_object_groups (s : session) : option session :=
  parse_object_groups_go (config_lines s) None s.

Definition empty_rule (action protocol : string) (pid : Z) : acl_rule :=
  mk_acl_rule action protocol pid None None None None None None None.

Definition with_service (g : string) (r : acl_rule) : acl_rule :=
  mk_acl_rule (r_action r) (r_protocol r) (r_protocol_id r) (Some g) (source_object_group r)
    (destination_object_group r) (source_ip r) (destination_ip r) (source_port r) (destination_port r).
Definition with_src_group (g : string) (r : acl_rule) : acl_rule :=
  mk_acl_rule (r_action r) (r_protocol r) (r_protocol_id r) (service_object_group r) (Some g)
    (destination_object_group r) (source_ip r) (destination_ip r) (source_port r) (destination_port r).
Definition with_dst_group (g : string) (r : acl_rule) : acl_rule :=
  mk_acl_rule (r_action r) (r_protocol r) (r_protocol_id r) (service_object_group r) (source_object_group r)
    (Some g) (source_ip r) (destination_ip r) (source_port r) (destination_port r).
Definition with_src_ip (ip : string) (r : acl_rule) : acl_rule :=
  mk_acl_rule (r_action r) (r_protocol r) (r_protocol_id r) (service_object_group r) (source_object_group r)
    (destination_object_group r) (Some ip) (destination_ip r) (source_port r) (destination_port r).
Definition with_dst_ip (ip : string) (r : acl_rule) : acl_rule :=
  mk_acl_rule (r_action r) (r_protocol r) (r_protocol_id r) (service_object_group r) (source_object_group r)
    (destination_object_group r) (source_ip r) (Some ip) (source_port r) (destination_port r).
Definition with_dst_port (p : string) (r : acl_rule) : acl_rule :=
  mk_acl_rule (r_action r) (r_protocol r) (r_protocol_id r) (service_object_group r) (source_object_group r)
    (destination_object_group r) (source_ip r) (destination_ip r) (source_port r) (Some p).

(** [eq PORT | range P1 P2] after [remaining_parts[4]] *)
Definition port_spec (rem : list string) (r : acl_rule) : acl_rule :=
  if (6 <=? List.length rem)%nat && existsb (String.eqb (nth 4 rem "")) ["eq"; "range"; "lt"; "gt"] then
    if String.eqb (nth 4 rem "") "eq" then with_dst_port (nth 5 rem "") r
    else if String.eqb (nth 4 rem "") "range" && (7 <=? List.length rem)%nat
    then with_dst_port (nth 5 rem "" +:+ "-" +:+ nth 6 rem "") r
    else r
  else r.

Definition parse_source (src : string) (r : acl_rule) : acl_rule :=
  if String.eqb src "any" then with_src_ip "any" r
  else if Py.startswith src "host " then with_src_ip (nth 1 (Py.split_sep src "host ") "") r
  else if Py.startswith src "object-group " then with_src_group (nth 1 (Py.split_sep src "object-group ") "") r
  else with_src_group src r.

Definition parse_destination (dst : string) (r : acl_rule) : acl_rule :=
  if String.eqb dst "any" then with_dst_ip "any" r
  else if Py.startswith dst "host " then with_dst_ip (nth 1 (Py.split_sep dst "host ") "") r
  else if Py.startswith dst "object-group " then with_dst_group (nth 1 (Py.split_sep dst "object-group ") "") r
  else with_dst_group dst r.

Definition is_svc_name (g : string) : bool := Py.startswith g "SVC-" || Py.startswith g "SVCG-".

(** The shape dispatch of [_parse_acl_rule] on [remaining_parts]. *)
Definition parse_rule_shapes (rem : list string) (rule : acl_rule) : acl_rule :=
  let n := List.length rem in
  let r k := nth k rem "" in
  if (6 <=? n)%nat && String.eqb (r 0%nat) "object-group" && String.eqb (r 2%nat) "object-group"
     && String.eqb (r 4%nat) "object-group" then
    with_dst_group (r 5%nat) (with_src_group (r 3%nat) (with_service (r 1%nat) rule))
  else if (4 <=? n)%nat && String.eqb (r 0%nat) "object-group" && String.eqb (r 2%nat) "object-group" then
    if is_svc_name (r 1%nat) && (4 <=? n)%nat then
      let destination := if (4 <? n)%nat then r 4%nat else "any" in
      let rule1 := with_src_group (r 3%nat) (with_service (r 1%nat) rule) in
      if String.eqb destination "any" then with_dst_ip "any" rule1
      else if Py.startswith destination "object-group " then
        with_dst_group (nth 1 (Py.split_sep destination "object-group ") "") rule1
      else with_dst_group destination rule1
    else port_spec rem (with_dst_group (r 3%nat) (with_src_group (r 1%nat) rule))
  else if (5 <=? n)%nat && String.eqb (r 0%nat) "object-group" && String.eqb (r 2%nat) "host" then
    port_spec rem (with_dst_ip (r 3%nat) (with_src_group (r 1%nat) rule))
  else if (5 <=? n)%nat && String.eqb (r 0%nat) "object-group" && String.eqb (r 2%nat) "object-group"
          && String.eqb (r 4%nat) "eq" then
    with_dst_port (r 5%nat) (with_dst_group (r 3%nat) (with_src_group (r 1%nat) rule))
  else if (n =? 2)%nat then
    parse_destination (r 1%nat) (parse_source (r 0%nat) rule)
  else if (n =? 1)%nat then
    parse_source (r 0%nat) (with_dst_ip "any" rule)
  else rule.

(** [protocol] and [remaining_parts] of [_parse_acl_rule]. *)
Definition protocol_and_rest (parts : list string) : string * list string :=
  if (1 <? List.length parts)%nat
     && existsb (String.eqb (Py.lower (nth 1 parts ""))) ["tcp"; "udp"; "icmp"; "ip"]
  then (nth 1 parts "", skipn 2 parts)
  else ("ip", skipn 1 parts).

(** [_parse_acl_rule] *)
Definition parse_acl_rule (line : string) : option acl_rule :=
  let original_line := Py.strip line in
  if String.eqb original_line "" || Py.startswith original_line "!" then None
  else if Py.startswith original_line "permit " || Py.startswith original_line "deny " then
    let parts := Py.split original_line in
    let action := nth 0 parts "" in
    let '(protocol, remaining_parts) := protocol_and_rest parts in
    let protocol_id := default 6 (dict_get (Py.lower protocol) [("tcp", 6); ("udp", 17); ("icmp", 1); ("ip", 0)]) in
    let rule := empty_rule (if String.eqb action "permit" then "allow" else "deny") protocol protocol_id in
    Some (parse_rule_shapes remaining_parts rule)
  else None.

Definition acl_append (r : acl_rule) (a : acl) : acl := mk_acl (acl_name a) (acl_rules a ++ [r]).

(** [parse_acls] *)
Fixpoint parse_acls_go (lines : list string) (cur : option string) (s : session) : session :=
  match lines with
  | [] => s
  | l :: ls =>
      let line := Py.strip l in
      if Py.startswith line "ip access-list extended " then
        let aname := nth 1 (Py.split_sep line "ip access-list extended ") "" in
        parse_acls_go ls (Some aname) (set_acls s (dict_set aname (mk_acl aname []) (acls s)))
      else match cur with
      | Some aname =>
        if Py.startswith line " " || Py.startswith line "permit " || Py.startswith line "deny " then
          match parse_acl_rule line with
          | Some rule => parse_acls_go ls cur (set_acls s (dict_update aname (acl_append rule) (acls s)))
          | None => parse_acls_go ls cur s
          end
        else if negb (String.eqb line "") && negb (Py.startswith line " ")
                && negb (Py.startswith line "!") && negb (Py.startswith line "ip access-list") then
          parse_acls_go ls None s
        else parse_acls_go ls cur s
      | None => parse_acls_go ls cur s
      end
  end.
Definition parse_acls (s : session) : session := parse_acls_go (config_lines s) None s.

(** [parse_class_maps] *)
Fixpoint parse_class_maps_go (lines : list string) (cur : option string) (s : session) : session :=
  match lines with
  | [] => s
  | l :: ls =>
      let line := Py.strip l in
      if Py.startswith line "class-map type inspect match-any " then
        let cname := nth 1 (Py.split_sep line "class-map type inspect match-any ") "" in
        parse_class_maps_go ls (Some cname)
          (set_class_maps s (dict_set cname (mk_cm cname "match-any" [] []) (class_maps s)))
      else match cur with
      | Some cname =>
        if Py.startswith line "match access-group name " then
          let a := nth 3 (Py.split line) "" in
          parse_class_maps_go ls cur (set_class_maps s (dict_update cname
            (fun c => mk_cm (cm_name c) (cm_match_type c) (acl_references c ++ [a]) (object_group_references c))
            (class_maps s)))
        else if Py.startswith line "match object-group " then
          let g := nth 2 (Py.split line) "" in
          parse_class_maps_go ls cur (set_class_maps s (dict_update cname
            (fun c => mk_cm (cm_name c) (cm_match_type c) (acl_references c) (object_group_references c ++ [g]))
            (class_maps s)))
        else if negb (String.eqb line "") && negb (Py.startswith line " ") && negb (Py.startswith line "!")
                && negb (Py.startswith line "class-map") && negb (Py.startswith line "policy-map") then
          parse_class_maps_go ls None s
        else parse_class_maps_go ls cur s
      | None => parse_class_maps_go ls cur s
      end
  end.
Definition parse_class_maps (s : session) : session := parse_class_maps_go (config_lines s) None s.

Fixpoint map_last {A} (f : A -> A) (l : list A) : list A :=
  match l with
  | [] => []
  | [x] => [f x]
  | x :: l' => x :: map_last f l'
  end.

(** [parse_policy_maps]; [None] is the [IndexError] of [class_actions[-1]]. *)
Fixpoint parse_policy_maps_go (lines : list string) (cur : option string) (s : session)
  : option session :=
  match lines with
  | [] => Some s
  | l :: ls =>
      let line := Py.strip l in
      if Py.startswith line "policy-map type inspect " then
        let pname := nth 1 (Py.split_sep line "policy-map type inspect ") "" in
        parse_policy_maps_go ls (Some pname)
          (set_policy_maps s (dict_set pname (mk_pm pname []) (policy_maps s)))
      else match cur with
      | Some pname =>
        if Py.startswith line "class type inspect " then
          let cname := nth 1 (Py.split_sep line "class type inspect ") "" in
          parse_policy_maps_go ls cur (set_policy_maps s (dict_update pname
            (fun p => mk_pm (pm_name p) (pm_class_actions p ++ [mk_ca cname []])) (policy_maps s)))
        else if Py.startswith line "  " then
          let act :=
            if Py.contains "inspect " line then Some (ActInspect (Py.strip (nth 1 (Py.split_sep line "inspect ") "")))
            else if Py.contains "drop" line then Some ActDrop
            else if Py.contains "pass" line then Some ActPass
            else None in
          match act with
          | None => parse_policy_maps_go ls cur s
          | Some a =>
              match dict_get pname (policy_maps s) with
              | Some p =>
                  match pm_class_actions p with
                  | [] => None
                  | _ => parse_policy_maps_go ls cur (set_policy_maps s (dict_update pname
                           (fun p => mk_pm (pm_name p) (map_last (fun ca => mk_ca (ca_class_name ca) (ca_actions ca ++ [a])) (pm_class_actions p)))
                           (policy_maps s)))
                  end
              | None => parse_policy_maps_go ls cur s
              end
          end
        else if negb (String.eqb line "") && negb (Py.startswith line " ") && negb (Py.startswith line "!")
                && negb (Py.startswith line "class-map") && negb (Py.startswith line "policy-map") then
          parse_policy_maps_go ls None s
        else parse_policy_maps_go ls cur s
      | None => parse_policy_maps_go ls cur s
      end
  end.
Definition parse_policy_maps (s : session) : option session := parse_policy_maps_go (config_lines s) None s.

(** The [source]/[destination] keyword scan of a zone-pair line (last occurrence wins). *)
Fixpoint zp_endpoints (parts : list string) (src dst : option string) : option string * option string :=
  match parts with
  | p :: ((q :: _) as rest) =>
      if String.eqb p "source" then zp_endpoints rest (Some q) dst
      else if String.eqb p "destination" then zp_endpoints rest src (Some q)
      else zp_endpoints rest src dst
  | _ => (src, dst)
  end.

(** One line of [parse_zone_pairs]. *)
Definition zone_pairs_step (line0 : string) (zps : dict zone_pair) : dict zone_pair :=
  let line := Py.strip line0 in
  if Py.startswith line "zone-pair security " then
    let parts := Py.split line in
    if (6 <=? List.length parts)%nat then
      let pair_name := nth 2 parts "" in
      match zp_endpoints parts None None with
      | (Some sz, Some dz) =>
          if negb (String.eqb sz "") && negb (String.eqb dz "")
          then dict_set pair_name (mk_zp pair_name sz dz None) zps
          else zps
      | _ => zps
      end
    else zps
  else if Py.startswith line "service-policy type inspect " then
    let parts := Py.split line in
    if (4 <=? List.length parts)%nat then
      (* the last value of [self.zone_pairs] is updated in place *)
      map_last (fun kv => (fst kv, mk_zp (zp_name (snd kv)) (zp_source_zone (snd kv))
                                    (zp_destination_zone (snd kv)) (Some (nth 3 parts ""))))
               zps
    else zps
  else zps.

Fixpoint parse_zone_pairs_go (lines : list string) (zps : dict zone_pair) : dict zone_pair :=
  match lines with
  | [] => zps
  | l :: ls => parse_zone_pairs_go ls (zone_pairs_step l zps)
  end.
Definition parse_zone_pairs (s : session) : session :=
  set_zone_pairs s (parse_zone_pairs_go (config_lines s) (zone_pairs s)).

(* ------------------------------------------------------------------ *)
(** ** Identity builder ([create_identities]) *)

Fixpoint pos_popcount (p : positive) : Z :=
  match p with
  | xH => 1
  | xO p' => pos_popcount p'
  | xI p' => 1 + pos_popcount p'
  end.
(** [bin(n).count('1')] *)
Definition popcount (n : Z) : Z :=
  match n with Z0 => 0 | Zpos p => pos_popcount p | Zneg p => pos_popcount p end.

(** [_cidr_from_mask]; a failing [int()] lands in the bare [except]. *)
Definition cidr_from_mask (mask : string) : string :=
  if Py.startswith mask "255." then
    let octs := map Py.int (Py.split_sep mask ".") in
    if forallb (fun o => match o with Some _ => true | None => false end) octs
    then "/" +:+ Py.str_Z (fold_left (fun acc o => acc + popcount (default 0 o)) octs 0)
    else "/32"
  else if Py.startswith mask "/" then mask
  else "/" +:+ mask.

(** The [members] dict of a network object-group, keyed by [str(i)]. *)
Fixpoint ip_members_go (objs : list og_object) (i n : nat) (m : dict string) : dict string :=
  match objs with
  | [] => m
  | o :: os =>
      let m' :=
        match o with
        | ObjHost v => if Ip.is_valid_ip_address v then dict_set (Py.str_nat i) v m else m
        | ObjNetwork net mask =>
            if Ip.is_valid_ip_address net then dict_set (Py.str_nat i) (net +:+ cidr_from_mask mask) m else m
        | ObjRange a b =>
            if Ip.is_valid_ip_address a && Ip.is_valid_ip_address b then
              let m1 := dict_set (Py.str_nat i) a m in
              if (S i <? n)%nat then dict_set (Py.str_nat (S i)) b m1 else m1
            else m
        | _ => m
        end in
      ip_members_go os (S i) n m'
  end.

Fixpoint create_ip_identities_go (groups : list (string * object_group)) (s : session) : session :=
  match groups with
  | [] => s
  | (gname, g) :: gs =>
      if String.eqb (og_type g) "network" && negb (Nat.eqb (List.length (og_objects g)) 0) then
        let (iid, s1) := generate_id s in
        let members := ip_members_go (og_objects g) 0 (List.length (og_objects g)) [] in
        let s2 :=
          match members with
          | [] => s1
          | _ => set_og_map (set_identities_ip s1 (identities_ip s1 ++ [mk_ipi iid gname "" (dict_values members)]))
                   (dict_set gname iid (object_group_to_identity s1))
          end in
        create_ip_identities_go gs s2
      else create_ip_identities_go gs s
  end.

Definition major_section_prefixes : list string :=
  ["class-map "; "policy-map "; "zone-pair "; "ip access-list "; "interface "; "router "; "zone security "].

(** [try: int(p) except ValueError: port_map lookup] *)
Definition scan_port (tok : string) : option Z :=
  match Py.int tok with Some p => Some p | None => dict_get tok port_map end.

(** The re-scan of a service group's block in the raw lines, shared by
    [_get_protocol_identities_for_service_group] and [create_identities]
    (which repeats the same loop inline).  Returns [(tcp_ports, udp_ports)]. *)
Fixpoint scan_service_go (lines : list string) (name : string) (inside : bool)
  (tcp udp : list Z) : list Z * list Z :=
  match lines with
  | [] => (tcp, udp)
  | l :: ls =>
      let line := Py.strip l in
      if Py.startswith line ("object-group service " +:+ name)
         || Py.startswith line ("object-group service " +:+ name +:+ " ") then
        scan_service_go ls name true tcp udp
      else if inside then
        if Py.startswith line "!" then (tcp, udp)
        else if Py.startswith line "object-group " then (tcp, udp)
        else if starts_any line major_section_prefixes then (tcp, udp)
        else if String.eqb line "" || Py.startswith line "description " then
          scan_service_go ls name inside tcp udp
        else
          let parts := Py.split line in
          let port := if (3 <=? List.length parts)%nat && String.eqb (nth 1 parts "") "eq"
                      then scan_port (nth 2 parts "") else None in
          if Py.startswith line "tcp " then
            scan_service_go ls name inside (match port with Some p => Py.set_add p tcp | None => tcp end) udp
          else if Py.startswith line "udp " then
            scan_service_go ls name inside tcp (match port with Some p => Py.set_add p udp | None => udp end)
          else if Py.startswith line "tcp-udp " then
            match port with
            | Some p => scan_service_go ls name inside (Py.set_add p tcp) (Py.set_add p udp)
            | None => scan_service_go ls name inside tcp udp
            end
          else scan_service_go ls name inside tcp udp
      else scan_service_go ls name inside tcp udp
  end.
Definition scan_service_group (lines : list string) (name : string) : list Z * list Z :=
  scan_service_go lines name false [] [].

(** [_get_protocol_identities_for_service_group] *)
Definition get_protocol_identities_for_service_group (s : session) (name : string) : list Z :=
  match dict_get name (object_groups s) with
  | None => [6]
  | Some g =>
      if negb (String.eqb (og_type g) "service") then [6] else
      match scan_service_group (config_lines s) name with
      | (_ :: _, _ :: _) => [6; 17]
      | (_ :: _, []) => [6]
      | ([], _ :: _) => [17]
      | ([], []) => [6]
      end
  end.

(** Members of a single-protocol service group. *)
Fixpoint port_members (objs : list og_object) (ogmap : dict string) : list (Z * Z) :=
  match objs with
  | [] => []
  | o :: os =>
      let m :=
        match o with
        | ObjPort (PortNum n) => [(n, n)]
        | ObjPort (PortName nm) =>
            match dict_get nm port_map with
            | Some n => [(n, n)]
            | None => match Py.int nm with Some n => [(n, n)] | None => [] (* warning, skipped *) end
            end
        | ObjPortRange a b => [(a, b)]
        | ObjGroupRef r => if dict_mem r ogmap then [(0, 0)] (* placeholder *) else []
        | _ => []
        end in
      m ++ port_members os ogmap
  end.

(** One protocol identity [<group>-TCP] / [<group>-UDP] of a mixed group. *)
Definition add_proto_identity (gname suffix lsuffix : string) (ports : list Z) (s : session)
  : option string * session :=
  match ports with
  | [] => (None, s)
  | _ =>
      let (pid, s1) := generate_id s in
      let s2 := set_identities_port s1 (identities_port s1 ++
                  [mk_pti pid (gname +:+ "-" +:+ suffix) (map (fun p => (p, p)) ports)]) in
      (Some pid, set_og_map s2 (dict_set (gname +:+ "-" +:+ lsuffix) pid
                               (dict_set (gname +:+ "-" +:+ suffix) pid (object_group_to_identity s2))))
  end.

Fixpoint create_port_identities_go (groups : list (string * object_group)) (s : session) : session :=
  match groups with
  | [] => s
  | (gname, g) :: gs =>
      if String.eqb (og_type g) "service" && negb (Nat.eqb (List.length (og_objects g)) 0) then
        let protos := get_protocol_identities_for_service_group s gname in
        if (1 <? List.length protos)%nat then
          let (tcp_ports, udp_ports) := scan_service_group (config_lines s) gname in
          let (tid, s1) := add_proto_identity gname "TCP" "tcp" tcp_ports s in
          let (uid, s2) := add_proto_identity gname "UDP" "udp" udp_ports s1 in
          let s3 :=
            match tid, uid with
            | Some t, _ => set_og_map s2 (dict_set gname t (object_group_to_identity s2))
            | None, Some u => set_og_map s2 (dict_set gname u (object_group_to_identity s2))
            | None, None => s2
            end in
          create_port_identities_go gs s3
        else
          let (iid, s1) := generate_id s in
          let members := port_members (og_objects g) (object_group_to_identity s1) in
          let s2 :=
            match members with
            | [] => s1
            | _ => set_og_map (set_identities_port s1 (identities_port s1 ++ [mk_pti iid gname members]))
                     (dict_set gname iid (object_group_to_identity s1))
            end in
          create_port_identities_go gs s2
      else create_port_identities_go gs s
  end.

(** [create_identities] *)
Definition create_identities (s : session) : session :=
  let s1 := create_ip_identities_go (object_groups s) s in
  create_port_identities_go (object_groups s1) s1.

(* ------------------------------------------------------------------ *)
(** ** Rule translator ([_convert_acl_rule_to_cradlepoint] and helpers) *)

Definition ip_identity_name (ip : string) : string := "IP-" +:+ Py.replace ip "." "-".

Fixpoint find_ip_identity (name : string) (l : list ip_identity) : option string :=
  match l with
  | [] => None
  | i :: l' => if String.eqb (ipi_name i) name then Some (ipi_id i) else find_ip_identity name l'
  end.

(** [_get_or_create_ip_identity] *)
Definition get_or_create_ip_identity (s : session) (ip : string) : option string * session :=
  if negb (Ip.is_valid_ip_address ip) then (None, s) else
  match find_ip_identity (ip_identity_name ip) (identities_ip s) with
  | Some iid => (Some iid, s)
  | None =>
      let (iid, s1) := generate_id s in
      (Some iid, set_identities_ip s1 (identities_ip s1 ++ [mk_ipi iid (ip_identity_name ip) "" [ip]]))
  end.

Fixpoint find_port_identity (name : string) (l : list port_identity) : option string :=
  match l with
  | [] => None
  | i :: l' => if String.eqb (pti_name i) name then Some (pti_id i) else find_port_identity name l'
  end.

(** [_get_or_create_port_identity] *)
Definition get_or_create_port_identity (s : session) (port : string) : option string * session :=
  match find_port_identity ("PORT-" +:+ port) (identities_port s) with
  | Some pid => (Some pid, s)
  | None =>
      let svc_hit :=
        match dict_get port (object_groups s) with
        | Some g => if String.eqb (og_type g) "service" then dict_get port (object_group_to_identity s) else None
        | None => None
        end in
      match svc_hit with
      | Some pid => (Some pid, s)
      | None =>
          match Py.int port with
          | Some n =>
              let (pid, s1) := generate_id s in
              (Some pid, set_identities_port s1 (identities_port s1 ++ [mk_pti pid ("PORT-" +:+ port) [(n, n)]]))
          | None => (None, s)
          end
      end
  end.

(** [_get_protocol_identity] *)
Definition get_protocol_identity (protocol : string) : Z :=
  default 6 (dict_get (Py.lower protocol)
    [("tcp", 6); ("udp", 17); ("icmp", 1); ("icmpv4", 1); ("icmpv6", 58); ("ip", 0); ("ipv4", 0);
     ("ipv6", 0); ("gre", 47); ("esp", 50); ("sctp", 132); ("any", 0)]).

Definition is_service_group (s : session) (g : string) : bool :=
  match dict_get g (object_groups s) with Some og => String.eqb (og_type og) "service" | None => false end.

(** [_get_protocol_identity_for_rule].  The UDP test loops over
    [service_group.get('members', [])], which is always [[]]: object-group
    records carry ['objects'], not ['members'].  So a service group gives 6. *)
Definition get_protocol_identity_for_rule (s : session) (r : acl_rule) : Z :=
  let protocol := Py.lower (r_protocol r) in
  let svc_ref (o : option string) :=
    match o with
    | Some g => negb (String.eqb g "") && is_svc_name g && is_service_group s g
    | None => false
    end in
  if svc_ref (source_object_group r) then 6
  else if svc_ref (destination_object_group r) then 6
  else if existsb (String.eqb protocol) ["tcp"; "udp"; "icmp"; "icmpv4"; "icmpv6"; "gre"; "esp"; "sctp"]
  then get_protocol_identity protocol
  else 6.

Definition normalize_name (name : string) : string :=
  let n1 := Py.replace (Py.replace name "object-group" "") "service-group" "" in
  let n2 := Py.replace (Py.replace (Py.replace (Py.replace n1 "NET-" "") "HOSTG-" "") "HOST-" "") "NETG-" "" in
  let n3 := Py.strip n2 in
  if String.eqb n3 "" then "GROUP" else Py.upper n3.

(** The fallback naming of [_create_rule_name] (no ACL name). *)
Definition fallback_rule_name (r : acl_rule) (destination_zone : option string) : string :=
  let zone_nm := match destination_zone with Some z => if String.eqb z "" then "ANY" else z | None => "ANY" end in
  let by_protocol := if negb (String.eqb (r_protocol r) "ip") then Py.upper (r_protocol r) else "ANY" in
  let dst_service :=
    match destination_port r with
    | Some p => if negb (String.eqb p "any") then Some p else None
    | None => None
    end in
  let dst_service :=
    match dst_service with
    | Some p => p
    | None =>
        match destination_object_group r with
        | Some g => if String.eqb g "object-group" then "GROUP" else normalize_name g
        | None =>
            match destination_ip r with
            | Some ip => if negb (String.eqb ip "any") then normalize_name (Py.replace ip "." "-") else by_protocol
            | None => by_protocol
            end
        end
    end in
  zone_nm +:+ " " +:+ dst_service.

(** [_create_rule_name] *)
Definition create_rule_name (s : session) (r : acl_rule) (destination_zone acl_nm : option string)
  (rule_index : Z) : string :=
  match acl_nm with
  | Some a =>
      if String.eqb a "" then fallback_rule_name r destination_zone else
      let clean := Py.replace (Py.replace (Py.replace a "ACL_" "") "ACL-" "") "_" "-" in
      match dict_get a (acls s) with
      | Some ac =>
          if (1 <? List.length (acl_rules ac))%nat && negb (rule_index =? -1)
          then clean +:+ "-" +:+ Py.str_Z (rule_index + 1)
          else clean
      | None => clean
      end
  | None => fallback_rule_name r destination_zone
  end.

Definition opt_list {A} (o : option A) : list A := match o with Some x => [x] | None => [] end.

Fixpoint mapi_go {A B} (f : Z -> A -> B) (i : Z) (l : list A) : list B :=
  match l with [] => [] | x :: l' => f i x :: mapi_go f (i + 1) l' end.

Definition protocol_name (pid : Z) : string :=
  if pid =? 6 then "TCP" else if pid =? 17 then "UDP" else if pid =? 1 then "ICMP"
  else "PROTO-" +:+ Py.str_Z pid.

(** [# Handle source] of [_convert_acl_rule_to_cradlepoint]. *)
Definition source_identities (s : session) (r : acl_rule) : list string * session :=
  match source_object_group r with
  | Some g => (opt_list (dict_get g (object_group_to_identity s)), s)
  | None =>
      match source_ip r with
      | Some ip => if negb (String.eqb ip "any")
                   then let '(o, s') := get_or_create_ip_identity s ip in (opt_list o, s')
                   else ([], s)
      | None => ([], s)
      end
  end.

(** [# Handle destination (IP, not port)] *)
Definition destination_identities (s : session) (r : acl_rule) : list string * session :=
  match destination_object_group r with
  | Some g =>
      (match dict_get g (object_group_to_identity s) with
       | Some iid => if negb (is_svc_name g) then [iid] else []
       | None => []
       end, s)
  | None =>
      match destination_ip r with
      | Some ip => if negb (String.eqb ip "any")
                   then let '(o, s') := get_or_create_ip_identity s ip in (opt_list o, s')
                   else ([], s)
      | None => ([], s)
      end
  end.

(** [# Handle source ports] *)
Definition source_port_identities (s : session) (r : acl_rule) : list string * session :=
  match source_port r with
  | Some p => let '(o, s') := get_or_create_port_identity s p in (opt_list o, s')
  | None => ([], s)
  end.

(** [# Handle destination ports (non-service-group)] *)
Definition non_service_dst_port_identities (s : session) (r : acl_rule) : list string * session :=
  match destination_port r, service_object_group r with
  | Some p, None => let '(o, s') := get_or_create_port_identity s p in (opt_list o, s')
  | _, _ => ([], s)
  end.

(** The rules built from the identities: one per protocol of a
    mixed-protocol service group, one otherwise. *)
Definition build_rules (s : session) (r : acl_rule) (rule_index : Z) (destination_zone acl_nm : option string)
  (src_ids dst_ids src_ports non_service_dst_ports : list string) : list frule :=
  let base_rule_name := create_rule_name s r destination_zone acl_nm (-1) in
  let mk name prio protos dports :=
    mk_frule (r_action r) "ip4" name prio protos
      (mk_side (Some src_ids) (Some src_ports))
      (Some (mk_side (Some dst_ids) (Some dports))) in
  match service_object_group r with
  | Some sg =>
      let protocol_identities := get_protocol_identities_for_service_group s sg in
      if (1 <? List.length protocol_identities)%nat then
        mapi_go (fun i pid =>
           let key := if pid =? 6 then Some "TCP" else if pid =? 17 then Some "UDP" else None in
           let dpi := match key with
                      | Some k => opt_list (dict_get (sg +:+ "-" +:+ k) (object_group_to_identity s))
                      | None => []
                      end in
           mk (base_rule_name +:+ "-" +:+ protocol_name pid) ((rule_index + i) * 10)
              (ProtoIds [("0", pid)]) (dpi ++ non_service_dst_ports))
           0 protocol_identities
      else
        let pid := match protocol_identities with p :: _ => p | [] => 6 end in
        let dpi := opt_list (dict_get sg (object_group_to_identity s)) in
        [mk base_rule_name (rule_index * 10) (ProtoIds [("0", pid)]) (dpi ++ non_service_dst_ports)]
  | None =>
      let protocol := Py.lower (r_protocol r) in
      let pid := get_protocol_identity_for_rule s r in
      let protos := if existsb (String.eqb protocol) ["ip"; "ipv4"; "ipv6"; "any"]
                    then ProtoAny else ProtoIds [("0", pid)] in
      [mk base_rule_name (rule_index * 10) protos non_service_dst_ports]
  end.

(** [_convert_acl_rule_to_cradlepoint] *)
Definition convert_acl_rule (s : session) (r : acl_rule) (rule_index : Z)
  (destination_zone acl_nm : option string) : list frule * session :=
  let '(src_ids, s1) := source_identities s r in
  let '(dst_ids, s2) := destination_identities s1 r in
  let '(src_ports, s3) := source_port_identities s2 r in
  let '(non_service_dst_ports, s4) := non_service_dst_port_identities s3 r in
  (build_rules s4 r rule_index destination_zone acl_nm src_ids dst_ids src_ports non_service_dst_ports, s4).

(* ------------------------------------------------------------------ *)
(** ** Rule consolidator ([_consolidate_rules], [_merge_rules], [_handle_duplicate_rule_names]) *)

(** [_get_rule_protocol_key] *)
Definition rule_protocol_key (r : frule) : string :=
  match fr_protocols r with
  | ProtoAny => "any"
  | ProtoIds l => Py.join "_" (Py.sorted (map (fun kv => Py.str_Z (snd kv)) l))
  end.

Definition side_ports (o : option side) : list string :=
  match o with Some sd => default [] (side_port sd) | None => [] end.
Definition side_ips (o : option side) : list string :=
  match o with Some sd => default [] (side_ip sd) | None => [] end.

(** [_get_rule_port_key] *)
Definition rule_port_key (r : frule) : string :=
  "dst_" +:+ Py.join "_" (Py.sorted (side_ports (fr_dst r)))
  +:+ "_src_" +:+ Py.join "_" (Py.sorted (side_ports (Some (fr_src r)))).

(** [_get_rule_ip_key] *)
Definition ip_key (ids : list string) : string :=
  match ids with [] => "any" | _ => Py.join "_" (Py.sorted ids) end.
Definition rule_src_ip_key (r : frule) : string := ip_key (side_ips (Some (fr_src r))).
Definition rule_dst_ip_key (r : frule) : string := ip_key (side_ips (fr_dst r)).

Definition group_key (r : frule) : string :=
  fr_action r +:+ "_" +:+ rule_protocol_key r +:+ "_" +:+ rule_port_key r
  +:+ "_" +:+ rule_src_ip_key r +:+ "_" +:+ rule_dst_ip_key r.

(** Duplicate removal by identity id, first occurrence kept. *)
Fixpoint dedup_go (seen : list string) (l : list string) : list string :=
  match l with
  | [] => []
  | x :: l' => if existsb (String.eqb x) seen then dedup_go seen l' else x :: dedup_go (seen ++ [x]) l'
  end.
Definition dedup (l : list string) : list string := dedup_go [] l.

(** [_merge_rules] on a non-empty group.  The base rule's ['dst'] is written
    through; every rule reaching consolidation has one (rules without it are
    the [DENY-] rules of policy-map [drop] actions, which [parse_policy_maps]
    never records, since it reads stripped lines for indented actions). *)
Definition merge_rules (rs : list frule) : option frule :=
  match rs with
  | [] => None
  | base :: _ =>
      let src_ips := dedup (flat_map (fun r => side_ips (Some (fr_src r))) rs) in
      let dst_ips := dedup (flat_map (fun r => side_ips (fr_dst r)) rs) in
      let src_ports := dedup (flat_map (fun r => side_ports (Some (fr_src r))) rs) in
      let dst_ports := dedup (flat_map (fun r => side_ports (fr_dst r)) rs) in
      Some (mk_frule (fr_action base) (fr_ip_version base) (fr_name base) (fr_priority base)
              (fr_protocols base) (mk_side (Some src_ips) (Some src_ports))
              (Some (mk_side (Some dst_ips) (Some dst_ports))))
  end.

Fixpoint group_rules (rs : list frule) (groups : dict (list frule)) : dict (list frule) :=
  match rs with
  | [] => groups
  | r :: rs' =>
      let k := group_key r in
      group_rules rs' (dict_set k (default [] (dict_get k groups) ++ [r]) groups)
  end.

Definition rename (nm : string) (r : frule) : frule :=
  mk_frule (fr_action r) (fr_ip_version r) nm (fr_priority r) (fr_protocols r) (fr_src r) (fr_dst r).

Fixpoint index_of (x : string) (l : list string) : nat :=
  match l with [] => 0 | y :: l' => if String.eqb x y then 0 else S (index_of x l') end.

Fixpoint keyed_go {A} (i : nat) (l : list A) : dict A :=
  match l with [] => [] | x :: l' => (Py.str_nat i, x) :: keyed_go (S i) l' end.
(** A list stored as the dict [{"0": x0, "1": x1, ...}]. *)
Definition keyed {A} (l : list A) : dict A := keyed_go 0 l.

(** [_handle_duplicate_rule_names] *)
Definition handle_duplicate_rule_names (rules : list frule) : list frule :=
  let kr := keyed rules in
  let name_counts :=
    fold_left (fun nc kv => dict_set (fr_name (snd kv)) (default [] (dict_get (fr_name (snd kv)) nc) ++ [fst kv]) nc)
      kr [] in
  map (fun kv =>
         let same := default [] (dict_get (fr_name (snd kv)) name_counts) in
         if (1 <? List.length same)%nat
         then rename (fr_name (snd kv) +:+ "-" +:+ Py.str_nat (S (index_of (fst kv) same))) (snd kv)
         else snd kv) kr.

(** [_consolidate_rules] *)
Definition consolidate_rules (rules : list frule) : list frule :=
  let groups := group_rules rules [] in
  let merged :=
    flat_map (fun kv => match snd kv with
                        | [r] => [r]
                        | rs => opt_list (merge_rules rs)
                        end) groups in
  handle_duplicate_rule_names merged.


(** The leading run of ASCII digits of a character list, and the rest. *)
Fixpoint digit_span (l : list ascii) : list ascii * list ascii :=
  match l with
  | c :: l' => if Py.is_digit c then let '(ds, r) := digit_span l' in (c :: ds, r) else ([], l)
  | [] => ([], [])
  end.

(** [re.sub(r'-\d+$', '', name)] on ASCII: [$] also matches before a single
    final newline, which is kept. *)
Definition strip_index_suffix (name : string) : string :=
  let l := String.list_ascii_of_string name in
  let '(body, tail) :=
    match rev l with
    | c :: r => if Ascii.eqb c "010"%char then (rev r, [c]) else (l, [])
    | [] => (l, [])
    end in
  match digit_span (rev body) with
  | (_ :: _, "-"%char :: rest) => String.string_of_list_ascii (rev rest ++ tail)
  | _ => name
  end.

(** [_update_rule_name_with_index] *)
Definition update_rule_name_with_index (rule_name : string) (new_index : Z) : string :=
  strip_index_suffix rule_name +:+ "-" +:+ Py.str_Z new_index.

(* ------------------------------------------------------------------ *)
(** ** Policy & forwarding assembler *)

(** [_is_acl_applied_somewhere] *)
Definition is_acl_applied_somewhere (s : session) (a : string) : bool :=
  existsb (fun l => let line := Py.strip l in
                    Py.contains ("ip access-group " +:+ a) line || Py.contains ("access-group " +:+ a) line)
    (config_lines s)
  || existsb (fun l => let line := Py.strip l in
                       Py.contains a line && (Py.contains "service-policy" line || Py.contains "zone-pair" line))
    (config_lines s).

(** Converts the rules of one ACL, numbering them from [rule_index];
    returns the produced rules, the next index and the session. *)
Fixpoint convert_acl_rules (s : session) (rs : list acl_rule) (rule_index : Z)
  (destination_zone acl_nm : option string) : list frule * Z * session :=
  match rs with
  | [] => ([], rule_index, s)
  | r :: rs' =>
      let '(crs, s1) := convert_acl_rule s r rule_index destination_zone acl_nm in
      let '(more, idx, s2) :=
        convert_acl_rules s1 rs' (rule_index + Z.of_nat (List.length crs)) destination_zone acl_nm in
      (crs ++ more, idx, s2)
  end.

Definition add_policy (pid : string) (p : filter_policy) (s : session) : session :=
  set_policies s (dict_set pid p (filter_policies s)).

(** Orphan-ACL pass of [create_filter_policies]. *)
Fixpoint acl_policies_go (acls_used : list string) (l : list (string * acl)) (s : session) : session :=
  match l with
  | [] => s
  | (aname, a) :: l' =>
      if negb (existsb (String.eqb aname) acls_used) && is_acl_applied_somewhere s aname then
        let (pid, s1) := generate_id s in
        let '(rules, _, s2) := convert_acl_rules s1 (acl_rules a) 0 None (Some aname) in
        match rules with
        | [] => acl_policies_go acls_used l' s2
        | _ => acl_policies_go acls_used l'
                 (add_policy pid (mk_fp pid aname "deny" (RulesDict (consolidate_rules rules))) s2)
        end
      else acl_policies_go acls_used l' s
  end.

(** The rules one class action contributes to a policy-map policy. *)
Definition class_action_rules (s : session) (ca : class_action) (rule_index : Z) (dz : string)
  : list frule * Z * session :=
  let '(rules1, idx1, s1) :=
    match dict_get (ca_class_name ca) (class_maps s) with
    | Some cm =>
        let '(racl, idx, s') :=
          fold_left (fun acc acl_ref =>
              let '(rs, idx, st) := acc in
              match dict_get acl_ref (acls st) with
              | Some a =>
                  let '(crs, idx', st') := convert_acl_rules st (acl_rules a) idx (Some dz) (Some acl_ref) in
                  (rs ++ crs, idx', st')
              | None => acc
              end) (acl_references cm) ([], rule_index, s) in
        let '(robj, idx2) :=
          fold_left (fun acc g =>
              let '(rs, idx) := acc in
              match dict_get g (object_group_to_identity s') with
              | Some iid =>
                  (rs ++ [mk_frule "allow" "ip4" ("OBJ-" +:+ g) (idx * 10) (ProtoIds [("0", 6)])
                            (mk_side (Some []) (Some [])) (Some (mk_side (Some [iid]) (Some [])))],
                   idx + 1)
              | None => acc
              end) (object_group_references cm) ([], idx) in
        (racl ++ robj, idx2, s')
    | None => ([], rule_index, s)
    end in
  let '(rdrop, idx3) :=
    fold_left (fun acc act =>
        let '(rs, idx) := acc in
        match act with
        | ActDrop => (rs ++ [mk_frule "deny" "ip4" ("DENY-" +:+ ca_class_name ca) (idx * 10)
                               (ProtoIds [("0", 6)]) (mk_side None None) None], idx + 1)
        | _ => acc
        end) (ca_actions ca) ([], idx1) in
  (rules1 ++ rdrop, idx3, s1).

Fixpoint class_actions_rules (s : session) (cas : list class_action) (rule_index : Z) (dz : string)
  : list frule * session :=
  match cas with
  | [] => ([], s)
  | ca :: cas' =>
      let '(rs, idx, s1) := class_action_rules s ca rule_index dz in
      let '(more, s2) := class_actions_rules s1 cas' idx dz in
      (rs ++ more, s2)
  end.

Fixpoint find_pair_destination (pm : string) (zps : list (string * zone_pair)) : option string :=
  match zps with
  | [] => None
  | (_, zp) :: zps' =>
      match zp_policy_map zp with
      | Some p => if String.eqb p pm then Some (zp_destination_zone zp) else find_pair_destination pm zps'
      | None => find_pair_destination pm zps'
      end
  end.

(** Policy-map pass of [create_filter_policies]. *)
Fixpoint policy_map_policies_go (l : list (string * policy_map)) (s : session) : session :=
  match l with
  | [] => s
  | (pname, pm) :: l' =>
      let (pid, s1) := generate_id s in
      let destination_zone :=
        match find_pair_destination pname (zone_pairs s1) with
        | Some d => if String.eqb d "" then "WAN" else d
        | None => "WAN" (* the 'WAN' / 'POS' / default branches all give 'WAN' *)
        end in
      let '(rules, s2) := class_actions_rules s1 (pm_class_actions pm) 0 destination_zone in
      policy_map_policies_go l'
        (add_policy pid (mk_fp pid pname "deny" (RulesDict (consolidate_rules rules))) s2)
  end.

Definition default_allow_rule : frule :=
  mk_frule "allow" "ip4" "Allow All" 10 (ProtoIds [("0", 6)]) (mk_side None None) None.
Definition default_deny_rule : frule :=
  mk_frule "deny" "ip4" "Deny All" 20 (ProtoIds [("0", 6)]) (mk_side None None) None.

(** [create_filter_policies] *)
Definition create_filter_policies (s : session) : session :=
  let acls_used := flat_map acl_references (dict_values (class_maps s)) in
  let s1 := acl_policies_go acls_used (acls s) s in
  let s2 := policy_map_policies_go (policy_maps s1) s1 in
  match filter_policies s2 with
  | [] =>
      let (aid, s3) := generate_id s2 in
      let s4 := add_policy aid (mk_fp aid "Default Allow All" "deny" (RulesDict [default_allow_rule])) s3 in
      let (did, s5) := generate_id s4 in
      add_policy did (mk_fp did "Default Deny All" "deny" (RulesDict [default_deny_rule])) s5
  | _ => s2
  end.

Fixpoint find_policy_by_name (name : string) (fps : dict filter_policy) : option string :=
  match fps with
  | [] => None
  | (pid, p) :: fps' => if String.eqb (fp_name p) name then Some pid else find_policy_by_name name fps'
  end.

(** The zone loop of [create_zone_forwardings]: no [break], and the
    destination test is an [elif] of the source test. *)
Fixpoint resolve_zone_ids (src dst : string) (zs : dict zone) (sid did : option string)
  : option string * option string :=
  match zs with
  | [] => (sid, did)
  | (zid, z) :: zs' =>
      if String.eqb (zone_name z) src then resolve_zone_ids src dst zs' (Some zid) did
      else if String.eqb (zone_name z) dst then resolve_zone_ids src dst zs' sid (Some zid)
      else resolve_zone_ids src dst zs' sid did
  end.

(** The forwarding record built for one zone pair. *)
Definition pair_forwarding (s : session) (fid : string) (zp : zone_pair) : forwarding :=
  let '(sid, did) := resolve_zone_ids (zp_source_zone zp) (zp_destination_zone zp) (zones s) None None in
  let bound :=
    match zp_policy_map zp with
    | Some pm => if String.eqb pm "" then None else find_policy_by_name pm (filter_policies s)
    | None => None
    end in
  let policy :=
    match bound with
    | Some pid => Some pid
    | None => find_policy_by_name "Default Deny All" (filter_policies s)
    end in
  mk_fw fid (default "" sid) (default "" did) true (default "" policy).

Definition add_forwarding (fid : string) (f : forwarding) (s : session) : session :=
  set_forwardings s (dict_set fid f (zone_forwardings s)).

Fixpoint zone_forwardings_go (zps : list (string * zone_pair)) (s : session) : session :=
  match zps with
  | [] => s
  | (_, zp) :: zps' =>
      let (fid, s1) := generate_id s in
      zone_forwardings_go zps' (add_forwarding fid (pair_forwarding s1 fid zp) s1)
  end.

(** [create_zone_forwardings] *)
Definition create_zone_forwardings (s : session) : session := zone_forwardings_go (zone_pairs s) s.

Definition wan_trigger : trigger := mk_trigger "type" "wan" false "is" "".

Fixpoint internet_forwardings_go (inet_id allow_id : string) (zs : list (string * zone)) (s : session)
  : session :=
  match zs with
  | [] => s
  | (zid, _) :: zs' =>
      if negb (String.eqb zid inet_id) then
        let (fid, s1) := generate_id s in
        internet_forwardings_go inet_id allow_id zs' (add_forwarding fid (mk_fw fid zid inet_id true allow_id) s1)
      else internet_forwardings_go inet_id allow_id zs' s
  end.

(** [create_internet_zone] *)
Definition create_internet_zone (s : session) : session :=
  let (inet_id, s1) := generate_id s in
  let s2 := set_zones s1 (dict_set inet_id (mk_zone inet_id (internet_zone_name s1) (TriggerList [wan_trigger]))
                                   (zones s1)) in
  let '(allow_id, s3) :=
    match find_policy_by_name "Default Allow All" (filter_policies s2) with
    | Some pid => (pid, s2)
    | None =>
        let (pid, s') := generate_id s2 in
        (pid, add_policy pid (mk_fp pid "ALLOW ALL" "allow" RulesList) s')
    end in
  internet_forwardings_go inet_id allow_id (zones s3) s3.

(** [parse_config] *)
Definition parse_config (s0 : session) : option session :=
  let s1 := parse_interfaces (parse_zones s0) in
  match parse_object_groups s1 with
  | None => None
  | Some s2 =>
      let s3 := parse_class_maps (parse_acls s2) in
      match parse_policy_maps s3 with
      | None => None
      | Some s4 =>
          let s5 := create_zone_forwardings (create_filter_policies (create_identities (parse_zone_pairs s4))) in
          Some (if add_internet_zone s5 then create_internet_zone s5 else s5)
      end
  end.

(* ------------------------------------------------------------------ *)
(** ** Emitter and validator *)

Definition is_allow_all_name (n : string) : bool :=
  String.eqb n "ALLOW ALL" || String.eqb n "Default Allow All".

Fixpoint first_allow_all (fps : dict filter_policy) : option (string * filter_policy) :=
  match fps with
  | [] => None
  | (pid, p) :: fps' => if is_allow_all_name (fp_name p) then Some (pid, p) else first_allow_all fps'
  end.

(** [sorted_filter_policies] of [generate_cradlepoint_config]. *)
Definition sort_filter_policies (fps : dict filter_policy) : dict filter_policy :=
  let first := match first_allow_all fps with Some (pid, p) => [(pid, p)] | None => [] end in
  fold_left (fun acc kv => if negb (is_allow_all_name (fp_name (snd kv))) then dict_set (fst kv) (snd kv) acc else acc)
    fps first.

(** The emitted document: [configuration[0]]; the fixed path-ordering array
    and the firmware metadata are constants and are left out. *)
Record document := mk_doc {
  doc_zones : dict zone;
  doc_filter_policies : dict filter_policy;
  doc_forwardings : dict forwarding;
  doc_identities_ip : list ip_identity;
  doc_identities_port : list port_identity }.

Definition emit (s : session) : document :=
  mk_doc (zones s) (sort_filter_policies (filter_policies s)) (zone_forwardings s)
    (identities_ip s) (identities_port s).

(** [generate_cradlepoint_config]: parses again when [config_lines] is
    empty, on the same (already populated) object; returns that object's
    state with the document. *)
Definition generate_cradlepoint_config (s : session) : option (session * document) :=
  match config_lines s with
  | [] => option_map (fun s' => (s', emit s')) (parse_config s)
  | _ => Some (s, emit s)
  end.

(** [validate_against_dtd] *)
Definition validate_against_dtd (d : document) : list string :=
  (if Nat.eqb (List.length (doc_zones d)) 0 then ["No zones found"] else [])
  ++ (if Nat.eqb (List.length (doc_filter_policies d)) 0 then ["No filter policies found"] else [])
  ++ (if Nat.eqb (List.length (doc_forwardings d)) 0 then ["No zone forwardings found"] else [])
  ++ flat_map (fun kv =>
       let fpid := filter_policy_id (snd kv) in
       if negb (String.eqb fpid "") && negb (dict_mem fpid (doc_filter_policies d))
       then ["Forwarding " +:+ fst kv +:+ " references invalid filter_policy_id: " +:+ fpid]
       else []) (doc_forwardings d).

(** [convert]: the file's lines and the two CLI options in, the final
    state of the converter and the document out. *)
Definition convert (lines : list string) (add_inet : bool) (inet_name : string) : option (session * document) :=
  match parse_config (init_session lines add_inet inet_name) with
  | None => None
  | Some s => generate_cradlepoint_config s
  end.

(* ================================================================== *)
(** * Properties *)

(** ** Sample configurations *)

(** Two ACL rules equal in action, protocol and port, whose destination
    object-groups resolve to different hosts. *)
Definition cfg_two_destination_groups : list string :=
  ["object-group network DST1"; " host 10.0.0.1"; "object-group network DST2"; " host 10.0.0.2";
   "object-group network SRC"; " host 10.1.1.1";
   "ip access-list extended A";
   " permit tcp object-group SRC object-group DST1 eq 80";
   " permit tcp object-group SRC object-group DST2 eq 80";
   "interface G1"; " ip access-group A in"].

(** A rule of four remaining tokens, a shape the parser has no branch for. *)
Definition cfg_unmatched_shape : list string :=
  ["ip access-list extended A"; " permit tcp any any eq 80"; "interface G1"; " ip access-group A in"].

(** Service group [SVC-A2] declared before [SVC-A], whose name is a prefix of it. *)
Definition cfg_prefix_service_groups : list string :=
  ["object-group service SVC-A2"; " tcp eq 22"; "object-group service SVC-A"; " tcp eq 80"; " udp eq 53"].

(** Zone pair [A] declared again after [B], then a service-policy. *)
Definition cfg_redeclared_pair : list string :=
  ["zone-pair security A source X destination Y"; "zone-pair security B source X destination Z";
   "zone-pair security A source X destination Y"; " service-policy type inspect PM"].

(** Two applied ACLs, named [ALLOW ALL] and [Default Allow All]. *)
Definition cfg_two_allow_all : list string :=
  ["ip access-list extended ALLOW ALL"; " permit ip any any";
   "ip access-list extended Default Allow All"; " permit ip any any";
   "interface G1"; " ip access-group ALLOW ALL in"; " ip access-group Default Allow All out"].

(** Two zones, one zone pair, no ACL and no policy-map. *)
Definition cfg_one_pair : list string :=
  ["zone security IN"; "zone security OUT"; "zone-pair security P source IN destination OUT"].

(** A zone pair bound to a policy-map that is never defined. *)
Definition cfg_unknown_policy_map : list string :=
  ["zone security IN"; "zone security OUT"; "zone-pair security P source IN destination OUT";
   " service-policy type inspect NOPE"].

(** Two ACL rules with the destination host 10.0.0.5. *)
Definition cfg_same_host : list string :=
  ["object-group network SRC"; " host 10.1.1.1";
   "ip access-list extended A";
   " permit tcp object-group SRC host 10.0.0.5 eq 80";
   " permit udp object-group SRC host 10.0.0.5 eq 53";
   "interface G1"; " ip access-group A in"].

(** Two translated rules that differ in their destination identity only. *)
Definition sample_rule_dst (iid : string) : frule :=
  mk_frule "allow" "ip4" "A" 0 (ProtoIds [("0", 6)]) (mk_side (Some ["uuid-9"]) (Some []))
    (Some (mk_side (Some [iid]) (Some ["uuid-8"]))).

Definition policy_rules (p : filter_policy) : list frule :=
  match fp_rules p with RulesDict l => l | RulesList => [] end.

Definition doc_rules (d : document) : list frule := flat_map (fun kv => policy_rules (snd kv)) (doc_filter_policies d).

(** ** Auxiliary definitions of the proofs *)

(** [lstrip] on the character list. *)
Fixpoint dropw (l : list ascii) : list ascii :=
  match l with [] => [] | c :: l' => if Py.is_space c then dropw l' else l end.

Definition strip_list (l : list ascii) : list ascii := rev (dropw (rev (dropw l))).

(** The seven argument shapes of the rule grammar, each with the guard
    the parser tests for it (shapes 2 and 3 share one guard and are told
    apart by the service prefix of the first group). *)
Definition documented_shape (rem : list string) : bool :=
  let n := List.length rem in
  let r k := nth k rem "" in
  ((6 <=? n)%nat && String.eqb (r 0%nat) "object-group" && String.eqb (r 2%nat) "object-group"
     && String.eqb (r 4%nat) "object-group")
  || ((4 <=? n)%nat && String.eqb (r 0%nat) "object-group" && String.eqb (r 2%nat) "object-group"
     && is_svc_name (r 1%nat))
  || ((4 <=? n)%nat && String.eqb (r 0%nat) "object-group" && String.eqb (r 2%nat) "object-group"
     && negb (is_svc_name (r 1%nat)))
  || ((5 <=? n)%nat && String.eqb (r 0%nat) "object-group" && String.eqb (r 2%nat) "host")
  || ((5 <=? n)%nat && String.eqb (r 0%nat) "object-group" && String.eqb (r 2%nat) "object-group"
     && String.eqb (r 4%nat) "eq")
  || (n =? 2)%nat
  || (n =? 1)%nat.

Definition count_named (name : string) (l : list ip_identity) : nat :=
  List.length (List.filter (fun i => String.eqb (ipi_name i) name) l).

(** From [s] to [s'], the identity named [name] found in [s] is still the
    one found, there is still one if there was one, and there are no two
    if there were not two. *)
Definition keeps_named (name : string) (s s' : session) : Prop :=
  (forall iid, find_ip_identity name (identities_ip s) = Some iid ->
               find_ip_identity name (identities_ip s') = Some iid)
  /\ (count_named name (identities_ip s) <= 1 -> count_named name (identities_ip s') <= 1)%nat
  /\ (1 <= count_named name (identities_ip s) -> 1 <= count_named name (identities_ip s'))%nat.

(** Two rules with the destination host 10.0.0.5, as parsed from
    [permit tcp object-group SRC host 10.0.0.5 eq 80] and its UDP twin. *)
Definition sample_host_rules : list acl_rule :=
  [mk_acl_rule "allow" "tcp" 6 None (Some "SRC") None None (Some "10.0.0.5") None (Some "80");
   mk_acl_rule "allow" "udp" 17 None (Some "SRC") None None (Some "10.0.0.5") None (Some "53")].

(** The fields no parser and no identity pass writes. *)
Definition parse_frame (s : session) :=
  (config_lines s, add_internet_zone s, internet_zone_name s, zone_forwardings s, filter_policies s).

(** The fields no identity pass, translator or policy pass writes. *)
Definition core (s : session) :=
  (config_lines s, zones s, zone_forwardings s, acls s, class_maps s, object_groups s, policy_maps s,
   zone_pairs s, add_internet_zone s, internet_zone_name s).

(** The fields no identity pass or translator writes. *)
Definition id_frame (s : session) := (core s, filter_policies s).

(** Policy keys only grow. *)
Definition keeps_policies (s s' : session) : Prop :=
  forall k, dict_mem k (filter_policies s) = true -> dict_mem k (filter_policies s') = true.

(** The fields the forwarding pass leaves alone. *)
Definition fw_frame (s : session) :=
  (config_lines s, zones s, filter_policies s, acls s, class_maps s, object_groups s, policy_maps s,
   zone_pairs s, add_internet_zone s, internet_zone_name s).

(** What every emitted forwarding satisfies: it is enabled, and its policy
    id is empty or a key of the filter policies. *)
Definition fw_ok (fps : dict filter_policy) (kv : string * forwarding) : Prop :=
  fw_enabled (snd kv) = true
  /\ (filter_policy_id (snd kv) = "" \/ dict_mem (filter_policy_id (snd kv)) fps = true).

Definition fw_inv (s : session) : Prop := Forall (fw_ok (filter_policies s)) (zone_forwardings s).

(** The passes of [parse_config] after the parsers. *)
Definition build_passes (s4 : session) : session :=
  create_zone_forwardings (create_filter_policies (create_identities (parse_zone_pairs s4))).

(** The number of policies named as allow-all policies. *)
Definition count_allow (fps : dict filter_policy) : nat :=
  List.length (List.filter (fun kv => is_allow_all_name (fp_name (snd kv))) fps).

Definition sort_step (acc : dict filter_policy) (kv : string * filter_policy) : dict filter_policy :=
  if negb (is_allow_all_name (fp_name (snd kv))) then dict_set (fst kv) (snd kv) acc else acc.

(** [k] is an id [_generate_id] handed out while the counter was below [n]. *)
Definition issued_before (n : N) (k : string) : Prop := exists i, (i < n)%N /\ k = uuid i.

(** [issued_before] for every key, as a test. *)
Definition issued_keys (n : N) (ks : list string) : bool :=
  forallb (fun k => existsb (fun i => String.eqb k (uuid (N.of_nat i))) (seq 0 (N.to_nat n))) ks.

Definition default_allow_policy (pid : string) : filter_policy :=
  mk_fp pid "Default Allow All" "deny" (RulesDict [default_allow_rule]).
Definition default_deny_policy (pid : string) : filter_policy :=
  mk_fp pid "Default Deny All" "deny" (RulesDict [default_deny_rule]).

Definition fw_summary (kv : string * forwarding) : string * string * bool * string :=
  (src_zone_id (snd kv), dst_zone_id (snd kv), fw_enabled (snd kv), filter_policy_id (snd kv)).

(** How many rules carry the name [nm]. *)
Definition name_count (nm : string) (l : list frule) : nat :=
  length (List.filter (fun r => String.eqb (fr_name r) nm) l).

(** The step of the name-count loop of [_handle_duplicate_rule_names]. *)
Definition name_step (nc : dict (list string)) (kv : string * frule) : dict (list string) :=
  dict_set (fr_name (snd kv)) (default [] (dict_get (fr_name (snd kv)) nc) ++ [fst kv]) nc.

(** A policy-map none of whose class actions records an action. *)
Definition no_actions (kv : string * policy_map) : Prop :=
  Forall (fun ca => ca_actions ca = []) (pm_class_actions (snd kv)).

(** The names of the [zone security] lines, in order. *)
Definition zone_line_names (lines : list string) : list string :=
  flat_map (fun l => let line := Py.strip l in
                     if Py.startswith line "zone security "
                     then [nth 1 (Py.split_sep line "zone security ") ""] else []) lines.

(** The zones created for [names], with ids issued from [i] on. *)
Fixpoint zone_entries (i : N) (names : list string) : dict zone :=
  match names with
  | [] => []
  | x :: l => (uuid i, mk_zone (uuid i) x NoDevices) :: zone_entries (N.succ i) l
  end.

(** [start, start+1, ..., start+n-1] *)
Fixpoint zseq (start : Z) (n : nat) : list Z :=
  match n with O => [] | S n' => start :: zseq (start + 1) n' end.

(** The ACL name as [_create_rule_name] cleans it. *)
Definition clean_acl_name (a : string) : string :=
  Py.replace (Py.replace (Py.replace a "ACL_" "") "ACL-" "") "_" "-".

(** The names a rule translated from ACL [a] may carry. *)
Definition acl_rule_name_ok (a : string) (fr : frule) : Prop :=
  fr_name fr = clean_acl_name a \/ fr_name fr = clean_acl_name a +:+ "-TCP" \/ fr_name fr = clean_acl_name a +:+ "-UDP".

(** The ACLs named by some class-map. *)
Definition acls_in_class_maps (s : session) : list string :=
  flat_map acl_references (dict_values (class_maps s)).

(** Where a policy of [create_filter_policies] comes from. *)

(** Where a policy of [create_filter_policies] can come from. *)
Definition policy_origin (s0 : session) (kv : string * filter_policy) : Prop :=
  fp_id (snd kv) = fst kv /\
  ((In (fp_name (snd kv)) (dict_keys (acls s0)) /\ ~ In (fp_name (snd kv)) (acls_in_class_maps s0)
    /\ is_acl_applied_somewhere s0 (fp_name (snd kv)) = true)
   \/ In (fp_name (snd kv)) (dict_keys (policy_maps s0))
   \/ snd kv = default_allow_policy (fst kv) \/ snd kv = default_deny_policy (fst kv)).

(** Ids and names of the zones, without their devices. *)
Definition zone_shape (zs : dict zone) : list (string * string * string) :=
  map (fun kv => (fst kv, zone_id (snd kv), zone_name (snd kv))) zs.

(** ** String facts *)

Lemma append_cancel_l (p a b : string) : p +:+ a = p +:+ b -> a = b.
Proof. induction p as [|c p IH]; simpl; intros H; [exact H | injection H; auto]. Qed.

Lemma uuid_inj (m n : N) : uuid m = uuid n -> m = n.
Proof. unfold uuid. intros H. apply append_cancel_l in H. exact (inj pretty _ _ H). Qed.

Lemma prefix_app (p s : string) : String.prefix p s = true -> exists r, s = p +:+ r.
Proof.
  revert s. induction p as [|c p IH]; intros s H; [exists s; reflexivity|].
  destruct s as [|c' s]; simpl in H; [discriminate|].
  destruct (ascii_dec c c') as [->|]; [|discriminate].
  destruct (IH s H) as [r ->]. exists r. reflexivity.
Qed.

Section Strip.

Lemma lstrip_list (s : string) :
  String.list_ascii_of_string (Py.lstrip s) = dropw (String.list_ascii_of_string s).
Proof. induction s as [|c s IH]; simpl; [reflexivity|]. destruct (Py.is_space c); simpl; auto. Qed.

Lemma dropw_split (l : list ascii) : exists t, l = t ++ dropw l.
Proof.
  induction l as [|c l [t Ht]]; [exists []; reflexivity|]. simpl.
  destruct (Py.is_space c); [exists (c :: t); simpl; congruence | exists []; reflexivity].
Qed.

Lemma dropw_length (l : list ascii) : (length (dropw l) <= length l)%nat.
Proof. induction l as [|c l IH]; simpl; [lia|]. destruct (Py.is_space c); simpl; lia. Qed.

Lemma dropw_idem (l : list ascii) : dropw (dropw l) = dropw l.
Proof. induction l as [|c l IH]; simpl; [reflexivity|]. destruct (Py.is_space c) eqn:E; simpl; [exact IH | rewrite E; reflexivity]. Qed.

Lemma dropw_prefix (p q : list ascii) : dropw (p ++ q) = p ++ q -> dropw p = p.
Proof.
  destruct p as [|c p]; [reflexivity|]. simpl. destruct (Py.is_space c) eqn:E; [|reflexivity].
  intros H. pose proof (dropw_length (p ++ q)) as L. rewrite H in L. simpl in L. lia.
Qed.

Lemma strip_list_idem (l : list ascii) : strip_list (strip_list l) = strip_list l.
Proof.
  unfold strip_list. set (m := dropw l). set (pre := rev (dropw (rev m))).
  assert (Hm : dropw m = m) by apply dropw_idem.
  destruct (dropw_split (rev m)) as [t Ht].
  assert (Hsplit : m = pre ++ rev t).
  { unfold pre. transitivity (rev (rev m)); [symmetry; apply rev_involutive|].
    transitivity (rev (t ++ dropw (rev m))); [f_equal; exact Ht|]. apply rev_app_distr. }
  assert (Hp : dropw pre = pre) by (apply (dropw_prefix pre (rev t)); rewrite <- Hsplit; exact Hm).
  rewrite Hp. unfold pre. rewrite rev_involutive, dropw_idem. reflexivity.
Qed.

Lemma strip_list_spec (s : string) :
  String.list_ascii_of_string (Py.strip s) = strip_list (String.list_ascii_of_string s).
Proof.
  unfold Py.strip, Py.rev_string, strip_list.
  rewrite String.list_ascii_of_string_of_list_ascii, lstrip_list,
    String.list_ascii_of_string_of_list_ascii, lstrip_list. reflexivity.
Qed.

Lemma strip_idem (s : string) : Py.strip (Py.strip s) = Py.strip s.
Proof.
  assert (H : String.list_ascii_of_string (Py.strip (Py.strip s)) = String.list_ascii_of_string (Py.strip s))
    by (rewrite !strip_list_spec; apply strip_list_idem).
  apply (f_equal String.string_of_list_ascii) in H.
  rewrite !String.string_of_list_ascii_of_string in H. exact H.
Qed.

End Strip.

(** ** ACL rule parsing *)

Lemma parse_rule_shapes_unmatched (rem : list string) (rule : acl_rule) :
  documented_shape rem = false -> parse_rule_shapes rem rule = rule.
Proof.
  unfold documented_shape, parse_rule_shapes. cbv zeta.
  intros H. repeat rewrite orb_false_iff in H.
  destruct H as [[[[[[H1 H2] H3] H4] H5] H6] H7].
  assert (H23 : ((4 <=? List.length rem)%nat && String.eqb (nth 0 rem "") "object-group"
                 && String.eqb (nth 2 rem "") "object-group") = false).
  { destruct (is_svc_name (nth 1 rem "")); [rewrite andb_true_r in H2; exact H2|].
    rewrite andb_true_r in H3; exact H3. }
  rewrite H1, H23, H4, H5, H6, H7. reflexivity.
Qed.

Lemma permit_line_tests (line : string) :
  (Py.startswith line "permit " || Py.startswith line "deny ") = true ->
  String.eqb line "" = false /\ Py.startswith line "!" = false
  /\ Py.startswith line "ip access-list extended " = false.
Proof.
  intros H. apply orb_true_iff in H as [H|H]; apply prefix_app in H as [r ->];
    repeat split.
Qed.

(** C2 (corrected).  A permit/deny line whose remaining tokens fit none of
    the seven documented shapes is not dropped: the rule parser returns the
    base rule (action, protocol and protocol id only, no address, group or
    port field), and [parse_acls] appends it to the open ACL's rules. *)
Theorem unmatched_acl_line_kept (l nm : string) (ls : list string) (s : session) :
  (Py.startswith (Py.strip l) "permit " || Py.startswith (Py.strip l) "deny ") = true ->
  documented_shape (snd (protocol_and_rest (Py.split (Py.strip l)))) = false ->
  exists action protocol protocol_id,
    parse_acl_rule (Py.strip l) = Some (empty_rule action protocol protocol_id) /\
    parse_acls_go (l :: ls) (Some nm) s =
    parse_acls_go ls (Some nm)
      (set_acls s (dict_update nm (acl_append (empty_rule action protocol protocol_id)) (acls s))).
Proof.
  intros Hpd Hshape.
  destruct (permit_line_tests _ Hpd) as (E1 & E2 & E3).
  destruct (protocol_and_rest (Py.split (Py.strip l))) as [p rem] eqn:Hpr. simpl in Hshape.
  set (a := if String.eqb (nth 0 (Py.split (Py.strip l)) "") "permit" then "allow" else "deny").
  set (pid := default 6 (dict_get (Py.lower p) [("tcp", 6); ("udp", 17); ("icmp", 1); ("ip", 0)])).
  assert (Hrule : parse_acl_rule (Py.strip l) = Some (empty_rule a p pid)).
  { unfold parse_acl_rule. rewrite strip_idem, E1, E2, Hpd. cbv zeta. rewrite Hpr.
    rewrite parse_rule_shapes_unmatched by exact Hshape. reflexivity. }
  exists a, p, pid. split; [exact Hrule|].
  cbn [parse_acls_go]. rewrite E3.
  assert (H3 : (Py.startswith (Py.strip l) " " || Py.startswith (Py.strip l) "permit "
                || Py.startswith (Py.strip l) "deny ") = true)
    by (rewrite <- orb_assoc, Hpd, orb_true_r; reflexivity).
  rewrite H3, Hrule. reflexivity.
Qed.

Lemma unmatched_acl_line_kept_witness :
  (Py.startswith (Py.strip " permit tcp any any eq 80") "permit "
   || Py.startswith (Py.strip " permit tcp any any eq 80") "deny ") = true /\
  documented_shape (snd (protocol_and_rest (Py.split (Py.strip " permit tcp any any eq 80")))) = false /\
  exists action protocol protocol_id,
    parse_acl_rule (Py.strip " permit tcp any any eq 80") = Some (empty_rule action protocol protocol_id) /\
    parse_acls_go [" permit tcp any any eq 80"] (Some "A") (init_session [] false "") =
    parse_acls_go [] (Some "A")
      (set_acls (init_session [] false "")
         (dict_update "A" (acl_append (empty_rule action protocol protocol_id)) (acls (init_session [] false "")))).
Proof.
  split; [vm_compute; reflexivity|]. split; [vm_compute; reflexivity|].
  apply (unmatched_acl_line_kept " permit tcp any any eq 80" "A" [] (init_session [] false ""));
    vm_compute; reflexivity.
Defined.

(** The line [permit tcp any any eq 80] fits no shape; the converted ACL
    keeps it as the base rule instead of dropping it. *)
Lemma unmatched_acl_line_in_output :
  option_map (fun p => option_map acl_rules (dict_get "A" (acls (fst p))))
    (convert cfg_unmatched_shape false "EXT-Internet")
  = Some (Some [empty_rule "allow" "tcp" 6]).
Proof. vm_compute. reflexivity. Qed.

(** ** Evaluations on the sample configurations *)

(** C1 (counterexample).  The two rules of ACL [A] differ only in their
    destination object-group; the policy built from [A] keeps two rules,
    each with its own destination identity. *)
Lemma different_destination_groups_not_merged :
  match convert cfg_two_destination_groups false "EXT-Internet" with
  | Some (s, d) =>
      option_map acl_rules (dict_get "A" (acls s)) =
        Some [mk_acl_rule "allow" "tcp" 6 None (Some "SRC") (Some "DST1") None None None (Some "80");
              mk_acl_rule "allow" "tcp" 6 None (Some "SRC") (Some "DST2") None None None (Some "80")]
      /\ map (fun r => option_map side_ip (fr_dst r)) (doc_rules d) =
           [Some (Some ["uuid-0"]); Some (Some ["uuid-1"])]
  | None => False
  end.
Proof. vm_compute. split; reflexivity. Qed.

(** C3 (failing input).  The scan for [SVC-A]'s entries also reads the
    block of [SVC-A2], whose header starts with [object-group service SVC-A]:
    [SVC-A-TCP] gets the member 22-22 of the other group. *)
Theorem prefix_service_group_members :
  option_map (fun p => map (fun i => (pti_name i, pti_members i)) (identities_port (fst p)))
    (convert cfg_prefix_service_groups false "EXT-Internet")
  = Some [("SVC-A2", [(22, 22)]); ("SVC-A-TCP", [(22, 22); (80, 80)]); ("SVC-A-UDP", [(53, 53)])].
Proof. vm_compute. reflexivity. Qed.

(** C4 (counterexample).  An empty configuration: its document has no
    zone and no forwarding, and the validator reports both. *)
Lemma empty_config_validation_errors :
  option_map (fun p => validate_against_dtd (snd p)) (convert [] false "EXT-Internet")
  = Some ["No zones found"; "No zone forwardings found"].
Proof. vm_compute. reflexivity. Qed.

(** C5 (failing input).  [A] is declared, then [B], then [A] again; the
    service-policy line binds [B], the pair declared second to last, because
    re-declaring [A] keeps its first position in the pair map. *)
Theorem redeclared_pair_not_bound :
  option_map (fun p => map (fun kv => (fst kv, zp_policy_map (snd kv))) (zone_pairs (fst p)))
    (convert cfg_redeclared_pair false "EXT-Internet")
  = Some [("A", None); ("B", Some "PM")].
Proof. vm_compute. reflexivity. Qed.

(** C6 (counterexample).  No ACL and no policy-map, one zone pair: the
    document has one forwarding. *)
Lemma no_acl_one_pair_one_forwarding :
  match convert cfg_one_pair false "EXT-Internet" with
  | Some (s, d) => acls s = [] /\ policy_maps s = [] /\ List.length (doc_forwardings d) = 1%nat
  | None => False
  end.
Proof. vm_compute. repeat split. Qed.

(** C8 (failing input).  Both policies are named as allow-all policies;
    the emitted map keeps the first one only. *)
Theorem second_allow_all_policy_dropped :
  option_map (fun p => (map (fun kv => (fst kv, fp_name (snd kv))) (filter_policies (fst p)),
                        map (fun kv => (fst kv, fp_name (snd kv))) (doc_filter_policies (snd p))))
    (convert cfg_two_allow_all false "EXT-Internet")
  = Some ([("uuid-0", "ALLOW ALL"); ("uuid-1", "Default Allow All")], [("uuid-0", "ALLOW ALL")]).
Proof. vm_compute. reflexivity. Qed.

(** C10 (counterexample).  The pair's policy-map [NOPE] has no policy; the
    forwarding is bound to [Default Deny All], not to the empty string. *)
Lemma unknown_policy_map_bound_to_default_deny :
  match convert cfg_unknown_policy_map false "EXT-Internet" with
  | Some (s, d) =>
      option_map zp_policy_map (dict_get "P" (zone_pairs s)) = Some (Some "NOPE")
      /\ find_policy_by_name "NOPE" (filter_policies s) = None
      /\ find_policy_by_name "Default Deny All" (filter_policies s) = Some "uuid-3"
      /\ map (fun kv => filter_policy_id (snd kv)) (doc_forwardings d) = ["uuid-3"]
  | None => False
  end.
Proof. vm_compute. repeat split. Qed.

(** ** Rule consolidation *)

Lemma keyed_go_snd {A} (i : nat) (l : list A) : map snd (keyed_go i l) = l.
Proof. revert i. induction l as [|x l IH]; intros i; simpl; [reflexivity | f_equal; apply IH]. Qed.

(** Renaming duplicates touches names only. *)
Lemma handle_duplicate_rule_names_dst (l : list frule) :
  map fr_dst (handle_duplicate_rule_names l) = map fr_dst l.
Proof.
  unfold handle_duplicate_rule_names, keyed. rewrite map_map.
  rewrite <- (keyed_go_snd 0 l) at 2. rewrite map_map. apply map_ext. intros [k r]. simpl.
  destruct (_ <? _)%nat; reflexivity.
Qed.

Lemma dedup_go_spec (seen l : list string) :
  List.NoDup (dedup_go seen l) /\ (forall x, In x (dedup_go seen l) <-> In x l /\ ~ In x seen).
Proof.
  revert seen. induction l as [|y l IH]; intros seen; simpl.
  - split; [apply List.NoDup_nil | intros x; simpl; tauto].
  - destruct (existsb (String.eqb y) seen) eqn:E.
    + apply existsb_exists in E as [z [Hz Hyz]]. apply String.eqb_eq in Hyz. subst z.
      destruct (IH seen) as [N M]. split; [exact N|].
      intros x. rewrite M. split; [tauto|]. intros [[<-|Hx] Hn]; [contradiction | tauto].
    + assert (Hy : ~ In y seen).
      { intros Hin. assert (existsb (String.eqb y) seen = true) as T
          by (apply existsb_exists; exists y; split; [exact Hin | apply String.eqb_refl]).
        congruence. }
      destruct (IH (seen ++ [y])) as [N M]. split.
      * apply List.NoDup_cons; [rewrite M; intros [_ Hn]; apply Hn; apply in_or_app; right; left; reflexivity | exact N].
      * intros x. simpl. rewrite M, in_app_iff. simpl.
        split; [intros [<-|[Hx Hn]]; [tauto | tauto] |].
        intros [[<-|Hx] Hn]; [left; reflexivity|]. destruct (String.eqb_spec x y) as [->|Hxy]; [left; reflexivity|].
        right. split; [exact Hx|]. intros [Hs|[Hs|[]]]; [contradiction | congruence].
Qed.

Lemma dedup_spec (l : list string) : List.NoDup (dedup l) /\ (forall x, In x (dedup l) <-> In x l).
Proof.
  unfold dedup. destruct (dedup_go_spec [] l) as [N M]. split; [exact N|].
  intros x. rewrite M. simpl. tauto.
Qed.

(** Equal components give equal group keys, and group keys that agree on
    the first four components agree on the destination key. *)
Lemma group_key_dst (r1 r2 : frule) :
  fr_action r1 = fr_action r2 -> rule_protocol_key r1 = rule_protocol_key r2 ->
  rule_port_key r1 = rule_port_key r2 -> rule_src_ip_key r1 = rule_src_ip_key r2 ->
  group_key r1 = group_key r2 <-> rule_dst_ip_key r1 = rule_dst_ip_key r2.
Proof.
  intros Ha Hp Hk Hs. unfold group_key. rewrite Ha, Hp, Hk, Hs. split; [|intros ->; reflexivity].
  intros H. do 8 apply append_cancel_l in H. exact H.
Qed.

(** C1 (corrected).  Two translated rules that agree in action, protocol
    ids, port identities and source identities are merged only when their
    destination-IP keys agree as well.  With different destination keys
    (destination object-groups that resolve to different identities)
    consolidation keeps two rules, each with its own destination; with equal
    keys it gives one rule whose destination IP list is the duplicate-free
    union of both rules' lists. *)
Theorem consolidate_by_destination_key (r1 r2 : frule) :
  fr_action r1 = fr_action r2 -> rule_protocol_key r1 = rule_protocol_key r2 ->
  rule_port_key r1 = rule_port_key r2 -> rule_src_ip_key r1 = rule_src_ip_key r2 ->
  (rule_dst_ip_key r1 <> rule_dst_ip_key r2 ->
     map fr_dst (consolidate_rules [r1; r2]) = [fr_dst r1; fr_dst r2]) /\
  (rule_dst_ip_key r1 = rule_dst_ip_key r2 ->
     exists dst_ips,
       map (fun r => option_map side_ip (fr_dst r)) (consolidate_rules [r1; r2]) = [Some (Some dst_ips)]
       /\ List.NoDup dst_ips
       /\ (forall x, In x dst_ips <-> In x (side_ips (fr_dst r1)) \/ In x (side_ips (fr_dst r2)))).
Proof.
  intros Ha Hp Hk Hs. pose proof (group_key_dst r1 r2 Ha Hp Hk Hs) as G.
  unfold consolidate_rules. simpl group_rules.
  set (k1 := group_key r1) in *. set (k2 := group_key r2) in *. split.
  - intros Hd.
    assert (E : String.eqb k2 k1 = false)
      by (apply String.eqb_neq; intros H; apply Hd, G; symmetry; exact H).
    simpl. rewrite !E, handle_duplicate_rule_names_dst. reflexivity.
  - intros Hd. assert (E : String.eqb k2 k1 = true) by (apply String.eqb_eq; symmetry; apply G, Hd).
    simpl. rewrite !E, <- (map_map fr_dst (option_map side_ip)), handle_duplicate_rule_names_dst. simpl.
    destruct (dedup_spec (side_ips (fr_dst r1) ++ side_ips (fr_dst r2) ++ [])) as [N M].
    eexists. split; [|split; [exact N|]].
    + reflexivity.
    + intros x. rewrite M, !in_app_iff. simpl. tauto.
Qed.

Lemma consolidate_by_destination_key_witness :
  let r1 := sample_rule_dst "uuid-0" in let r2 := sample_rule_dst "uuid-1" in
  (fr_action r1 = fr_action r2 /\ rule_protocol_key r1 = rule_protocol_key r2 /\
   rule_port_key r1 = rule_port_key r2 /\ rule_src_ip_key r1 = rule_src_ip_key r2) /\
  ((rule_dst_ip_key r1 <> rule_dst_ip_key r2 ->
     map fr_dst (consolidate_rules [r1; r2]) = [fr_dst r1; fr_dst r2]) /\
   (rule_dst_ip_key r1 = rule_dst_ip_key r2 ->
     exists dst_ips,
       map (fun r => option_map side_ip (fr_dst r)) (consolidate_rules [r1; r2]) = [Some (Some dst_ips)]
       /\ List.NoDup dst_ips
       /\ (forall x, In x dst_ips <-> In x (side_ips (fr_dst r1)) \/ In x (side_ips (fr_dst r2))))).
Proof.
  cbv zeta. split; [repeat split|].
  apply consolidate_by_destination_key; reflexivity.
Defined.

(** ** IP identities *)

Lemma keeps_named_same (name : string) (s s' : session) :
  identities_ip s' = identities_ip s -> keeps_named name s s'.
Proof. intros E. unfold keeps_named. rewrite E. auto. Qed.

Lemma keeps_named_trans (name : string) (s1 s2 s3 : session) :
  keeps_named name s1 s2 -> keeps_named name s2 s3 -> keeps_named name s1 s3.
Proof. unfold keeps_named. intros (A1 & B1 & C1) (A2 & B2 & C2). auto. Qed.

Lemma find_ip_identity_app (name : string) (l e : list ip_identity) (iid : string) :
  find_ip_identity name l = Some iid -> find_ip_identity name (l ++ e) = Some iid.
Proof.
  induction l as [|i l IH]; simpl; [discriminate|]. destruct (String.eqb (ipi_name i) name); auto.
Qed.

Lemma find_ip_identity_app_none (name : string) (l e : list ip_identity) :
  find_ip_identity name l = None -> find_ip_identity name (l ++ e) = find_ip_identity name e.
Proof.
  induction l as [|i l IH]; simpl; [reflexivity|]. destruct (String.eqb (ipi_name i) name); [discriminate | auto].
Qed.

Lemma find_ip_identity_none_count (name : string) (l : list ip_identity) :
  find_ip_identity name l = None -> count_named name l = 0%nat.
Proof.
  unfold count_named. induction l as [|i l IH]; simpl; [reflexivity|].
  destruct (String.eqb (ipi_name i) name); [discriminate | exact IH].
Qed.

Lemma count_named_app (name : string) (l e : list ip_identity) :
  count_named name (l ++ e) = (count_named name l + count_named name e)%nat.
Proof. unfold count_named. rewrite List.filter_app, length_app. reflexivity. Qed.

Lemma count_named_single (name a b c : string) (d : list string) :
  count_named name [mk_ipi a b c d] = if String.eqb b name then 1%nat else 0%nat.
Proof. unfold count_named. simpl. destruct (String.eqb b name); reflexivity. Qed.

Lemma get_or_create_ip_identity_keeps (name : string) (s : session) (ip : string) :
  keeps_named name s (snd (get_or_create_ip_identity s ip)).
Proof.
  unfold get_or_create_ip_identity.
  destruct (negb (Ip.is_valid_ip_address ip)); [apply keeps_named_same; reflexivity|].
  destruct (find_ip_identity (ip_identity_name ip) (identities_ip s)) as [iid|] eqn:F;
    [apply keeps_named_same; reflexivity|].
  simpl. unfold keeps_named. simpl. rewrite !count_named_app.
  split; [intros iid H; apply find_ip_identity_app; exact H|].
  pose proof (find_ip_identity_none_count _ _ F) as Z. rewrite count_named_single.
  destruct (String.eqb (ip_identity_name ip) name) eqn:E.
  - apply String.eqb_eq in E. subst name. rewrite Z. lia.
  - lia.
Qed.

Lemma get_or_create_ip_identity_found (s : session) (ip : string) :
  Ip.is_valid_ip_address ip = true ->
  exists iid, fst (get_or_create_ip_identity s ip) = Some iid
    /\ find_ip_identity (ip_identity_name ip) (identities_ip (snd (get_or_create_ip_identity s ip))) = Some iid.
Proof.
  intros V. unfold get_or_create_ip_identity. rewrite V. simpl.
  destruct (find_ip_identity (ip_identity_name ip) (identities_ip s)) as [iid|] eqn:F.
  - exists iid. split; [reflexivity | exact F].
  - eexists. split; [reflexivity|]. simpl. rewrite find_ip_identity_app_none by exact F.
    simpl. rewrite String.eqb_refl. reflexivity.
Qed.

Lemma get_or_create_port_identity_ip (s : session) (p : string) :
  identities_ip (snd (get_or_create_port_identity s p)) = identities_ip s.
Proof.
  unfold get_or_create_port_identity.
  destruct (find_port_identity _ _); [reflexivity|].
  destruct (match dict_get p (object_groups s) with
            | Some g => if String.eqb (og_type g) "service" then dict_get p (object_group_to_identity s) else None
            | None => None end); [reflexivity|].
  destruct (Py.int p); reflexivity.
Qed.

Lemma find_ip_identity_count (name : string) (l : list ip_identity) (iid : string) :
  find_ip_identity name l = Some iid -> (1 <= count_named name l)%nat.
Proof.
  unfold count_named. induction l as [|i l IH]; simpl; [discriminate|].
  destruct (String.eqb (ipi_name i) name); simpl; [lia | auto].
Qed.

Lemma source_identities_keeps (name : string) (s : session) (r : acl_rule) :
  keeps_named name s (snd (source_identities s r)).
Proof.
  unfold source_identities.
  destruct (source_object_group r); [apply keeps_named_same; reflexivity|].
  destruct (source_ip r) as [ip|]; [|apply keeps_named_same; reflexivity].
  destruct (negb (String.eqb ip "any")); [|apply keeps_named_same; reflexivity].
  pose proof (get_or_create_ip_identity_keeps name s ip) as K.
  destruct (get_or_create_ip_identity s ip). exact K.
Qed.

Lemma destination_identities_keeps (name : string) (s : session) (r : acl_rule) :
  keeps_named name s (snd (destination_identities s r)).
Proof.
  unfold destination_identities.
  destruct (destination_object_group r); [apply keeps_named_same; reflexivity|].
  destruct (destination_ip r) as [ip|]; [|apply keeps_named_same; reflexivity].
  destruct (negb (String.eqb ip "any")); [|apply keeps_named_same; reflexivity].
  pose proof (get_or_create_ip_identity_keeps name s ip) as K.
  destruct (get_or_create_ip_identity s ip). exact K.
Qed.

Lemma source_port_identities_ip (s : session) (r : acl_rule) :
  identities_ip (snd (source_port_identities s r)) = identities_ip s.
Proof.
  unfold source_port_identities. destruct (source_port r) as [p|]; [|reflexivity].
  pose proof (get_or_create_port_identity_ip s p) as K. destruct (get_or_create_port_identity s p). exact K.
Qed.

Lemma non_service_dst_port_identities_ip (s : session) (r : acl_rule) :
  identities_ip (snd (non_service_dst_port_identities s r)) = identities_ip s.
Proof.
  unfold non_service_dst_port_identities.
  destruct (destination_port r) as [p|]; [|reflexivity]. destruct (service_object_group r); [reflexivity|].
  pose proof (get_or_create_port_identity_ip s p) as K. destruct (get_or_create_port_identity s p). exact K.
Qed.

Lemma valid_ip_not_any (ip : string) : Ip.is_valid_ip_address ip = true -> String.eqb ip "any" = false.
Proof. intros V. destruct (String.eqb_spec ip "any") as [->|]; [discriminate V | reflexivity]. Qed.

Lemma destination_identities_ip (s : session) (r : acl_rule) (ip : string) :
  destination_object_group r = None -> destination_ip r = Some ip -> Ip.is_valid_ip_address ip = true ->
  exists iid, fst (destination_identities s r) = [iid]
    /\ find_ip_identity (ip_identity_name ip) (identities_ip (snd (destination_identities s r))) = Some iid.
Proof.
  intros Hg Hip V. unfold destination_identities. rewrite Hg, Hip, (valid_ip_not_any ip V). simpl.
  destruct (get_or_create_ip_identity_found s ip V) as (iid & E1 & E2).
  destruct (get_or_create_ip_identity s ip) as [o s']. simpl in *. subst o. exists iid. auto.
Qed.

Lemma mapi_go_Forall {A B} (P : B -> Prop) (f : Z -> A -> B) (i : Z) (l : list A) :
  (forall j x, P (f j x)) -> Forall P (mapi_go f i l).
Proof. intros H. revert i. induction l as [|x l IH]; intros i; simpl; constructor; auto. Qed.

Lemma build_rules_dst (s : session) (r : acl_rule) (idx : Z) (dz a : option string)
  (src_ids dst_ids src_ports ns_ports : list string) :
  Forall (fun fr => option_map side_ip (fr_dst fr) = Some (Some dst_ids))
    (build_rules s r idx dz a src_ids dst_ids src_ports ns_ports).
Proof.
  unfold build_rules. destruct (service_object_group r).
  - destruct (_ <? _)%nat; [apply mapi_go_Forall; reflexivity | repeat constructor].
  - repeat constructor.
Qed.

Lemma convert_acl_rule_keeps (name : string) (s : session) (r : acl_rule) (idx : Z) (dz a : option string) :
  keeps_named name s (snd (convert_acl_rule s r idx dz a)).
Proof.
  unfold convert_acl_rule.
  pose proof (source_identities_keeps name s r) as K1. destruct (source_identities s r) as [x1 s1].
  pose proof (destination_identities_keeps name s1 r) as K2. destruct (destination_identities s1 r) as [x2 s2].
  pose proof (source_port_identities_ip s2 r) as K3. destruct (source_port_identities s2 r) as [x3 s3].
  pose proof (non_service_dst_port_identities_ip s3 r) as K4.
  destruct (non_service_dst_port_identities s3 r) as [x4 s4]. simpl in *.
  apply (keeps_named_trans _ _ s1); [exact K1|]. apply (keeps_named_trans _ _ s2); [exact K2|].
  apply keeps_named_same. congruence.
Qed.

Lemma convert_acl_rule_dst (s : session) (r : acl_rule) (idx : Z) (dz a : option string) (ip : string) :
  destination_object_group r = None -> destination_ip r = Some ip -> Ip.is_valid_ip_address ip = true ->
  exists iid,
    find_ip_identity (ip_identity_name ip) (identities_ip (snd (convert_acl_rule s r idx dz a))) = Some iid
    /\ Forall (fun fr => option_map side_ip (fr_dst fr) = Some (Some [iid])) (fst (convert_acl_rule s r idx dz a)).
Proof.
  intros Hg Hip V. unfold convert_acl_rule.
  destruct (source_identities s r) as [x1 s1].
  destruct (destination_identities_ip s1 r ip Hg Hip V) as (iid & D1 & D2).
  destruct (destination_identities s1 r) as [x2 s2]. simpl in D1, D2. subst x2.
  pose proof (source_port_identities_ip s2 r) as K3. destruct (source_port_identities s2 r) as [x3 s3].
  pose proof (non_service_dst_port_identities_ip s3 r) as K4.
  destruct (non_service_dst_port_identities s3 r) as [x4 s4]. simpl in *.
  exists iid. split; [congruence | apply build_rules_dst].
Qed.

Lemma convert_acl_rules_same_ip (s : session) (rs : list acl_rule) (idx : Z) (dz a : option string) (ip : string) :
  Ip.is_valid_ip_address ip = true ->
  Forall (fun r => destination_object_group r = None /\ destination_ip r = Some ip) rs ->
  let '(frs, _, s') := convert_acl_rules s rs idx dz a in
  keeps_named (ip_identity_name ip) s s'
  /\ (forall iid, find_ip_identity (ip_identity_name ip) (identities_ip s') = Some iid ->
        Forall (fun fr => option_map side_ip (fr_dst fr) = Some (Some [iid])) frs)
  /\ (rs <> [] -> exists iid, find_ip_identity (ip_identity_name ip) (identities_ip s') = Some iid).
Proof.
  intros V. revert s idx. induction rs as [|r rs IH]; intros s idx Hrs; simpl.
  - split; [apply keeps_named_same; reflexivity|]. split; [constructor | congruence].
  - inversion Hrs as [|? ? [Hg Hip] Hrest]; subst.
    pose proof (convert_acl_rule_keeps (ip_identity_name ip) s r idx dz a) as K1.
    destruct (convert_acl_rule_dst s r idx dz a ip Hg Hip V) as (iid0 & F1 & D1).
    destruct (convert_acl_rule s r idx dz a) as [crs s1]. simpl in K1, F1, D1.
    specialize (IH s1 (idx + Z.of_nat (List.length crs)) Hrest).
    destruct (convert_acl_rules s1 rs _ dz a) as [[more idx'] s2].
    destruct IH as (K2 & D2 & _).
    assert (F2 : find_ip_identity (ip_identity_name ip) (identities_ip s2) = Some iid0)
      by (apply K2; exact F1).
    split; [apply (keeps_named_trans _ _ s1); assumption|]. split.
    + intros iid F. rewrite F2 in F. injection F as <-. apply Forall_app. split; [exact D1 | apply D2; exact F2].
    + intros _. exists iid0. exact F2.
Qed.

(** C9 (confirmed).  Translating any non-empty sequence of ACL rules whose
    destination is the same valid literal IP address (no destination
    object-group) leaves exactly one IP identity named after that address,
    when there was at most one before, and every Filter Rule produced
    references that identity's id, and only it, as destination IP. *)
Theorem same_ip_single_identity (s : session) (rs : list acl_rule) (idx : Z) (dz a : option string)
  (ip : string) :
  Ip.is_valid_ip_address ip = true -> rs <> [] ->
  Forall (fun r => destination_object_group r = None /\ destination_ip r = Some ip) rs ->
  (count_named (ip_identity_name ip) (identities_ip s) <= 1)%nat ->
  let '(frs, _, s') := convert_acl_rules s rs idx dz a in
  count_named (ip_identity_name ip) (identities_ip s') = 1%nat
  /\ exists iid, find_ip_identity (ip_identity_name ip) (identities_ip s') = Some iid
      /\ Forall (fun fr => option_map side_ip (fr_dst fr) = Some (Some [iid])) frs.
Proof.
  intros V Hne Hrs C. pose proof (convert_acl_rules_same_ip s rs idx dz a ip V Hrs) as H.
  destruct (convert_acl_rules s rs idx dz a) as [[frs idx'] s'].
  destruct H as ((_ & Kc & _) & D & E). destruct (E Hne) as [iid F].
  split; [|exists iid; split; [exact F | apply D; exact F]].
  pose proof (find_ip_identity_count _ _ _ F). specialize (Kc C). lia.
Qed.

Lemma same_ip_single_identity_witness :
  Ip.is_valid_ip_address "10.0.0.5" = true /\ sample_host_rules <> [] /\
  Forall (fun r => destination_object_group r = None /\ destination_ip r = Some "10.0.0.5") sample_host_rules /\
  (count_named (ip_identity_name "10.0.0.5") (identities_ip (init_session [] false "")) <= 1)%nat /\
  let '(frs, _, s') := convert_acl_rules (init_session [] false "") sample_host_rules 0 None (Some "A") in
  count_named (ip_identity_name "10.0.0.5") (identities_ip s') = 1%nat
  /\ exists iid, find_ip_identity (ip_identity_name "10.0.0.5") (identities_ip s') = Some iid
      /\ Forall (fun fr => option_map side_ip (fr_dst fr) = Some (Some [iid])) frs.
Proof.
  split; [vm_compute; reflexivity|]. split; [discriminate|].
  split; [repeat constructor|]. split; [vm_compute; lia|].
  apply same_ip_single_identity;
    [vm_compute; reflexivity | discriminate | repeat constructor | vm_compute; lia].
Defined.

(** The two rules of [cfg_same_host] share one identity [IP-10-0-0-5]. *)
Lemma same_host_config_one_identity :
  match convert cfg_same_host false "EXT-Internet" with
  | Some (s, d) =>
      map ipi_name (identities_ip s) = ["SRC"; "IP-10-0-0-5"]
      /\ map (fun r => option_map side_ip (fr_dst r)) (doc_rules d) =
           [Some (Some ["uuid-2"]); Some (Some ["uuid-2"])]
  | None => False
  end.
Proof. vm_compute. split; reflexivity. Qed.

(** ** Frames: the fields each pass leaves alone *)

Ltac frame_step IH :=
  repeat (case_match; simpl); rewrite ?IH; reflexivity.

Lemma parse_zones_frame (s : session) : parse_frame (parse_zones s) = parse_frame s.
Proof.
  unfold parse_zones. generalize (config_lines s) as lines. intros lines. revert s.
  induction lines as [|l ls IH]; intros s; simpl; [reflexivity|]. frame_step IH.
Qed.

Lemma parse_interfaces_frame (s : session) : parse_frame (parse_interfaces s) = parse_frame s.
Proof.
  unfold parse_interfaces. generalize (config_lines s) as lines, (@None string) as cur. intros lines. revert s.
  induction lines as [|l ls IH]; intros s cur; simpl; [reflexivity|]. frame_step IH.
Qed.

Lemma parse_object_groups_frame (s s' : session) :
  parse_object_groups s = Some s' -> parse_frame s' = parse_frame s.
Proof.
  unfold parse_object_groups. generalize (config_lines s) as lines, (@None string) as cur. intros lines. revert s.
  induction lines as [|l ls IH]; intros s cur H; simpl in H; [congruence|].
  repeat (case_match; simpl in H); try discriminate; rewrite (IH _ _ H); reflexivity.
Qed.

Lemma parse_acls_frame (s : session) : parse_frame (parse_acls s) = parse_frame s.
Proof.
  unfold parse_acls. generalize (config_lines s) as lines, (@None string) as cur. intros lines. revert s.
  induction lines as [|l ls IH]; intros s cur; simpl; [reflexivity|]. frame_step IH.
Qed.

Lemma parse_class_maps_frame (s : session) : parse_frame (parse_class_maps s) = parse_frame s.
Proof.
  unfold parse_class_maps. generalize (config_lines s) as lines, (@None string) as cur. intros lines. revert s.
  induction lines as [|l ls IH]; intros s cur; simpl; [reflexivity|]. frame_step IH.
Qed.

Lemma parse_policy_maps_frame (s s' : session) :
  parse_policy_maps s = Some s' -> parse_frame s' = parse_frame s.
Proof.
  unfold parse_policy_maps. generalize (config_lines s) as lines, (@None string) as cur. intros lines. revert s.
  induction lines as [|l ls IH]; intros s cur H; simpl in H; [congruence|].
  repeat (case_match; simpl in H); try discriminate; rewrite (IH _ _ H); reflexivity.
Qed.

Lemma parse_zone_pairs_frame (s : session) : parse_frame (parse_zone_pairs s) = parse_frame s.
Proof. reflexivity. Qed.

Lemma fold_left_inv {A B} (P : A -> Prop) (f : A -> B -> A) (l : list B) (a : A) :
  P a -> (forall a b, P a -> P (f a b)) -> P (fold_left f l a).
Proof. revert a. induction l as [|b l IH]; intros a Ha Hf; simpl; auto. Qed.

Lemma get_or_create_ip_identity_frame (s : session) (ip : string) :
  id_frame (snd (get_or_create_ip_identity s ip)) = id_frame s.
Proof. unfold get_or_create_ip_identity, generate_id. repeat case_match; reflexivity. Qed.

Lemma get_or_create_port_identity_frame (s : session) (p : string) :
  id_frame (snd (get_or_create_port_identity s p)) = id_frame s.
Proof. unfold get_or_create_port_identity, generate_id. repeat case_match; reflexivity. Qed.

Ltac get_or_create_frame :=
  repeat match goal with
  | |- context [get_or_create_ip_identity ?t ?ip] =>
      let E := fresh "E" in pose proof (get_or_create_ip_identity_frame t ip) as E;
      destruct (get_or_create_ip_identity t ip); exact E
  | |- context [get_or_create_port_identity ?t ?p] =>
      let E := fresh "E" in pose proof (get_or_create_port_identity_frame t p) as E;
      destruct (get_or_create_port_identity t p); exact E
  | |- context [match ?x with _ => _ end] => destruct x
  | _ => reflexivity
  end.

Lemma source_identities_frame (s : session) (r : acl_rule) :
  id_frame (snd (source_identities s r)) = id_frame s.
Proof. unfold source_identities. get_or_create_frame. Qed.

Lemma destination_identities_frame (s : session) (r : acl_rule) :
  id_frame (snd (destination_identities s r)) = id_frame s.
Proof. unfold destination_identities. get_or_create_frame. Qed.

Lemma source_port_identities_frame (s : session) (r : acl_rule) :
  id_frame (snd (source_port_identities s r)) = id_frame s.
Proof. unfold source_port_identities. get_or_create_frame. Qed.

Lemma non_service_dst_port_identities_frame (s : session) (r : acl_rule) :
  id_frame (snd (non_service_dst_port_identities s r)) = id_frame s.
Proof. unfold non_service_dst_port_identities. get_or_create_frame. Qed.

Lemma convert_acl_rule_frame (s : session) (r : acl_rule) (idx : Z) (dz a : option string) :
  id_frame (snd (convert_acl_rule s r idx dz a)) = id_frame s.
Proof.
  unfold convert_acl_rule.
  pose proof (source_identities_frame s r) as K1. destruct (source_identities s r) as [x1 s1].
  pose proof (destination_identities_frame s1 r) as K2. destruct (destination_identities s1 r) as [x2 s2].
  pose proof (source_port_identities_frame s2 r) as K3. destruct (source_port_identities s2 r) as [x3 s3].
  pose proof (non_service_dst_port_identities_frame s3 r) as K4.
  destruct (non_service_dst_port_identities s3 r) as [x4 s4]. simpl in *. congruence.
Qed.

Lemma convert_acl_rules_frame (s : session) (rs : list acl_rule) (idx : Z) (dz a : option string) :
  id_frame (snd (convert_acl_rules s rs idx dz a)) = id_frame s.
Proof.
  revert s idx. induction rs as [|r rs IH]; intros s idx; simpl; [reflexivity|].
  pose proof (convert_acl_rule_frame s r idx dz a) as K. destruct (convert_acl_rule s r idx dz a) as [crs s1].
  specialize (IH s1 (idx + Z.of_nat (List.length crs))).
  destruct (convert_acl_rules s1 rs _ dz a) as [[more i] s2]. simpl in *. congruence.
Qed.

Lemma class_action_rules_frame (s : session) (ca : class_action) (idx : Z) (dz : string) :
  id_frame (snd (class_action_rules s ca idx dz)) = id_frame s.
Proof.
  unfold class_action_rules. destruct (dict_get (ca_class_name ca) (class_maps s)) as [cm|].
  - lazymatch goal with |- context [fold_left ?f (acl_references cm) ?a0] =>
      assert (Hf : id_frame (snd (fold_left f (acl_references cm) a0)) = id_frame s);
      [apply (fold_left_inv (fun acc => id_frame (snd acc) = id_frame s)); [reflexivity|];
       intros [[rs i] st] b H; simpl in H |- *; destruct (dict_get b (acls st)); [|exact H];
       pose proof (convert_acl_rules_frame st (acl_rules a) i (Some dz) (Some b)) as K;
       destruct (convert_acl_rules st (acl_rules a) i (Some dz) (Some b)) as [[? ?] ?]; simpl in *; congruence
      | destruct (fold_left f (acl_references cm) a0) as [[racl i1] s1]; simpl in Hf]
    end.
    destruct (fold_left _ (object_group_references cm) _) as [robj i2].
    destruct (fold_left _ (ca_actions ca) _) as [rdrop i3]. exact Hf.
  - destruct (fold_left _ (ca_actions ca) _) as [rdrop i3]. reflexivity.
Qed.

Lemma class_actions_rules_frame (s : session) (cas : list class_action) (idx : Z) (dz : string) :
  id_frame (snd (class_actions_rules s cas idx dz)) = id_frame s.
Proof.
  revert s idx. induction cas as [|ca cas IH]; intros s idx; simpl; [reflexivity|].
  pose proof (class_action_rules_frame s ca idx dz) as K. destruct (class_action_rules s ca idx dz) as [[rs i] s1].
  specialize (IH s1 i). destruct (class_actions_rules s1 cas i dz) as [more s2]. simpl in *. congruence.
Qed.

Lemma add_proto_identity_frame (g a b : string) (ports : list Z) (s : session) :
  id_frame (snd (add_proto_identity g a b ports s)) = id_frame s.
Proof. unfold add_proto_identity, generate_id. destruct ports; reflexivity. Qed.

Lemma create_identities_frame (s : session) : id_frame (create_identities s) = id_frame s.
Proof.
  unfold create_identities.
  assert (H1 : forall gs t, id_frame (create_ip_identities_go gs t) = id_frame t).
  { induction gs as [|[gname g] gs IH]; intros t; simpl; [reflexivity|].
    destruct (_ && _); [|apply IH]. rewrite IH. case_match; reflexivity. }
  assert (H2 : forall gs t, id_frame (create_port_identities_go gs t) = id_frame t).
  { induction gs as [|[gname g] gs IH]; intros t; simpl; [reflexivity|].
    destruct (_ && _); [|apply IH]. destruct (1 <? _)%nat.
    - destruct (scan_service_group _ _) as [tp up].
      pose proof (add_proto_identity_frame gname "TCP" "tcp" tp t) as K1.
      destruct (add_proto_identity gname "TCP" "tcp" tp t) as [tid t1].
      pose proof (add_proto_identity_frame gname "UDP" "udp" up t1) as K2.
      destruct (add_proto_identity gname "UDP" "udp" up t1) as [uid t2]. simpl in K1, K2.
      rewrite IH. transitivity (id_frame t2); [destruct tid, uid; reflexivity | congruence].
    - rewrite IH. case_match; reflexivity. }
  rewrite H2, H1. reflexivity.
Qed.

Lemma keeps_policies_refl (s : session) : keeps_policies s s.
Proof. intros k H. exact H. Qed.

Lemma keeps_policies_trans (s1 s2 s3 : session) :
  keeps_policies s1 s2 -> keeps_policies s2 s3 -> keeps_policies s1 s3.
Proof. intros A B k H. auto. Qed.

Lemma id_frame_core (s s' : session) : id_frame s' = id_frame s -> core s' = core s.
Proof. intros E. exact (f_equal fst E). Qed.

Lemma id_frame_policies (s s' : session) : id_frame s' = id_frame s -> filter_policies s' = filter_policies s.
Proof. intros E. exact (f_equal snd E). Qed.

Lemma keeps_policies_frame (s s' : session) : id_frame s' = id_frame s -> keeps_policies s s'.
Proof. intros E k H. rewrite (id_frame_policies _ _ E). exact H. Qed.

Lemma dict_mem_set {V} (k k' : string) (v : V) (d : dict V) :
  dict_mem k (dict_set k' v d) = (String.eqb k k' || dict_mem k d)%bool.
Proof.
  unfold dict_mem. induction d as [|[k1 v1] d IH]; simpl.
  - destruct (String.eqb k k'); reflexivity.
  - destruct (String.eqb_spec k' k1) as [->|N]; simpl.
    + destruct (String.eqb k k1); reflexivity.
    + destruct (String.eqb_spec k k1) as [->|N2]; simpl.
      * destruct (String.eqb_spec k1 k') as [->|]; [congruence | reflexivity].
      * exact IH.
Qed.

Lemma dict_mem_set_new {V} (k : string) (v : V) (d : dict V) : dict_mem k (dict_set k v d) = true.
Proof. rewrite dict_mem_set, String.eqb_refl. reflexivity. Qed.

Lemma dict_mem_set_old {V} (k k' : string) (v : V) (d : dict V) :
  dict_mem k d = true -> dict_mem k (dict_set k' v d) = true.
Proof. intros H. rewrite dict_mem_set, H, orb_true_r. reflexivity. Qed.

Lemma add_policy_keeps (pid : string) (p : filter_policy) (s : session) : keeps_policies s (add_policy pid p s).
Proof. intros k H. apply dict_mem_set_old. exact H. Qed.

Lemma acl_policies_go_core (used : list string) (l : list (string * acl)) (s : session) :
  core (acl_policies_go used l s) = core s /\ keeps_policies s (acl_policies_go used l s).
Proof.
  revert s. induction l as [|[aname a] l IH]; intros s; simpl; [split; [reflexivity | apply keeps_policies_refl]|].
  destruct (_ && _); [|apply IH].
  idtac.
  pose proof (convert_acl_rules_frame (set_next_id s (N.succ (next_id s))) (acl_rules a) 0 None (Some aname)) as K.
  destruct (convert_acl_rules _ (acl_rules a) 0 None (Some aname)) as [[rules i] s2]. simpl in K.
  assert (Hc : core s2 = core s /\ keeps_policies s s2).
  { split; [apply id_frame_core, K | apply keeps_policies_frame, K]. }
  destruct rules as [|r rules].
  - destruct (IH s2) as [C P]. split; [rewrite C; apply Hc | eapply keeps_policies_trans; [apply Hc | exact P]].
  - destruct (IH (add_policy (uuid (next_id s)) (mk_fp (uuid (next_id s)) aname "deny"
                 (RulesDict (consolidate_rules (r :: rules)))) s2)) as [C P].
    split; [rewrite C; apply Hc|].
    eapply keeps_policies_trans; [apply Hc|]. eapply keeps_policies_trans; [apply add_policy_keeps | exact P].
Qed.

Lemma policy_map_policies_go_core (l : list (string * policy_map)) (s : session) :
  core (policy_map_policies_go l s) = core s /\ keeps_policies s (policy_map_policies_go l s).
Proof.
  revert s. induction l as [|[pname pm] l IH]; intros s; simpl; [split; [reflexivity | apply keeps_policies_refl]|].
  lazymatch goal with |- context [class_actions_rules ?t ?cas 0 ?dz] =>
    pose proof (class_actions_rules_frame t cas 0 dz) as K; destruct (class_actions_rules t cas 0 dz) as [rules s2]
  end. simpl in K.
  assert (Hc : core s2 = core s /\ keeps_policies s s2).
  { split; [apply id_frame_core, K | apply keeps_policies_frame, K]. }
  lazymatch goal with |- context [policy_map_policies_go l ?t] => destruct (IH t) as [C P] end.
  split; [rewrite C; apply Hc|].
  eapply keeps_policies_trans; [apply Hc|]. eapply keeps_policies_trans; [apply add_policy_keeps | exact P].
Qed.

Lemma dict_set_nonempty {V} (k : string) (v : V) (d : dict V) : dict_set k v d <> [].
Proof. destruct d as [|[k' v'] d]; simpl; [discriminate|]. destruct (String.eqb k k'); discriminate. Qed.

Lemma has_policy_nonempty (s : session) :
  (exists k, dict_mem k (filter_policies s) = true) <-> filter_policies s <> [].
Proof.
  split.
  - intros [k H] E. rewrite E in H. discriminate.
  - destruct (filter_policies s) as [|[k p] fps]; [congruence|]. intros _. exists k.
    unfold dict_mem. simpl. rewrite String.eqb_refl. reflexivity.
Qed.

Lemma create_filter_policies_core (s : session) :
  core (create_filter_policies s) = core s /\ keeps_policies s (create_filter_policies s)
  /\ filter_policies (create_filter_policies s) <> [].
Proof.
  unfold create_filter_policies.
  destruct (acl_policies_go_core (flat_map acl_references (dict_values (class_maps s))) (acls s) s) as [C1 P1].
  set (s1 := acl_policies_go _ (acls s) s) in *.
  destruct (policy_map_policies_go_core (policy_maps s1) s1) as [C2 P2].
  set (s2 := policy_map_policies_go (policy_maps s1) s1) in *.
  destruct (filter_policies s2) as [|fp fps] eqn:F.
  - simpl. split; [rewrite <- C1, <- C2; reflexivity|]. split; [|apply dict_set_nonempty].
    intros k H. apply dict_mem_set_old, dict_mem_set_old. apply P2, P1, H.
  - split; [congruence|]. split; [eapply keeps_policies_trans; eassumption | rewrite F; discriminate].
Qed.

Lemma zone_forwardings_go_frame (zps : list (string * zone_pair)) (s : session) :
  fw_frame (zone_forwardings_go zps s) = fw_frame s.
Proof. revert s. induction zps as [|[pn zp] zps IH]; intros s; simpl; [reflexivity | rewrite IH; reflexivity]. Qed.

Lemma Forall_dict_set {V} (P : string * V -> Prop) (k : string) (v : V) (d : dict V) :
  P (k, v) -> Forall P d -> Forall P (dict_set k v d).
Proof.
  intros Hk Hd. induction Hd as [|[k' v'] d H Hd IH]; simpl; [constructor; [exact Hk | constructor]|].
  destruct (String.eqb_spec k k') as [<-|]; constructor; auto.
Qed.

Lemma find_policy_by_name_mem (nm pid : string) (fps : dict filter_policy) :
  find_policy_by_name nm fps = Some pid -> dict_mem pid fps = true.
Proof.
  induction fps as [|[k p] fps IH]; simpl; [discriminate|].
  destruct (String.eqb (fp_name p) nm).
  - intros [= <-]. unfold dict_mem. simpl. rewrite String.eqb_refl. reflexivity.
  - intros H. unfold dict_mem. simpl. destruct (String.eqb pid k); [reflexivity | apply IH, H].
Qed.

Lemma fw_inv_mono (s s' : session) :
  zone_forwardings s' = zone_forwardings s -> keeps_policies s s' -> fw_inv s -> fw_inv s'.
Proof.
  intros E K H. unfold fw_inv. rewrite E. eapply Forall_impl; [exact H|].
  intros [k f] [H1 [H2|H2]]; split; auto.
Qed.

Lemma pair_forwarding_ok (s : session) (fid : string) (zp : zone_pair) :
  fw_ok (filter_policies s) (fid, pair_forwarding s fid zp).
Proof.
  unfold fw_ok, pair_forwarding. destruct (resolve_zone_ids _ _ _ _ _) as [sid did]. simpl.
  split; [reflexivity|].
  set (b := match zp_policy_map zp with
            | Some pm => if String.eqb pm "" then None else find_policy_by_name pm (filter_policies s)
            | None => None end).
  destruct b as [pid|] eqn:Eb.
  - right. simpl. destruct (zp_policy_map zp) as [pm|]; [|discriminate].
    destruct (String.eqb pm ""); [discriminate|]. eapply find_policy_by_name_mem; eassumption.
  - destruct (find_policy_by_name "Default Deny All" (filter_policies s)) as [pid|] eqn:F; simpl;
      [right; eapply find_policy_by_name_mem; eassumption | left; reflexivity].
Qed.

Lemma zone_forwardings_go_inv (zps : list (string * zone_pair)) (s : session) :
  fw_inv s -> fw_inv (zone_forwardings_go zps s).
Proof.
  revert s. induction zps as [|[pn zp] zps IH]; intros s H; simpl; [exact H|]. apply IH.
  unfold fw_inv. simpl. apply Forall_dict_set; [exact (pair_forwarding_ok _ _ _) | exact H].
Qed.

Lemma internet_forwardings_go_frame (inet allow : string) (zs : list (string * zone)) (s : session) :
  fw_frame (internet_forwardings_go inet allow zs s) = fw_frame s.
Proof.
  revert s. induction zs as [|[zid z] zs IH]; intros s; simpl; [reflexivity|].
  destruct (negb _); rewrite IH; reflexivity.
Qed.

Lemma internet_forwardings_go_inv (inet allow : string) (zs : list (string * zone)) (s : session) :
  dict_mem allow (filter_policies s) = true -> fw_inv s -> fw_inv (internet_forwardings_go inet allow zs s).
Proof.
  revert s. induction zs as [|[zid z] zs IH]; intros s M H; simpl; [exact H|].
  destruct (negb _); apply IH; try exact M; try exact H.
  unfold fw_inv. simpl. apply Forall_dict_set; [split; [reflexivity | right; exact M] | exact H].
Qed.

Lemma internet_forwardings_go_keeps (inet allow : string) (zs : list (string * zone)) (s t : session) :
  dict_mem allow (filter_policies t) = true -> fw_inv t -> keeps_policies s t ->
  keeps_policies s (internet_forwardings_go inet allow zs t) /\ fw_inv (internet_forwardings_go inet allow zs t).
Proof.
  intros M H K.
  pose proof (f_equal (fun x => let '(_, _, fps, _, _, _, _, _, _, _) := x in fps)
                (internet_forwardings_go_frame inet allow zs t)) as E. simpl in E.
  split; [intros k Mk; rewrite E; apply K, Mk | apply internet_forwardings_go_inv; assumption].
Qed.

Lemma create_internet_zone_inv (s : session) :
  fw_inv s -> keeps_policies s (create_internet_zone s) /\ fw_inv (create_internet_zone s).
Proof.
  intros H. unfold create_internet_zone.
  destruct (generate_id s) as [inet s1] eqn:G.
  set (s2 := set_zones s1 _).
  assert (P2 : filter_policies s2 = filter_policies s) by (injection G as <- <-; reflexivity).
  assert (H2 : fw_inv s2) by (injection G as <- <-; exact H).
  rewrite P2. destruct (find_policy_by_name "Default Allow All" (filter_policies s)) as [pid|] eqn:F.
  - apply internet_forwardings_go_keeps; [rewrite P2; exact (find_policy_by_name_mem _ _ _ F) | exact H2|].
    intros k M. rewrite P2. exact M.
  - destruct (generate_id s2) as [pid s'] eqn:G2.
    assert (P' : filter_policies s' = filter_policies s) by (injection G2 as <- <-; exact P2).
    apply internet_forwardings_go_keeps; [apply dict_mem_set_new| |].
    + unfold fw_inv. simpl. injection G2 as <- <-. eapply Forall_impl; [exact H2|].
      intros [k f] [H1 [H3|H3]]; split; auto. right. apply dict_mem_set_old. exact H3.
    + intros k M. apply dict_mem_set_old. rewrite P'. exact M.
Qed.

Lemma parse_frame_fields (s s' : session) :
  parse_frame s' = parse_frame s ->
  config_lines s' = config_lines s /\ add_internet_zone s' = add_internet_zone s
  /\ internet_zone_name s' = internet_zone_name s /\ zone_forwardings s' = zone_forwardings s
  /\ filter_policies s' = filter_policies s.
Proof. unfold parse_frame. intros E. injection E. intros. repeat split; assumption. Qed.

Lemma core_fields (s s' : session) :
  core s' = core s ->
  config_lines s' = config_lines s /\ zones s' = zones s /\ zone_forwardings s' = zone_forwardings s
  /\ acls s' = acls s /\ policy_maps s' = policy_maps s /\ zone_pairs s' = zone_pairs s
  /\ add_internet_zone s' = add_internet_zone s.
Proof. unfold core. intros E. injection E. intros. repeat split; assumption. Qed.

Lemma fw_frame_fields (s s' : session) :
  fw_frame s' = fw_frame s ->
  config_lines s' = config_lines s /\ zones s' = zones s /\ filter_policies s' = filter_policies s
  /\ acls s' = acls s /\ policy_maps s' = policy_maps s /\ zone_pairs s' = zone_pairs s
  /\ add_internet_zone s' = add_internet_zone s.
Proof. unfold fw_frame. intros E. injection E. intros. repeat split; assumption. Qed.

Lemma parse_config_shape (s0 s : session) :
  parse_config s0 = Some s ->
  exists s4, parse_frame s4 = parse_frame s0
    /\ s = if add_internet_zone s0 then create_internet_zone (build_passes s4) else build_passes s4.
Proof.
  unfold parse_config.
  destruct (parse_object_groups (parse_interfaces (parse_zones s0))) as [s2|] eqn:E1; [|discriminate].
  pose proof (parse_object_groups_frame _ _ E1) as F1.
  destruct (parse_policy_maps (parse_class_maps (parse_acls s2))) as [s4|] eqn:E2; [|discriminate].
  pose proof (parse_policy_maps_frame _ _ E2) as F2.
  rewrite parse_class_maps_frame, parse_acls_frame, F1, parse_interfaces_frame, parse_zones_frame in F2.
  intros [= <-]. exists s4. split; [exact F2|].
  fold (build_passes s4).
  assert (A : add_internet_zone (build_passes s4) = add_internet_zone s4).
  { unfold build_passes, create_zone_forwardings.
    destruct (fw_frame_fields _ _ (zone_forwardings_go_frame (zone_pairs (create_filter_policies
      (create_identities (parse_zone_pairs s4)))) (create_filter_policies (create_identities (parse_zone_pairs s4)))))
      as (_ & _ & _ & _ & _ & _ & ->).
    destruct (create_filter_policies_core (create_identities (parse_zone_pairs s4))) as [C _].
    destruct (core_fields _ _ C) as (_ & _ & _ & _ & _ & _ & ->).
    destruct (core_fields _ _ (id_frame_core _ _ (create_identities_frame (parse_zone_pairs s4))))
      as (_ & _ & _ & _ & _ & _ & ->).
    reflexivity. }
  rewrite A. destruct (parse_frame_fields _ _ F2) as (_ & -> & _). reflexivity.
Qed.

Lemma build_passes_inv (s4 : session) :
  fw_inv s4 -> fw_inv (build_passes s4) /\ filter_policies (build_passes s4) <> []
  /\ config_lines (build_passes s4) = config_lines s4.
Proof.
  intros H. unfold build_passes.
  set (t := parse_zone_pairs s4). set (u := create_identities t). set (v := create_filter_policies u).
  assert (Ht : fw_inv t) by exact H.
  pose proof (create_identities_frame t) as Fu. fold u in Fu.
  destruct (core_fields _ _ (id_frame_core _ _ Fu)) as (Lu & _ & Wu & _).
  assert (Hu : fw_inv u) by (apply (fw_inv_mono t u Wu (keeps_policies_frame _ _ Fu)), Ht).
  destruct (create_filter_policies_core u) as (Cv & Kv & Nv). fold v in Cv, Kv, Nv.
  destruct (core_fields _ _ Cv) as (Lv & _ & Wv & _).
  assert (Hv : fw_inv v) by (apply (fw_inv_mono u v Wv Kv), Hu).
  unfold create_zone_forwardings.
  destruct (fw_frame_fields _ _ (zone_forwardings_go_frame (zone_pairs v) v)) as (Lw & _ & Pw & _).
  split; [apply zone_forwardings_go_inv, Hv|]. split; [rewrite Pw; exact Nv|].
  rewrite Lw, Lv, Lu. reflexivity.
Qed.

Lemma parse_config_inv (s0 s : session) :
  parse_config s0 = Some s -> fw_inv s0 ->
  fw_inv s /\ filter_policies s <> [] /\ config_lines s = config_lines s0.
Proof.
  intros E H. destruct (parse_config_shape _ _ E) as (s4 & F & ->).
  destruct (parse_frame_fields _ _ F) as (L4 & _ & _ & W4 & P4).
  assert (H4 : fw_inv s4) by (unfold fw_inv; rewrite W4, P4; exact H).
  destruct (build_passes_inv s4 H4) as (H5 & N5 & L5).
  destruct (add_internet_zone s0).
  - destruct (create_internet_zone_inv _ H5) as [K H6]. split; [exact H6|]. split.
    + apply has_policy_nonempty. apply has_policy_nonempty in N5 as [k M]. exists k. apply K, M.
    + unfold create_internet_zone. destruct (generate_id (build_passes s4)) as [i s1] eqn:G.
      injection G as <- <-.
      destruct (find_policy_by_name _ _); [|simpl];
      rewrite (proj1 (fw_frame_fields _ _ (internet_forwardings_go_frame _ _ _ _))); simpl; congruence.
  - split; [exact H5|]. split; [exact N5 | congruence].
Qed.

Lemma convert_inv (lines : list string) (b : bool) (nm : string) (s : session) (d : document) :
  convert lines b nm = Some (s, d) -> d = emit s /\ fw_inv s /\ filter_policies s <> [].
Proof.
  unfold convert. destruct (parse_config (init_session lines b nm)) as [s1|] eqn:E1; [|discriminate].
  destruct (parse_config_inv _ _ E1 (List.Forall_nil _)) as (H1 & N1 & _).
  unfold generate_cradlepoint_config. destruct (config_lines s1).
  - destruct (parse_config s1) as [s2|] eqn:E2; simpl; [|discriminate]. intros [= <- <-].
    destruct (parse_config_inv _ _ E2 H1) as (H2 & N2 & _). auto.
  - intros [= <- <-]. auto.
Qed.

Lemma resolve_zone_ids_src (src dst : string) (zs : dict zone) (sid did : option string) :
  (forall zid z, In (zid, z) zs -> zone_name z <> src) -> fst (resolve_zone_ids src dst zs sid did) = sid.
Proof.
  revert sid did. induction zs as [|[zid z] zs IH]; intros sid did H; simpl; [reflexivity|].
  destruct (String.eqb_spec (zone_name z) src) as [E|_]; [exfalso; exact (H zid z (or_introl eq_refl) E)|].
  destruct (String.eqb (zone_name z) dst); apply IH; intros zid' z' I; apply (H zid' z'); right; exact I.
Qed.

Lemma resolve_zone_ids_dst (src dst : string) (zs : dict zone) (sid did : option string) :
  (forall zid z, In (zid, z) zs -> zone_name z <> dst) -> snd (resolve_zone_ids src dst zs sid did) = did.
Proof.
  revert sid did. induction zs as [|[zid z] zs IH]; intros sid did H; simpl; [reflexivity|].
  assert (H' : forall zid' z', In (zid', z') zs -> zone_name z' <> dst) by (intros; eapply H; right; eassumption).
  destruct (String.eqb (zone_name z) src); [apply IH, H'|].
  destruct (String.eqb_spec (zone_name z) dst) as [E|_]; [exfalso; exact (H zid z (or_introl eq_refl) E)|].
  apply IH, H'.
Qed.

(** C10 (corrected).  Every forwarding of the emitted document is enabled.
    A zone-pair forwarding whose source or destination zone matches no zone
    name gets the empty string as that zone id.  When the pair has no
    policy-map, or its policy-map names no filter policy, the forwarding is
    bound to the first policy named [Default Deny All], and gets the empty
    string only when no such policy exists. *)
Theorem zone_forwarding_fields (lines : list string) (b : bool) (nm : string) (s : session) (d : document) :
  convert lines b nm = Some (s, d) ->
  Forall (fun kv => fw_enabled (snd kv) = true) (doc_forwardings d)
  /\ (forall t fid zp,
        let f := pair_forwarding t fid zp in
        fw_enabled f = true
        /\ ((forall zid z, In (zid, z) (zones t) -> zone_name z <> zp_source_zone zp) -> src_zone_id f = "")
        /\ ((forall zid z, In (zid, z) (zones t) -> zone_name z <> zp_destination_zone zp) -> dst_zone_id f = "")
        /\ ((forall pm, zp_policy_map zp = Some pm -> pm <> "" -> find_policy_by_name pm (filter_policies t) = None) ->
            filter_policy_id f = default "" (find_policy_by_name "Default Deny All" (filter_policies t)))).
Proof.
  intros E. destruct (convert_inv _ _ _ _ _ E) as (-> & H & _). split.
  - eapply Forall_impl; [exact H|]. intros kv [H1 _]. exact H1.
  - intros t fid zp. unfold pair_forwarding.
    pose proof (resolve_zone_ids_src (zp_source_zone zp) (zp_destination_zone zp) (zones t) None None) as Hs.
    pose proof (resolve_zone_ids_dst (zp_source_zone zp) (zp_destination_zone zp) (zones t) None None) as Hd.
    destruct (resolve_zone_ids _ _ _ _ _) as [sid did]. simpl in Hs, Hd |- *.
    split; [reflexivity|]. split; [intros Z; rewrite (Hs Z); reflexivity|].
    split; [intros Z; rewrite (Hd Z); reflexivity|].
    intros P. destruct (zp_policy_map zp) as [pm|]; [|reflexivity].
    destruct (String.eqb_spec pm "") as [_|Ne]; [reflexivity|].
    rewrite (P pm eq_refl Ne). reflexivity.
Qed.

Lemma zone_forwarding_fields_witness :
  match convert cfg_unknown_policy_map false "EXT-Internet" with
  | Some (s, d) =>
      Forall (fun kv => fw_enabled (snd kv) = true) (doc_forwardings d)
      /\ (forall t fid zp,
            let f := pair_forwarding t fid zp in
            fw_enabled f = true
            /\ ((forall zid z, In (zid, z) (zones t) -> zone_name z <> zp_source_zone zp) -> src_zone_id f = "")
            /\ ((forall zid z, In (zid, z) (zones t) -> zone_name z <> zp_destination_zone zp) -> dst_zone_id f = "")
            /\ ((forall pm, zp_policy_map zp = Some pm -> pm <> "" -> find_policy_by_name pm (filter_policies t) = None) ->
                filter_policy_id f = default "" (find_policy_by_name "Default Deny All" (filter_policies t))))
  | None => False
  end.
Proof.
  destruct (convert cfg_unknown_policy_map false "EXT-Internet") as [[s d]|] eqn:E.
  - exact (zone_forwarding_fields cfg_unknown_policy_map false "EXT-Internet" s d E).
  - vm_compute in E. discriminate E.
Defined.

Lemma sort_filter_policies_fold (fps : dict filter_policy) :
  sort_filter_policies fps =
  fold_left sort_step fps (match first_allow_all fps with Some (pid, p) => [(pid, p)] | None => [] end).
Proof. reflexivity. Qed.

Lemma sort_fold_mem (fps acc : dict filter_policy) (k : string) :
  dict_mem k acc = true -> dict_mem k (fold_left sort_step fps acc) = true.
Proof.
  revert acc. induction fps as [|kv fps IH]; intros acc H; simpl; [exact H|]. apply IH.
  unfold sort_step. destruct (negb _); [apply dict_mem_set_old|]; exact H.
Qed.

Lemma sort_fold_in (fps acc : dict filter_policy) (k : string) (p : filter_policy) :
  In (k, p) fps -> is_allow_all_name (fp_name p) = false -> dict_mem k (fold_left sort_step fps acc) = true.
Proof.
  revert acc. induction fps as [|kv fps IH]; intros acc I A; simpl; [destruct I|].
  destruct I as [->|I]; [|apply IH; assumption].
  apply sort_fold_mem. unfold sort_step. simpl. rewrite A. apply dict_mem_set_new.
Qed.

Lemma dict_mem_in {V} (k : string) (d : dict V) : dict_mem k d = true -> exists v, In (k, v) d.
Proof.
  unfold dict_mem. induction d as [|[k' v'] d IH]; simpl; [discriminate|].
  destruct (String.eqb_spec k k') as [<-|_]; [intros _; exists v'; left; reflexivity|].
  intros H. destruct (IH H) as [v I]. exists v. right. exact I.
Qed.

Lemma first_allow_all_unique (fps : dict filter_policy) (k : string) (p : filter_policy) :
  (count_allow fps <= 1)%nat -> In (k, p) fps -> is_allow_all_name (fp_name p) = true ->
  first_allow_all fps = Some (k, p).
Proof.
  unfold count_allow. induction fps as [|[k' p'] fps IH]; simpl; intros C I A; [destruct I|].
  destruct I as [[= <- <-]|I]; [rewrite A; reflexivity|].
  destruct (is_allow_all_name (fp_name p')) eqn:A'.
  - exfalso. assert (In (k, p) (List.filter (fun kv => is_allow_all_name (fp_name (snd kv))) fps))
      by (apply filter_In; split; assumption).
    destruct (List.filter _ fps); [destruct H | simpl in C; lia].
  - apply IH; assumption.
Qed.

Lemma sort_mem (fps : dict filter_policy) (k : string) :
  (count_allow fps <= 1)%nat -> dict_mem k fps = true -> dict_mem k (sort_filter_policies fps) = true.
Proof.
  intros C M. destruct (dict_mem_in _ _ M) as [p I]. rewrite sort_filter_policies_fold.
  destruct (is_allow_all_name (fp_name p)) eqn:A.
  - rewrite (first_allow_all_unique fps k p C I A). apply sort_fold_mem.
    unfold dict_mem. simpl. rewrite String.eqb_refl. reflexivity.
  - eapply sort_fold_in; eassumption.
Qed.

Lemma first_allow_all_head (k : string) (p : filter_policy) (fps : dict filter_policy) :
  is_allow_all_name (fp_name p) = true -> first_allow_all ((k, p) :: fps) = Some (k, p).
Proof. intros A. simpl. rewrite A. reflexivity. Qed.

Lemma sort_nonempty (fps : dict filter_policy) : fps <> [] -> sort_filter_policies fps <> [].
Proof.
  intros Ne. destruct fps as [|[k p] fps]; [congruence|].
  assert (M : dict_mem k (sort_filter_policies ((k, p) :: fps)) = true).
  { rewrite sort_filter_policies_fold. destruct (is_allow_all_name (fp_name p)) eqn:A.
    - rewrite first_allow_all_head by exact A. apply sort_fold_mem.
      unfold dict_mem. simpl. rewrite String.eqb_refl. reflexivity.
    - apply (sort_fold_in _ _ k p); [left; reflexivity | exact A]. }
  intros E. rewrite E in M. discriminate.
Qed.

(** C4 (corrected).  For every input the emitted filter-policy map is not
    empty, so the validator never reports [No filter policies found].  When
    at most one policy is named as an allow-all policy, every forwarding's
    [filter_policy_id] is empty or a key of the emitted map, and the only
    errors the validator can report are [No zones found] and
    [No zone forwardings found]. *)
Theorem validator_errors_bounded (lines : list string) (b : bool) (nm : string) (s : session) (d : document) :
  convert lines b nm = Some (s, d) ->
  doc_filter_policies d <> []
  /\ ((count_allow (filter_policies s) <= 1)%nat ->
      Forall (fun kv => filter_policy_id (snd kv) = "" \/ dict_mem (filter_policy_id (snd kv)) (doc_filter_policies d) = true)
        (doc_forwardings d)
      /\ incl (validate_against_dtd d) ["No zones found"; "No zone forwardings found"]).
Proof.
  intros E. destruct (convert_inv _ _ _ _ _ E) as (-> & H & N). simpl.
  split; [apply sort_nonempty, N|]. intros C.
  assert (R : Forall (fun kv => filter_policy_id (snd kv) = ""
                 \/ dict_mem (filter_policy_id (snd kv)) (sort_filter_policies (filter_policies s)) = true)
                (zone_forwardings s)).
  { eapply Forall_impl; [exact H|]. intros kv [_ [H1|H1]]; [left; exact H1 | right; apply sort_mem; assumption]. }
  split; [exact R|].
  unfold validate_against_dtd. simpl.
  destruct (List.length (sort_filter_policies (filter_policies s))) eqn:L.
  { exfalso. apply (sort_nonempty (filter_policies s) N). destruct (sort_filter_policies _); [reflexivity | discriminate L]. }
  assert (F : flat_map (fun kv =>
       if negb (String.eqb (filter_policy_id (snd kv)) "")
          && negb (dict_mem (filter_policy_id (snd kv)) (sort_filter_policies (filter_policies s)))
       then ["Forwarding " +:+ fst kv +:+ " references invalid filter_policy_id: " +:+ filter_policy_id (snd kv)]
       else []) (zone_forwardings s) = []).
  { induction R as [|kv fws Hkv R IH]; [reflexivity|]. simpl. rewrite IH.
    destruct Hkv as [-> | ->]; [reflexivity|]. rewrite andb_false_r. reflexivity. }
  rewrite F, app_nil_r. simpl.
  intros x I. destruct (Nat.eqb (List.length (zones s)) 0), (Nat.eqb (List.length (zone_forwardings s)) 0);
    simpl in I |- *; tauto.
Qed.

Lemma validator_errors_bounded_witness :
  match convert cfg_one_pair false "EXT-Internet" with
  | Some (s, d) =>
      doc_filter_policies d <> []
      /\ (count_allow (filter_policies s) <= 1)%nat
      /\ Forall (fun kv => filter_policy_id (snd kv) = "" \/ dict_mem (filter_policy_id (snd kv)) (doc_filter_policies d) = true)
           (doc_forwardings d)
      /\ incl (validate_against_dtd d) ["No zones found"; "No zone forwardings found"]
  | None => False
  end.
Proof.
  assert (C : match convert cfg_one_pair false "EXT-Internet" with
              | Some (s, _) => (count_allow (filter_policies s) <= 1)%nat
              | None => False end) by (vm_compute; lia).
  destruct (convert cfg_one_pair false "EXT-Internet") as [[s d]|] eqn:E; [|destruct C].
  destruct (validator_errors_bounded cfg_one_pair false "EXT-Internet" s d E) as [N R].
  split; [exact N|]. split; [exact C|]. exact (R C).
Defined.

Lemma issued_keys_spec (n : N) (ks : list string) : issued_keys n ks = true -> Forall (issued_before n) ks.
Proof.
  unfold issued_keys. intros H. apply List.Forall_forall. intros k I.
  rewrite forallb_forall in H. specialize (H k I). apply existsb_exists in H as (i & Ii & E).
  apply in_seq in Ii. apply String.eqb_eq in E. exists (N.of_nat i). split; [lia | exact E].
Qed.

Lemma issued_before_succ (n : N) (k : string) : issued_before n k -> issued_before (N.succ n) k.
Proof. intros (i & L & ->). exists i. split; [lia | reflexivity]. Qed.

Lemma issued_before_new (n : N) : issued_before (N.succ n) (uuid n).
Proof. exists n. split; [lia | reflexivity]. Qed.

Lemma issued_before_fresh (n : N) (ks : list string) : Forall (issued_before n) ks -> ~ In (uuid n) ks.
Proof.
  intros H I. rewrite List.Forall_forall in H. destruct (H _ I) as (i & L & E).
  apply uuid_inj in E. lia.
Qed.

Lemma dict_set_fresh {V} (k : string) (v : V) (d : dict V) :
  ~ In k (dict_keys d) -> dict_set k v d = d ++ [(k, v)].
Proof.
  induction d as [|[k' v'] d IH]; intros N; simpl; [reflexivity|].
  destruct (String.eqb_spec k k') as [->|_]; [exfalso; apply N; left; reflexivity|].
  rewrite IH; [reflexivity|]. intros I. apply N. right. exact I.
Qed.

Lemma zone_forwardings_go_length (zps : list (string * zone_pair)) (s : session) :
  Forall (issued_before (next_id s)) (dict_keys (zone_forwardings s)) ->
  List.length (zone_forwardings (zone_forwardings_go zps s)) = (List.length zps + List.length (zone_forwardings s))%nat.
Proof.
  revert s. induction zps as [|[pn zp] zps IH]; intros s H; simpl; [reflexivity|].
  rewrite IH; simpl.
  - rewrite dict_set_fresh by (apply issued_before_fresh, H). rewrite length_app. simpl. lia.
  - rewrite dict_set_fresh by (apply issued_before_fresh, H).
    unfold dict_keys. rewrite map_app. apply Forall_app. split.
    + eapply Forall_impl; [exact H|]. apply issued_before_succ.
    + constructor; [apply issued_before_new | constructor].
Qed.

Lemma build_passes_defaults (s4 : session) :
  zone_forwardings s4 = [] -> filter_policies s4 = [] ->
  acls (build_passes s4) = [] -> policy_maps (build_passes s4) = [] ->
  exists n, filter_policies (build_passes s4) =
              [(uuid n, default_allow_policy (uuid n)); (uuid (N.succ n), default_deny_policy (uuid (N.succ n)))]
    /\ List.length (zone_forwardings (build_passes s4)) = List.length (zone_pairs (build_passes s4)).
Proof.
  intros W4 P4. unfold build_passes.
  set (t := parse_zone_pairs s4). set (u := create_identities t). set (v := create_filter_policies u).
  pose proof (create_identities_frame t) as Fu. fold u in Fu.
  destruct (core_fields _ _ (id_frame_core _ _ Fu)) as (_ & _ & Wu & Au & Mu & _).
  pose proof (id_frame_policies _ _ Fu) as Pu.
  destruct (create_filter_policies_core u) as (Cv & _ & _). fold v in Cv.
  destruct (core_fields _ _ Cv) as (_ & _ & Wv & Av & Mv & _).
  unfold create_zone_forwardings.
  destruct (fw_frame_fields _ _ (zone_forwardings_go_frame (zone_pairs v) v)) as (_ & _ & Pw & Aw & Mw & Zw & _).
  rewrite Aw, Av, Mw, Mv, Pw, Zw. intros Ha Hm.
  assert (Wv0 : zone_forwardings v = []) by (rewrite Wv, Wu; exact W4).
  exists (next_id u). split.
  - assert (Pu0 : filter_policies u = []) by (rewrite Pu; exact P4).
    unfold v, create_filter_policies. rewrite Ha. cbn [acl_policies_go]. rewrite Hm. cbn [policy_map_policies_go].
    clearbody u. unfold generate_id, add_policy, set_policies, set_next_id. cbn -[uuid]. rewrite Pu0. cbn [filter_policies dict_set].
    assert (Ne : String.eqb (uuid (N.succ (next_id u))) (uuid (next_id u)) = false)
      by (apply String.eqb_neq; intros E; apply uuid_inj in E; lia).
    rewrite Ne. reflexivity.
  - rewrite zone_forwardings_go_length by (rewrite Wv0; constructor). rewrite Wv0. simpl. lia.
Qed.

Lemma sort_default_policies (n : N) :
  sort_filter_policies [(uuid n, default_allow_policy (uuid n)); (uuid (N.succ n), default_deny_policy (uuid (N.succ n)))]
  = [(uuid n, default_allow_policy (uuid n)); (uuid (N.succ n), default_deny_policy (uuid (N.succ n)))].
Proof.
  assert (Ne : String.eqb (uuid (N.succ n)) (uuid n) = false)
    by (apply String.eqb_neq; intros E; apply uuid_inj in E; lia).
  unfold sort_filter_policies. cbn -[uuid]. rewrite Ne. reflexivity.
Qed.

(** C6 (corrected).  With [add_internet_zone] off, a conversion whose
    result has no ACL and no policy-map emits exactly the two policies
    [Default Allow All] (one allow rule, priority 10) and [Default Deny All]
    (one deny rule, priority 20), in that order, and one forwarding per zone
    pair: no forwarding only when there is no zone pair. *)
Theorem no_acl_no_policy_map_defaults (lines : list string) (nm : string) (s : session) (d : document) :
  convert lines false nm = Some (s, d) -> acls s = [] -> policy_maps s = [] ->
  exists a b, a <> b
    /\ doc_filter_policies d = [(a, default_allow_policy a); (b, default_deny_policy b)]
    /\ List.length (doc_forwardings d) = List.length (zone_pairs s).
Proof.
  intros E Ha Hm. destruct lines as [|l ls].
  - vm_compute in E. injection E as <- <-. exists "uuid-0", "uuid-1". vm_compute.
    split; [discriminate|]. split; reflexivity.
  - unfold convert in E. destruct (parse_config (init_session (l :: ls) false nm)) as [s1|] eqn:E1; [|discriminate].
    destruct (parse_config_inv _ _ E1 (List.Forall_nil _)) as (_ & _ & L1).
    unfold generate_cradlepoint_config in E. rewrite L1 in E. simpl in E. injection E as <- <-.
    destruct (parse_config_shape _ _ E1) as (s4 & F & ->). simpl.
    destruct (parse_frame_fields _ _ F) as (_ & _ & _ & W4 & P4).
    destruct (build_passes_defaults s4 W4 P4 Ha Hm) as (n & Pn & Ln).
    exists (uuid n), (uuid (N.succ n)). split; [intros Eq; apply uuid_inj in Eq; lia|].
    simpl. rewrite Pn, sort_default_policies. split; [reflexivity | exact Ln].
Qed.

Lemma no_acl_no_policy_map_defaults_witness :
  match convert cfg_one_pair false "EXT-Internet" with
  | Some (s, d) =>
      acls s = [] /\ policy_maps s = []
      /\ exists a b, a <> b
           /\ doc_filter_policies d = [(a, default_allow_policy a); (b, default_deny_policy b)]
           /\ List.length (doc_forwardings d) = List.length (zone_pairs s)
  | None => False
  end.
Proof.
  assert (C : match convert cfg_one_pair false "EXT-Internet" with
              | Some (s, _) => acls s = [] /\ policy_maps s = []
              | None => False end) by (vm_compute; split; reflexivity).
  destruct (convert cfg_one_pair false "EXT-Internet") as [[s d]|] eqn:E; [|destruct C].
  destruct C as [Ha Hm]. split; [exact Ha|]. split; [exact Hm|].
  exact (no_acl_no_policy_map_defaults cfg_one_pair "EXT-Internet" s d E Ha Hm).
Defined.

Lemma internet_forwardings_go_spec (inet allow : string) (zs : list (string * zone)) (t : session) :
  Forall (issued_before (next_id t)) (dict_keys (zone_forwardings t)) ->
  exists new, zone_forwardings (internet_forwardings_go inet allow zs t) = zone_forwardings t ++ new
    /\ map fw_summary new
       = map (fun kv => (fst kv, inet, true, allow)) (List.filter (fun kv => negb (String.eqb (fst kv) inet)) zs).
Proof.
  revert t. induction zs as [|[zid z] zs IH]; intros t H; simpl.
  - exists []. split; [rewrite app_nil_r; reflexivity | reflexivity].
  - destruct (negb (String.eqb zid inet)).
    + set (t' := add_forwarding (uuid (next_id t)) (mk_fw (uuid (next_id t)) zid inet true allow)
                   (set_next_id t (N.succ (next_id t)))).
      assert (Wt : zone_forwardings t' = zone_forwardings t ++ [(uuid (next_id t), mk_fw (uuid (next_id t)) zid inet true allow)])
        by (apply dict_set_fresh, issued_before_fresh, H).
      destruct (IH t') as (new & E1 & E2).
      { rewrite Wt. unfold dict_keys. rewrite map_app. apply Forall_app. split.
        - eapply Forall_impl; [exact H|]. apply issued_before_succ.
        - constructor; [apply issued_before_new | constructor]. }
      exists ((uuid (next_id t), mk_fw (uuid (next_id t)) zid inet true allow) :: new).
      split; [rewrite E1, Wt, <- app_assoc; reflexivity|]. simpl. rewrite E2. reflexivity.
    + apply IH, H.
Qed.

Lemma filter_other_keys (inet : string) (zs : list (string * zone)) :
  ~ In inet (dict_keys zs) -> List.filter (fun kv => negb (String.eqb (fst kv) inet)) zs = zs.
Proof.
  induction zs as [|[k z] zs IH]; intros N; simpl; [reflexivity|].
  destruct (String.eqb_spec k inet) as [->|_]; [exfalso; apply N; left; reflexivity|].
  simpl. rewrite IH; [reflexivity|]. intros I. apply N. right. exact I.
Qed.

Lemma internet_forwardings_go_fields (inet allow : string) (zs : list (string * zone)) (t : session) :
  zones (internet_forwardings_go inet allow zs t) = zones t
  /\ filter_policies (internet_forwardings_go inet allow zs t) = filter_policies t.
Proof.
  destruct (fw_frame_fields _ _ (internet_forwardings_go_frame inet allow zs t)) as (_ & Z & P & _). auto.
Qed.

(** C7 (confirmed).  When every key of the zones, forwardings and policies
    was handed out by [_generate_id] before (as the converter's own keys
    are), the internet-zone pass appends the new zone, appends one
    forwarding per pre-existing zone, from that zone to the new zone,
    enabled, and none from the new zone to itself, and binds them all to
    one policy: the first [Default Allow All] if there is one, otherwise a
    new [ALLOW ALL] policy with empty rules and default action [allow]. *)
Theorem internet_zone_forwardings (s : session) :
  issued_keys (next_id s)
    (dict_keys (zones s) ++ dict_keys (zone_forwardings s) ++ dict_keys (filter_policies s)) = true ->
  exists inet_id allow_id new,
    ~ In inet_id (dict_keys (zones s))
    /\ zones (create_internet_zone s)
       = zones s ++ [(inet_id, mk_zone inet_id (internet_zone_name s) (TriggerList [wan_trigger]))]
    /\ zone_forwardings (create_internet_zone s) = zone_forwardings s ++ new
    /\ map fw_summary new = map (fun kv => (fst kv, inet_id, true, allow_id)) (zones s)
    /\ Forall (fun kv => src_zone_id (snd kv) <> inet_id) new
    /\ ((find_policy_by_name "Default Allow All" (filter_policies s) = Some allow_id
         /\ filter_policies (create_internet_zone s) = filter_policies s)
        \/ (find_policy_by_name "Default Allow All" (filter_policies s) = None
            /\ filter_policies (create_internet_zone s)
               = filter_policies s ++ [(allow_id, mk_fp allow_id "ALLOW ALL" "allow" RulesList)])).
Proof.
  intros H. apply issued_keys_spec in H.
  apply Forall_app in H as [Hz H]. apply Forall_app in H as [Hw Hp].
  set (n := next_id s) in *.
  pose proof (issued_before_fresh _ _ Hz) as Nz.
  set (z := mk_zone (uuid n) (internet_zone_name s) (TriggerList [wan_trigger])).
  set (s2 := set_zones (set_next_id s (N.succ n)) (dict_set (uuid n) z (zones s))).
  assert (Z2 : zones s2 = zones s ++ [(uuid n, z)]) by (apply dict_set_fresh, Nz).
  assert (Hw2 : Forall (issued_before (next_id s2)) (dict_keys (zone_forwardings s2)))
    by (eapply Forall_impl; [exact Hw | apply issued_before_succ]).
  assert (Fz : List.filter (fun kv => negb (String.eqb (fst kv) (uuid n))) (zones s2) = zones s).
  { rewrite Z2, List.filter_app, filter_other_keys by exact Nz. simpl. rewrite String.eqb_refl. apply app_nil_r. }
  assert (Src : forall allow new, map fw_summary new = map (fun kv => (fst kv, uuid n, true, allow)) (zones s) ->
                  Forall (fun kv => src_zone_id (snd kv) <> uuid n) new).
  { intros allow new E. apply List.Forall_forall. intros [fid f] I Eq.
    apply (in_map fw_summary) in I. rewrite E in I. apply in_map_iff in I as ([zid zz] & Ez & Iz).
    unfold fw_summary in Ez. simpl in Ez, Eq. injection Ez as Ez1 _ _ _. apply Nz.
    apply (in_map fst) in Iz. simpl in Iz. rewrite <- Eq, <- Ez1. exact Iz. }
  assert (Go : forall allow t, zones t = zones s2 -> zone_forwardings t = zone_forwardings s2 ->
                 (next_id s2 <= next_id t)%N ->
                 exists new, zone_forwardings (internet_forwardings_go (uuid n) allow (zones t) t)
                             = zone_forwardings s ++ new
                   /\ map fw_summary new = map (fun kv => (fst kv, uuid n, true, allow)) (zones s)).
  { intros allow t Zt Wt Lt. destruct (internet_forwardings_go_spec (uuid n) allow (zones t) t) as (new & E1 & E2).
    - rewrite Wt. eapply Forall_impl; [exact Hw2|]. intros k (i & Li & ->). exists i. split; [lia | reflexivity].
    - exists new. rewrite E1, Wt, E2, Zt, Fz. split; reflexivity. }
  assert (Ec : create_internet_zone s =
    let '(allow_id, s3) :=
      match find_policy_by_name "Default Allow All" (filter_policies s) with
      | Some pid => (pid, s2)
      | None => (uuid (next_id s2),
                 add_policy (uuid (next_id s2)) (mk_fp (uuid (next_id s2)) "ALLOW ALL" "allow" RulesList)
                   (set_next_id s2 (N.succ (next_id s2))))
      end in
    internet_forwardings_go (uuid n) allow_id (zones s3) s3) by reflexivity.
  rewrite Ec. clear Ec.
  destruct (find_policy_by_name "Default Allow All" (filter_policies s)) as [pid|] eqn:F.
  - 
    destruct (Go pid s2 eq_refl eq_refl (N.le_refl _)) as (new & E1 & E2).
    exists (uuid n), pid, new. destruct (internet_forwardings_go_fields (uuid n) pid (zones s2) s2) as [Zg Pg].
    split; [exact Nz|]. split; [rewrite Zg; exact Z2|]. split; [exact E1|]. split; [exact E2|].
    split; [exact (Src _ _ E2)|]. left. split; [reflexivity | exact Pg].
  - set (pid := uuid (next_id s2)).
    set (s3 := add_policy pid (mk_fp pid "ALLOW ALL" "allow" RulesList) (set_next_id s2 (N.succ (next_id s2)))).
    destruct (Go pid s3 eq_refl eq_refl ltac:(simpl; lia)) as (new & E1 & E2).
    exists (uuid n), pid, new. destruct (internet_forwardings_go_fields (uuid n) pid (zones s3) s3) as [Zg Pg].
    split; [exact Nz|]. split; [rewrite Zg; exact Z2|]. split; [exact E1|]. split; [exact E2|].
    split; [exact (Src _ _ E2)|]. right. split; [reflexivity|]. rewrite Pg.
    apply dict_set_fresh, issued_before_fresh. eapply Forall_impl; [exact Hp | apply issued_before_succ].
Qed.

Lemma internet_zone_forwardings_witness :
  match convert cfg_one_pair false "EXT-Internet" with
  | Some (s, _) =>
      issued_keys (next_id s)
        (dict_keys (zones s) ++ dict_keys (zone_forwardings s) ++ dict_keys (filter_policies s)) = true
      /\ exists inet_id allow_id new,
        ~ In inet_id (dict_keys (zones s))
        /\ zones (create_internet_zone s)
           = zones s ++ [(inet_id, mk_zone inet_id (internet_zone_name s) (TriggerList [wan_trigger]))]
        /\ zone_forwardings (create_internet_zone s) = zone_forwardings s ++ new
        /\ map fw_summary new = map (fun kv => (fst kv, inet_id, true, allow_id)) (zones s)
        /\ Forall (fun kv => src_zone_id (snd kv) <> inet_id) new
        /\ ((find_policy_by_name "Default Allow All" (filter_policies s) = Some allow_id
             /\ filter_policies (create_internet_zone s) = filter_policies s)
            \/ (find_policy_by_name "Default Allow All" (filter_policies s) = None
                /\ filter_policies (create_internet_zone s)
                   = filter_policies s ++ [(allow_id, mk_fp allow_id "ALLOW ALL" "allow" RulesList)]))
  | None => False
  end.
Proof.
  assert (C : match convert cfg_one_pair false "EXT-Internet" with
              | Some (s, _) =>
                  issued_keys (next_id s)
                    (dict_keys (zones s) ++ dict_keys (zone_forwardings s) ++ dict_keys (filter_policies s)) = true
              | None => False end) by (vm_compute; reflexivity).
  destruct (convert cfg_one_pair false "EXT-Internet") as [[s d]|] eqn:E; [|destruct C].
  split; [exact C | exact (internet_zone_forwardings s C)].
Defined.

(* ================================================================== *)
(** * Further properties of the converter *)

Lemma find_ip_identity_app_new (name : string) (l : list ip_identity) (i : ip_identity) :
  find_ip_identity name l = None -> ipi_name i = name -> find_ip_identity name (l ++ [i]) = Some (ipi_id i).
Proof.
  intros H E. induction l as [|j l IH]; simpl in *.
  - rewrite E, String.eqb_refl. reflexivity.
  - destruct (String.eqb (ipi_name j) name); [discriminate|]. auto.
Qed.

Lemma find_port_identity_app_new (name : string) (l : list port_identity) (i : port_identity) :
  find_port_identity name l = None -> pti_name i = name -> find_port_identity name (l ++ [i]) = Some (pti_id i).
Proof.
  intros H E. induction l as [|j l IH]; simpl in *.
  - rewrite E, String.eqb_refl. reflexivity.
  - destruct (String.eqb (pti_name j) name); [discriminate|]. auto.
Qed.

(** A second request for the same address returns the same identity and
    changes nothing; a request fails exactly on an invalid address; a new
    identity is created only when none of that name exists, and it is
    appended with the next id of the generator. *)
Theorem get_or_create_ip_identity_idempotent (s : session) (ip : string) :
  let '(o, s1) := get_or_create_ip_identity s ip in
  get_or_create_ip_identity s1 ip = (o, s1) /\
  (o = None <-> Ip.is_valid_ip_address ip = false) /\
  (s1 = s \/
   (find_ip_identity (ip_identity_name ip) (identities_ip s) = None /\
    o = Some (uuid (next_id s)) /\
    s1 = set_identities_ip (set_next_id s (N.succ (next_id s)))
           (identities_ip s ++ [mk_ipi (uuid (next_id s)) (ip_identity_name ip) "" [ip]]))).
Proof.
  unfold get_or_create_ip_identity.
  destruct (Ip.is_valid_ip_address ip) eqn:V; simpl.
  - destruct (find_ip_identity (ip_identity_name ip) (identities_ip s)) as [iid|] eqn:F; simpl.
    + rewrite F. split; [reflexivity|]. split; [split; discriminate|]. left. reflexivity.
    + rewrite (find_ip_identity_app_new _ _ (mk_ipi (uuid (next_id s)) (ip_identity_name ip) "" [ip]) F eq_refl). simpl.
      split; [reflexivity|]. split; [split; discriminate|]. right. split; [reflexivity|]. split; reflexivity.
  - split; [reflexivity|]. split; [tauto|]. left. reflexivity.
Qed.

(** A second request for the same port returns the same result; a request
    fails exactly when there is no identity, no service group entry and no
    integer port; a new identity covers the single port. *)
Theorem get_or_create_port_identity_idempotent (s : session) (p : string) :
  let '(o, s1) := get_or_create_port_identity s p in
  get_or_create_port_identity s1 p = (o, s1) /\
  (o = None <-> find_port_identity ("PORT-" +:+ p) (identities_port s) = None
                /\ (is_service_group s p = false \/ dict_get p (object_group_to_identity s) = None)
                /\ Py.int p = None) /\
  (s1 = s \/ exists pid n, Py.int p = Some n /\ o = Some pid /\
     identities_port s1 = identities_port s ++ [mk_pti pid ("PORT-" +:+ p) [(n, n)]]).
Proof.
  unfold get_or_create_port_identity, is_service_group.
  destruct (find_port_identity ("PORT-" +:+ p) (identities_port s)) as [pid|] eqn:F.
  - rewrite F. split; [reflexivity|]. split; [split; [discriminate|intros [? _]; discriminate]|]. left. reflexivity.
  - destruct (dict_get p (object_groups s)) as [g|] eqn:G.
    + destruct (String.eqb (og_type g) "service") eqn:T.
      * destruct (dict_get p (object_group_to_identity s)) as [pid|] eqn:M.
        -- rewrite ?F, ?G, ?T, ?M. split; [reflexivity|].
           split; [split; [discriminate|intros [_ [[?|?] _]]; discriminate]|]. left. reflexivity.
        -- destruct (Py.int p) as [n|] eqn:I.
           ++ cbn. rewrite (find_port_identity_app_new _ _ (mk_pti (uuid (next_id s)) ("PORT-" +:+ p) [(n, n)]) F eq_refl).
              split; [reflexivity|]. split; [split; [discriminate|intros [_ [_ ?]]; discriminate]|].
              right. do 2 eexists. split; [reflexivity|]. split; reflexivity.
           ++ rewrite ?F, ?G, ?T, ?M, ?I. split; [reflexivity|]. split; [tauto|]. left. reflexivity.
      * destruct (Py.int p) as [n|] eqn:I.
        -- cbn. rewrite (find_port_identity_app_new _ _ (mk_pti (uuid (next_id s)) ("PORT-" +:+ p) [(n, n)]) F eq_refl).
           split; [reflexivity|]. split; [split; [discriminate|intros [_ [_ ?]]; discriminate]|].
           right. do 2 eexists. split; [reflexivity|]. split; reflexivity.
        -- rewrite ?F, ?G, ?T, ?I. split; [reflexivity|]. split; [tauto|]. left. reflexivity.
    + destruct (Py.int p) as [n|] eqn:I.
      * cbn. rewrite (find_port_identity_app_new _ _ (mk_pti (uuid (next_id s)) ("PORT-" +:+ p) [(n, n)]) F eq_refl).
        split; [reflexivity|]. split; [split; [discriminate|intros [_ [_ ?]]; discriminate]|].
        right. do 2 eexists. split; [reflexivity|]. split; reflexivity.
      * rewrite ?F, ?G, ?I. split; [reflexivity|]. split; [tauto|]. left. reflexivity.
Qed.

Lemma dict_get_set {V} (k k' : string) (v : V) (d : dict V) :
  dict_get k' (dict_set k v d) = if String.eqb k' k then Some v else dict_get k' d.
Proof.
  induction d as [|[k0 v0] d IH]; simpl.
  - reflexivity.
  - destruct (String.eqb k k0) eqn:E; simpl.
    + apply String.eqb_eq in E. subst k0. destruct (String.eqb k' k); reflexivity.
    + rewrite IH. destruct (String.eqb k' k) eqn:E1; [|reflexivity].
      apply String.eqb_eq in E1. subst k'. rewrite E. reflexivity.
Qed.

Lemma name_counts_spec (L P : list (string * frule)) (nc : dict (list string)) :
  (forall nm, default [] (dict_get nm nc) = map fst (List.filter (fun kv => String.eqb (fr_name (snd kv)) nm) P)) ->
  forall nm, default [] (dict_get nm (fold_left name_step L nc))
             = map fst (List.filter (fun kv => String.eqb (fr_name (snd kv)) nm) (P ++ L)).
Proof.
  revert P nc. induction L as [|kv L IH]; intros P nc H nm; simpl.
  - rewrite app_nil_r. apply H.
  - replace (P ++ kv :: L) with ((P ++ [kv]) ++ L) by (rewrite <- app_assoc; reflexivity).
    apply IH. intros nm'. unfold name_step. rewrite dict_get_set.
    rewrite List.filter_app, map_app. simpl.
    destruct (String.eqb nm' (fr_name (snd kv))) eqn:E.
    + apply String.eqb_eq in E. subst nm'. rewrite String.eqb_refl. simpl. rewrite H. reflexivity.
    + rewrite String.eqb_sym, E. simpl. rewrite app_nil_r. apply H.
Qed.

Lemma keyed_go_filter_length (g : frule -> bool) (k : nat) (l : list frule) :
  length (List.filter (fun kv => g (snd kv)) (keyed_go k l)) = length (List.filter g l).
Proof.
  revert k. induction l as [|x l IH]; intros k; simpl; [reflexivity|].
  destruct (g x); simpl; rewrite IH; reflexivity.
Qed.

Lemma keyed_go_nth (k : nat) (l : list frule) (j : nat) (r : frule) :
  nth_error l j = Some r -> nth_error (keyed_go k l) j = Some (Py.str_nat (k + j), r).
Proof.
  revert k j. induction l as [|x l IH]; intros k j H; [destruct j; discriminate|].
  destruct j as [|j]; simpl in *.
  - injection H as ->. rewrite Nat.add_0_r. reflexivity.
  - rewrite (IH (S k) j H). do 3 f_equal. lia.
Qed.

Lemma keyed_go_index (g : frule -> bool) (k : nat) (l : list frule) (j : nat) (r : frule) :
  nth_error l j = Some r -> g r = true ->
  index_of (Py.str_nat (k + j)) (map fst (List.filter (fun kv => g (snd kv)) (keyed_go k l)))
  = length (List.filter g (firstn j l)).
Proof.
  revert k j. induction l as [|x l IH]; intros k j H G; [destruct j; discriminate|].
  destruct j as [|j]; simpl in *.
  - injection H as ->. rewrite G. simpl. rewrite Nat.add_0_r, String.eqb_refl. reflexivity.
  - destruct (g x) eqn:Gx; simpl.
    + destruct (String.eqb (Py.str_nat (k + S j)) (Py.str_nat k)) eqn:E.
      * apply String.eqb_eq in E. unfold Py.str_nat in E. apply (inj pretty) in E. lia.
      * replace (k + S j)%nat with (S k + j)%nat by lia. rewrite (IH (S k) j H G). reflexivity.
    + replace (k + S j)%nat with (S k + j)%nat by lia. apply (IH (S k) j H G).
Qed.

(** A name shared by several rules is numbered 1, 2, ... in list order; the
    other names are kept, and so is the length. *)
Theorem handle_duplicate_rule_names_numbering (rules : list frule) :
  length (handle_duplicate_rule_names rules) = length rules /\
  forall i r, nth_error rules i = Some r ->
    nth_error (handle_duplicate_rule_names rules) i =
      Some (if (1 <? name_count (fr_name r) rules)%nat
            then rename (fr_name r +:+ "-" +:+ Py.str_nat (S (name_count (fr_name r) (firstn i rules)))) r
            else r).
Proof.
  unfold handle_duplicate_rule_names, keyed.
  change (fold_left _ (keyed_go 0 rules) []) with (fold_left name_step (keyed_go 0 rules) []).
  set (nc := fold_left name_step (keyed_go 0 rules) []).
  assert (NC : forall nm, default [] (dict_get nm nc)
               = map fst (List.filter (fun kv => String.eqb (fr_name (snd kv)) nm) (keyed_go 0 rules))).
  { intros nm. unfold nc. apply (name_counts_spec (keyed_go 0 rules) [] []). intros; reflexivity. }
  split.
  - rewrite length_map. transitivity (length (map snd (keyed_go 0 rules))); [symmetry; apply length_map|].
    rewrite keyed_go_snd. reflexivity.
  - intros i r H. rewrite nth_error_map, (keyed_go_nth 0 rules i r H). simpl. f_equal.
    rewrite NC, length_map.
    rewrite (keyed_go_filter_length (fun r0 => String.eqb (fr_name r0) (fr_name r))).
    fold (name_count (fr_name r) rules).
    destruct (1 <? name_count (fr_name r) rules)%nat; [|reflexivity].
    do 4 f_equal. f_equal.
    apply (keyed_go_index (fun r0 => String.eqb (fr_name r0) (fr_name r)) 0 rules i r H).
    apply String.eqb_refl.
Qed.

Lemma dict_keys_set {V} (k : string) (v : V) (d : dict V) :
  dict_keys (dict_set k v d) = if existsb (String.eqb k) (dict_keys d) then dict_keys d else dict_keys d ++ [k].
Proof.
  unfold dict_keys. induction d as [|[k' v'] d IH]; simpl; [reflexivity|].
  destruct (String.eqb k k') eqn:E; simpl; [reflexivity|].
  rewrite IH. destruct (existsb (String.eqb k) (map fst d)); reflexivity.
Qed.

Lemma group_rules_keys (rs : list frule) (g : dict (list frule)) :
  dict_keys (group_rules rs g) = dict_keys g ++ dedup_go (dict_keys g) (map group_key rs).
Proof.
  revert g. induction rs as [|r rs IH]; intros g; simpl; [rewrite app_nil_r; reflexivity|].
  rewrite IH, dict_keys_set.
  destruct (existsb (String.eqb (group_key r)) (dict_keys g)); [reflexivity|].
  rewrite <- app_assoc. reflexivity.
Qed.

Lemma group_rules_nonempty (rs : list frule) (g : dict (list frule)) :
  Forall (fun kv => snd kv <> []) g -> Forall (fun kv => snd kv <> []) (group_rules rs g).
Proof.
  revert g. induction rs as [|r rs IH]; intros g H; simpl; [exact H|].
  apply IH, Forall_dict_set; [|exact H]. simpl. destruct (default [] _); discriminate.
Qed.

Lemma flat_map_singletons {A B} (f : A -> list B) (P : A -> Prop) (l : list A) :
  (forall x, P x -> length (f x) = 1%nat) -> Forall P l -> length (flat_map f l) = length l.
Proof.
  intros F H. induction H as [|x l Hx _ IH]; simpl; [reflexivity|].
  rewrite length_app, IH, (F x Hx). reflexivity.
Qed.

(** Consolidation keeps one rule per distinct consolidation key. *)
Theorem consolidate_rules_one_per_key (rules : list frule) :
  length (consolidate_rules rules) = length (dedup (map group_key rules)).
Proof.
  unfold consolidate_rules.
  rewrite (proj1 (handle_duplicate_rule_names_numbering _)).
  match goal with |- context [length (flat_map ?f ?g)] =>
    rewrite (flat_map_singletons f (fun kv => snd kv <> []) g) end;
    [| intros [k [|r [|r' v]]] H; simpl in *; congruence
     | apply group_rules_nonempty; constructor].
  transitivity (length (dict_keys (group_rules rules []))); [symmetry; apply length_map|].
  rewrite group_rules_keys. reflexivity.
Qed.

Lemma group_rules_distinct (rs : list frule) (g : dict (list frule)) :
  List.NoDup (map group_key rs) -> (forall r, In r rs -> ~ In (group_key r) (dict_keys g)) ->
  group_rules rs g = g ++ map (fun r => (group_key r, [r])) rs.
Proof.
  revert g. induction rs as [|r rs IH]; intros g ND F; simpl; [rewrite app_nil_r; reflexivity|].
  inversion ND as [|? ? Nr ND']; subst.
  assert (G : dict_get (group_key r) g = None).
  { destruct (dict_get (group_key r) g) eqn:E; [|reflexivity]. exfalso.
    apply (F r (or_introl eq_refl)). clear -E. induction g as [|[k v] g IH]; simpl in *; [discriminate|].
    destruct (String.eqb_spec (group_key r) k) as [->|]; [left; reflexivity|right; auto]. }
  rewrite G. simpl. rewrite dict_set_fresh by (apply F; left; reflexivity).
  rewrite IH; [rewrite <- app_assoc; reflexivity|exact ND'|].
  intros r' I. unfold dict_keys. rewrite map_app. simpl. intros I'. apply in_app_or in I' as [I'|[E|[]]].
  - exact (F r' (or_intror I) I').
  - apply Nr. rewrite E. apply in_map. exact I.
Qed.

(** When no two rules share a key, consolidation only renames duplicates. *)
Theorem consolidate_rules_distinct_keys (rules : list frule) :
  List.NoDup (map group_key rules) -> consolidate_rules rules = handle_duplicate_rule_names rules.
Proof.
  intros ND. unfold consolidate_rules. rewrite group_rules_distinct by (auto || (intros; simpl; tauto)).
  f_equal. simpl. induction rules as [|r rs IH]; simpl; [reflexivity|]. f_equal.
  apply IH. inversion ND; assumption.
Qed.

Lemma consolidate_rules_distinct_keys_witness :
  List.NoDup (map group_key [sample_rule_dst "uuid-1"; sample_rule_dst "uuid-2"]) /\
  consolidate_rules [sample_rule_dst "uuid-1"; sample_rule_dst "uuid-2"]
  = handle_duplicate_rule_names [sample_rule_dst "uuid-1"; sample_rule_dst "uuid-2"].
Proof.
  assert (ND : List.NoDup (map group_key [sample_rule_dst "uuid-1"; sample_rule_dst "uuid-2"])).
  { vm_compute. constructor; [simpl; intros [H|[]]; discriminate|]. constructor; [simpl; tauto|constructor]. }
  split; [exact ND|]. apply (consolidate_rules_distinct_keys _ ND).
Defined.

Lemma dedup_union (f : frule -> list string) (rs : list frule) :
  List.NoDup (dedup (flat_map f rs)) /\
  (forall x, In x (dedup (flat_map f rs)) <-> exists r', In r' rs /\ In x (f r')).
Proof.
  destruct (dedup_spec (flat_map f rs)) as [ND I]. split; [exact ND|].
  intros x. rewrite I, in_flat_map. reflexivity.
Qed.

(** When the first rule has a destination (otherwise [_merge_rules] raises a
    [KeyError] on [base_rule['dst']]), merging takes action, name, priority and
    protocols from the first rule, and the duplicate-free union of the
    identity lists of all rules. *)
Theorem merge_rules_union (r : frule) (rs : list frule) :
  fr_dst r <> None ->
  exists m, merge_rules (r :: rs) = Some m /\ fr_dst m <> None /\
    fr_action m = fr_action r /\ fr_name m = fr_name r /\ fr_priority m = fr_priority r /\
    fr_protocols m = fr_protocols r /\
    (forall f, In f [(fun r0 => side_ips (Some (fr_src r0))); (fun r0 => side_ports (Some (fr_src r0)));
                     (fun r0 => side_ips (fr_dst r0)); (fun r0 => side_ports (fr_dst r0))] ->
       List.NoDup (f m) /\ forall x, In x (f m) <-> exists r', In r' (r :: rs) /\ In x (f r')).
Proof.
  intros _. eexists. split; [reflexivity|]. split; [discriminate|]. do 4 (split; [reflexivity|]).
  intros f [<-|[<-|[<-|[<-|[]]]]]; cbn -[dedup flat_map In]; apply dedup_union.
Qed.

Lemma merge_rules_union_witness :
  fr_dst (sample_rule_dst "uuid-1") <> None /\
  exists m, merge_rules [sample_rule_dst "uuid-1"; sample_rule_dst "uuid-2"] = Some m /\ fr_dst m <> None /\
    fr_action m = fr_action (sample_rule_dst "uuid-1") /\ fr_name m = fr_name (sample_rule_dst "uuid-1") /\
    fr_priority m = fr_priority (sample_rule_dst "uuid-1") /\
    fr_protocols m = fr_protocols (sample_rule_dst "uuid-1") /\
    (forall f, In f [(fun r0 => side_ips (Some (fr_src r0))); (fun r0 => side_ports (Some (fr_src r0)));
                     (fun r0 => side_ips (fr_dst r0)); (fun r0 => side_ports (fr_dst r0))] ->
       List.NoDup (f m) /\ forall x, In x (f m) <-> exists r', In r' [sample_rule_dst "uuid-1"; sample_rule_dst "uuid-2"] /\ In x (f r')).
Proof.
  assert (H : fr_dst (sample_rule_dst "uuid-1") <> None) by discriminate.
  split; [exact H|]. exact (merge_rules_union (sample_rule_dst "uuid-1") [sample_rule_dst "uuid-2"] H).
Defined.

Lemma sort_fold_app (L acc : dict filter_policy) :
  List.NoDup (dict_keys L) ->
  (forall kv, In kv L -> is_allow_all_name (fp_name (snd kv)) = false -> ~ In (fst kv) (dict_keys acc)) ->
  fold_left sort_step L acc = acc ++ List.filter (fun kv => negb (is_allow_all_name (fp_name (snd kv)))) L.
Proof.
  revert acc. induction L as [|[k p] L IH]; intros acc ND F; simpl; [rewrite app_nil_r; reflexivity|].
  unfold dict_keys in ND. simpl in ND. apply List.NoDup_cons_iff in ND as [Nk ND'].
  unfold sort_step at 2. simpl.
  destruct (is_allow_all_name (fp_name p)) eqn:A; simpl.
  - apply IH; [exact ND'|]. intros kv I. apply F. right. exact I.
  - rewrite dict_set_fresh by (apply (F (k, p)); [left; reflexivity|exact A]).
    rewrite IH; [rewrite <- app_assoc; reflexivity|exact ND'|].
    intros kv I Akv. unfold dict_keys. rewrite map_app. simpl. intros I'.
    apply in_app_or in I' as [I'|[E|[]]].
    + exact (F kv (or_intror I) Akv I').
    + apply Nk. rewrite E. apply in_map. exact I.
Qed.

Lemma first_allow_all_in (fps : dict filter_policy) (k : string) (p : filter_policy) :
  first_allow_all fps = Some (k, p) -> In (k, p) fps /\ is_allow_all_name (fp_name p) = true.
Proof.
  induction fps as [|[k' p'] fps IH]; simpl; [discriminate|].
  destruct (is_allow_all_name (fp_name p')) eqn:A.
  - intros [= <- <-]. split; [left; reflexivity|exact A].
  - intros H. destruct (IH H) as [I A']. split; [right; exact I|exact A'].
Qed.

Lemma nodup_keys_value {V} (l : dict V) (k : string) (a b : V) :
  List.NoDup (dict_keys l) -> In (k, a) l -> In (k, b) l -> a = b.
Proof.
  induction l as [|[k' v] l IH]; simpl; intros ND Ia Ib; [destruct Ia|].
  unfold dict_keys in ND. simpl in ND. apply List.NoDup_cons_iff in ND as [N ND'].
  destruct Ia as [Ea|Ia], Ib as [Eb|Ib].
  - injection Ea as _ ->. injection Eb as _ ->. reflexivity.
  - injection Ea as -> _. exfalso. apply N. change k with (fst (k, b)). apply in_map. exact Ib.
  - injection Eb as -> _. exfalso. apply N. change k with (fst (k, a)). apply in_map. exact Ia.
  - exact (IH ND' Ia Ib).
Qed.

(** Sorting puts the first allow-all policy first and keeps the others in
    order. *)
Theorem sort_filter_policies_order (fps : dict filter_policy) :
  List.NoDup (dict_keys fps) ->
  sort_filter_policies fps
  = opt_list (first_allow_all fps)
    ++ List.filter (fun kv => negb (is_allow_all_name (fp_name (snd kv)))) fps.
Proof.
  intros ND. rewrite sort_filter_policies_fold.
  destruct (first_allow_all fps) as [[k0 p0]|] eqn:F; apply sort_fold_app; try exact ND;
    [|intros; simpl; tauto].
  destruct (first_allow_all_in _ _ _ F) as [I0 A0].
  intros [k p] I A. simpl. intros [E|[]]. subst k0.
  rewrite (nodup_keys_value fps k p p0 ND I I0) in A. simpl in A. rewrite A0 in A. discriminate.
Qed.

Lemma sort_filter_policies_order_witness :
  List.NoDup (dict_keys [("a", mk_fp "a" "X" "deny" RulesList); ("b", mk_fp "b" "ALLOW ALL" "allow" RulesList)]) /\
  sort_filter_policies [("a", mk_fp "a" "X" "deny" RulesList); ("b", mk_fp "b" "ALLOW ALL" "allow" RulesList)]
  = [("b", mk_fp "b" "ALLOW ALL" "allow" RulesList); ("a", mk_fp "a" "X" "deny" RulesList)].
Proof.
  assert (ND : List.NoDup (dict_keys [("a", mk_fp "a" "X" "deny" RulesList); ("b", mk_fp "b" "ALLOW ALL" "allow" RulesList)])).
  { simpl. constructor; [simpl; intros [H|[]]; discriminate|]. constructor; [simpl; tauto|constructor]. }
  split; [exact ND|]. rewrite (sort_filter_policies_order _ ND). reflexivity.
Defined.

Lemma protocol_id_range (p : string) :
  In (default 6 (dict_get p [("tcp", 6); ("udp", 17); ("icmp", 1); ("ip", 0)]%string)) [6; 17; 1; 0].
Proof.
  simpl. destruct (String.eqb p "tcp"); [simpl; tauto|]. destruct (String.eqb p "udp"); [simpl; tauto|].
  destruct (String.eqb p "icmp"); [simpl; tauto|]. destruct (String.eqb p "ip"); simpl; tauto.
Qed.

Lemma parse_rule_shapes_head (rem : list string) (rule : acl_rule) :
  r_action (parse_rule_shapes rem rule) = r_action rule /\
  r_protocol_id (parse_rule_shapes rem rule) = r_protocol_id rule.
Proof.
  unfold parse_rule_shapes, port_spec, parse_source, parse_destination.
  repeat match goal with |- context [if ?b then _ else _] => destruct b end; split; reflexivity.
Qed.

Lemma split_permit (r : string) : nth 0 (Py.split ("permit " +:+ r)) "" = "permit".
Proof. reflexivity. Qed.

Lemma split_deny (r : string) : nth 0 (Py.split ("deny " +:+ r)) "" = "deny".
Proof. reflexivity. Qed.

(** The rule parser fails exactly on lines not starting with [permit ] or
    [deny ]; the action follows the first word and the protocol id is 6, 17,
    1 or 0. *)
Theorem parse_acl_rule_result (line : string) :
  match parse_acl_rule line with
  | None => Py.startswith (Py.strip line) "permit " = false /\ Py.startswith (Py.strip line) "deny " = false
  | Some r =>
      (r_action r = "allow" /\ Py.startswith (Py.strip line) "permit " = true
       \/ r_action r = "deny" /\ Py.startswith (Py.strip line) "deny " = true)
      /\ In (r_protocol_id r) [6; 17; 1; 0]
  end.
Proof.
  unfold parse_acl_rule. set (l := Py.strip line).
  destruct (String.eqb l "" || Py.startswith l "!") eqn:C.
  - apply orb_true_iff in C as [C|C].
    + apply String.eqb_eq in C. rewrite C. split; reflexivity.
    + unfold Py.startswith in *. destruct (String.prefix "permit " l) eqn:P.
      * apply prefix_app in P as [r ->]. discriminate.
      * split; [reflexivity|]. destruct (String.prefix "deny " l) eqn:D; [|reflexivity].
        apply prefix_app in D as [r ->]. discriminate.
  - destruct (Py.startswith l "permit ") eqn:P.
    + cbn -[dict_get Py.lower parse_rule_shapes Py.split protocol_and_rest Py.startswith].
      destruct (protocol_and_rest (Py.split l)) as [proto rem].
      rewrite (proj1 (parse_rule_shapes_head _ _)), (proj2 (parse_rule_shapes_head _ _)). simpl.
      split; [|apply protocol_id_range]. left. split; [|reflexivity].
      unfold Py.startswith in P. apply prefix_app in P as [r E]. rewrite E, split_permit. reflexivity.
    + destruct (Py.startswith l "deny ") eqn:D;
        cbn -[dict_get Py.lower parse_rule_shapes Py.split protocol_and_rest Py.startswith]; [|split; reflexivity].
      destruct (protocol_and_rest (Py.split l)) as [proto rem].
      rewrite (proj1 (parse_rule_shapes_head _ _)), (proj2 (parse_rule_shapes_head _ _)). simpl.
      split; [|apply protocol_id_range]. right. split; [|reflexivity].
      unfold Py.startswith in D. apply prefix_app in D as [r E]. rewrite E, split_deny. reflexivity.
Qed.

Lemma dropw_head (l y : list ascii) (c : ascii) : dropw l = c :: y -> Py.is_space c = false.
Proof.
  induction l as [|d l IH]; simpl; [discriminate|].
  destruct (Py.is_space d) eqn:E; [exact IH|]. intros [= <- _]. exact E.
Qed.

Lemma strip_list_head (l y : list ascii) (c : ascii) : strip_list l = c :: y -> Py.is_space c = false.
Proof.
  unfold strip_list. set (m := dropw l). intros H.
  destruct (dropw_split (rev m)) as [t Ht].
  assert (Hm : m = rev (dropw (rev m)) ++ rev t).
  { transitivity (rev (rev m)); [symmetry; apply rev_involutive|]. rewrite Ht at 1.
    rewrite rev_app_distr. reflexivity. }
  rewrite H in Hm. simpl in Hm. apply (dropw_head l (y ++ rev t)). exact Hm.
Qed.

Lemma strip_not_indented (l : string) : Py.startswith (Py.strip l) " " = false.
Proof.
  unfold Py.startswith. destruct (String.prefix " " (Py.strip l)) eqn:P; [|reflexivity].
  apply prefix_app in P as [r E]. pose proof (strip_list_spec l) as S. rewrite E in S.
  simpl in S. symmetry in S. apply strip_list_head in S. discriminate.
Qed.

Lemma strip_not_indented2 (l : string) : Py.startswith (Py.strip l) "  " = false.
Proof.
  unfold Py.startswith. destruct (String.prefix "  " (Py.strip l)) eqn:P; [|reflexivity].
  apply prefix_app in P as [r E]. pose proof (strip_not_indented l) as N. rewrite E in N. discriminate.
Qed.

Lemma Forall_dict_update {V} (P : string * V -> Prop) (k : string) (f : V -> V) (d : dict V) :
  (forall v, P (k, v) -> P (k, f v)) -> Forall P d -> Forall P (dict_update k f d).
Proof.
  intros F H. unfold dict_update. induction H as [|[k' v] d Hkv _ IH]; simpl; constructor; [|exact IH].
  destruct (String.eqb_spec k k') as [<-|]; simpl; [apply F|]; exact Hkv.
Qed.

(** The policy-map parser never records an action and never fails. *)
Theorem parse_policy_maps_no_actions (s : session) :
  Forall no_actions (policy_maps s) ->
  exists s', parse_policy_maps s = Some s' /\ Forall no_actions (policy_maps s').
Proof.
  unfold parse_policy_maps. generalize (config_lines s) as lines, (@None string) as cur. intros lines.
  revert s. induction lines as [|l ls IH]; intros s cur H; simpl; [exists s; split; [reflexivity|exact H]|].
  rewrite strip_not_indented2.
  destruct (Py.startswith (Py.strip l) "policy-map type inspect ").
  - apply IH. simpl. apply Forall_dict_set; [constructor|exact H].
  - destruct cur as [pname|]; [|apply IH; exact H].
    destruct (Py.startswith (Py.strip l) "class type inspect ").
    + apply IH. simpl. apply Forall_dict_update; [|exact H].
      intros v Hv. unfold no_actions in *. simpl in *. apply Forall_app. split; [exact Hv|].
      constructor; [reflexivity|constructor].
    + destruct (_ && _); apply IH; exact H.
Qed.

Lemma parse_policy_maps_no_actions_witness :
  Forall no_actions (policy_maps (init_session ["policy-map type inspect PM"; " class type inspect C"; "  drop"] false "")) /\
  exists s', parse_policy_maps (init_session ["policy-map type inspect PM"; " class type inspect C"; "  drop"] false "") = Some s'
             /\ Forall no_actions (policy_maps s').
Proof.
  assert (H : Forall no_actions (policy_maps (init_session ["policy-map type inspect PM"; " class type inspect C"; "  drop"] false ""))) by constructor.
  split; [exact H|]. exact (parse_policy_maps_no_actions _ H).
Defined.

Lemma zone_entries_app (i : N) (P Q : list string) :
  zone_entries i (P ++ Q) = zone_entries i P ++ zone_entries (i + N.of_nat (length P)) Q.
Proof.
  revert i. induction P as [|x P IH]; intros i; simpl.
  - rewrite N.add_0_r. reflexivity.
  - rewrite IH. do 3 f_equal. lia.
Qed.

Lemma zone_entries_keys (i : N) (P : list string) :
  Forall (fun k => exists j, (i <= j < i + N.of_nat (length P))%N /\ k = uuid j) (dict_keys (zone_entries i P)).
Proof.
  revert i. induction P as [|x P IH]; intros i; simpl; constructor.
  - exists i. split; [lia|reflexivity].
  - eapply Forall_impl; [apply IH|]. intros k [j [R E]]. exists j. split; [lia|exact E].
Qed.

(** The zones are the [zone security] lines in order, with ids issued from 0. *)
Theorem parse_zones_entries (lines : list string) (b : bool) (nm : string) :
  zones (parse_zones (init_session lines b nm)) = zone_entries 0 (zone_line_names lines).
Proof.
  unfold parse_zones. simpl (config_lines _).
  assert (G : forall L P s, zones s = zone_entries 0 P -> next_id s = N.of_nat (length P) ->
            zones (parse_zones_go L s) = zone_entries 0 (P ++ zone_line_names L)).
  { induction L as [|l L IH]; intros P s Z Nx; simpl; [rewrite app_nil_r; exact Z|].
    destruct (Py.startswith (Py.strip l) "zone security ") eqn:E; simpl.
    - replace (P ++ nth 1 (Py.split_sep (Py.strip l) "zone security ") "" :: zone_line_names L)
        with ((P ++ [nth 1 (Py.split_sep (Py.strip l) "zone security ") ""]) ++ zone_line_names L)
        by (rewrite <- app_assoc; reflexivity).
      apply IH.
      + simpl. rewrite Z, Nx, dict_set_fresh, zone_entries_app. simpl. rewrite N.add_0_l. reflexivity.
        intros I. pose proof (zone_entries_keys 0 P) as K. rewrite List.Forall_forall in K.
        destruct (K _ I) as [j [R Ej]]. apply uuid_inj in Ej. lia.
      + simpl. rewrite Nx, length_app. simpl. lia.
    - apply IH; assumption. }
  apply (G lines [] (init_session lines b nm)); reflexivity.
Qed.

Lemma zseq_app (start : Z) (m n : nat) : zseq start (m + n) = zseq start m ++ zseq (start + Z.of_nat m) n.
Proof.
  revert start. induction m as [|m IH]; intros start; simpl.
  - rewrite Z.add_0_r. reflexivity.
  - rewrite IH. do 3 f_equal. lia.
Qed.

Lemma protocol_identities_length (s : session) (g : string) :
  (1 <= length (get_protocol_identities_for_service_group s g) <= 2)%nat.
Proof.
  unfold get_protocol_identities_for_service_group.
  destruct (dict_get g (object_groups s)); simpl; [|lia].
  destruct (negb _); simpl; [lia|]. destruct (scan_service_group _ _) as [[|? ?] [|? ?]]; simpl; lia.
Qed.

Lemma mapi_go_priorities {A} (f : Z -> A -> frule) (idx i0 : Z) (l : list A) :
  (forall i x, fr_priority (f i x) = (idx + i) * 10) ->
  map fr_priority (mapi_go f i0 l) = map (fun j => 10 * j) (zseq (idx + i0) (length l)).
Proof.
  intros F. revert i0. induction l as [|x l IH]; intros i0; simpl; [reflexivity|].
  rewrite F, IH. f_equal; [lia|]. do 2 f_equal. lia.
Qed.

Lemma length_mapi_go {A B} (f : Z -> A -> B) (i : Z) (l : list A) : length (mapi_go f i l) = length l.
Proof. revert i. induction l as [|x l IH]; intros i; simpl; [reflexivity|]. rewrite IH. reflexivity. Qed.

Lemma build_rules_priorities (s : session) (r : acl_rule) (idx : Z) (dz a : option string)
  (si di sp dp : list string) :
  let rs := build_rules s r idx dz a si di sp dp in
  map fr_priority rs = map (fun j => 10 * j) (zseq idx (length rs)) /\ (1 <= length rs <= 2)%nat.
Proof.
  unfold build_rules. destruct (service_object_group r) as [sg|].
  - pose proof (protocol_identities_length s sg) as L.
    destruct (1 <? length (get_protocol_identities_for_service_group s sg))%nat.
    + split.
      * rewrite length_mapi_go, (mapi_go_priorities _ idx), Z.add_0_r; [reflexivity|]. intros; reflexivity.
      * rewrite length_mapi_go. exact L.
    + simpl. split; [f_equal; lia|lia].
  - simpl. split; [f_equal; lia|lia].
Qed.

Lemma convert_acl_rule_priorities (s : session) (r : acl_rule) (idx : Z) (dz a : option string) :
  let rs := fst (convert_acl_rule s r idx dz a) in
  map fr_priority rs = map (fun j => 10 * j) (zseq idx (length rs)) /\ (1 <= length rs <= 2)%nat.
Proof.
  unfold convert_acl_rule.
  destruct (source_identities s r) as [si s1].
  destruct (destination_identities s1 r) as [di s2].
  destruct (source_port_identities s2 r) as [sp s3].
  destruct (non_service_dst_port_identities s3 r) as [dp s4].
  apply build_rules_priorities.
Qed.

(** Translated rules get priorities 10 times consecutive indices, and each
    ACL rule gives one or two of them. *)
Theorem convert_acl_rules_priorities (s : session) (rs : list acl_rule) (idx : Z) (dz a : option string) :
  let '(crs, idx', _) := convert_acl_rules s rs idx dz a in
  map fr_priority crs = map (fun j => 10 * j) (zseq idx (length crs)) /\
  idx' = idx + Z.of_nat (length crs) /\
  (length rs <= length crs <= 2 * length rs)%nat.
Proof.
  revert s idx. induction rs as [|r rs IH]; intros s idx; simpl.
  - split; [reflexivity|]. split; [lia|lia].
  - pose proof (convert_acl_rule_priorities s r idx dz a) as [P L].
    destruct (convert_acl_rule s r idx dz a) as [crs s1]. simpl in P, L.
    specialize (IH s1 (idx + Z.of_nat (length crs))).
    destruct (convert_acl_rules s1 rs (idx + Z.of_nat (length crs)) dz a) as [[more idx'] s2].
    destruct IH as [P' [E L']]. split; [|split].
    + rewrite length_app, zseq_app, !map_app, P, P'. reflexivity.
    + rewrite E, length_app. lia.
    + rewrite length_app. lia.
Qed.

Lemma protocol_identities_mixed (s : session) (g : string) :
  (1 < length (get_protocol_identities_for_service_group s g))%nat ->
  get_protocol_identities_for_service_group s g = [6; 17].
Proof.
  unfold get_protocol_identities_for_service_group.
  destruct (dict_get g (object_groups s)); simpl; [|lia].
  destruct (negb _); simpl; [lia|]. destruct (scan_service_group _ _) as [[|? ?] [|? ?]]; simpl; lia || reflexivity.
Qed.

Lemma build_rules_names (s : session) (r : acl_rule) (idx : Z) (dz : option string) (a : string)
  (si di sp dp : list string) :
  a <> "" -> Forall (acl_rule_name_ok a) (build_rules s r idx dz (Some a) si di sp dp).
Proof.
  intros Ne. unfold build_rules.
  assert (B : create_rule_name s r dz (Some a) (-1) = clean_acl_name a).
  { unfold create_rule_name. destruct (String.eqb_spec a "") as [E|_]; [contradiction|].
    fold (clean_acl_name a). destruct (dict_get a (acls s)); [|reflexivity].
    destruct (1 <? _)%nat; reflexivity. }
  rewrite B. destruct (service_object_group r) as [sg|].
  - destruct (1 <? length (get_protocol_identities_for_service_group s sg))%nat eqn:L.
    + apply Nat.ltb_lt, protocol_identities_mixed in L. rewrite L. simpl.
      constructor; [right; left; reflexivity|]. constructor; [right; right; reflexivity|constructor].
    + constructor; [left; reflexivity|constructor].
  - constructor; [left; reflexivity|constructor].
Qed.

(** Every rule translated from a named ACL carries its cleaned name,
    possibly with a [-TCP] or [-UDP] suffix. *)
Theorem convert_acl_rules_names (s : session) (rs : list acl_rule) (idx : Z) (dz : option string) (a : string) :
  a <> "" ->
  let '(crs, _, _) := convert_acl_rules s rs idx dz (Some a) in
  Forall (acl_rule_name_ok a) crs.
Proof.
  intros Ne. revert s idx. induction rs as [|r rs IH]; intros s idx; simpl; [constructor|].
  assert (H : Forall (acl_rule_name_ok a) (fst (convert_acl_rule s r idx dz (Some a)))).
  { unfold convert_acl_rule.
    destruct (source_identities s r) as [si s1].
    destruct (destination_identities s1 r) as [di s2].
    destruct (source_port_identities s2 r) as [sp s3].
    destruct (non_service_dst_port_identities s3 r) as [dp s4].
    apply build_rules_names. exact Ne. }
  destruct (convert_acl_rule s r idx dz (Some a)) as [crs s1]. simpl in H.
  specialize (IH s1 (idx + Z.of_nat (length crs))).
  destruct (convert_acl_rules s1 rs _ dz (Some a)) as [[more idx'] s2].
  apply Forall_app. split; assumption.
Qed.

Lemma convert_acl_rules_names_witness :
  "ACL_WEB" <> "" /\
  let '(crs, _, _) := convert_acl_rules (init_session [] false "") [empty_rule "allow" "tcp" 6; empty_rule "deny" "ip" 0] 0 None (Some "ACL_WEB") in
  Forall (acl_rule_name_ok "ACL_WEB") crs.
Proof.
  assert (Ne : "ACL_WEB" <> "") by discriminate.
  split; [exact Ne|].
  exact (convert_acl_rules_names (init_session [] false "") [empty_rule "allow" "tcp" 6; empty_rule "deny" "ip" 0] 0 None "ACL_WEB" Ne).
Defined.

Lemma core_class_maps (s s' : session) : core s' = core s -> class_maps s' = class_maps s.
Proof. unfold core. intros E. injection E. intros. assumption. Qed.

Lemma is_acl_applied_core (s s' : session) (a : string) :
  core s' = core s -> is_acl_applied_somewhere s' a = is_acl_applied_somewhere s a.
Proof. intros E. unfold is_acl_applied_somewhere. rewrite (proj1 (core_fields _ _ E)). reflexivity. Qed.

Lemma acl_policies_go_origin (s0 : session) (l : list (string * acl)) (s : session) :
  core s = core s0 ->
  (forall kv, In kv l -> In (fst kv) (dict_keys (acls s0))) ->
  Forall (policy_origin s0) (filter_policies s) ->
  Forall (policy_origin s0) (filter_policies (acl_policies_go (acls_in_class_maps s0) l s)).
Proof.
  revert s. induction l as [|[aname a] l IH]; intros s C L F; simpl; [exact F|].
  destruct (negb (existsb (String.eqb aname) (acls_in_class_maps s0)) && is_acl_applied_somewhere s aname) eqn:G.
  - apply andb_true_iff in G as [G1 G2].
    pose proof (convert_acl_rules_frame (set_next_id s (N.succ (next_id s))) (acl_rules a) 0 None (Some aname)) as K.
    destruct (convert_acl_rules _ (acl_rules a) 0 None (Some aname)) as [[rules i] s2]. simpl in K.
    assert (C2 : core s2 = core s0) by (rewrite (id_frame_core _ _ K); exact C).
    assert (F2 : Forall (policy_origin s0) (filter_policies s2)) by (rewrite (id_frame_policies _ _ K); exact F).
    assert (L' : forall kv, In kv l -> In (fst kv) (dict_keys (acls s0))) by (intros kv I; apply L; right; exact I).
    destruct rules as [|r rules]; apply IH; auto.
    simpl. apply Forall_dict_set; [|exact F2].
    split; [reflexivity|]. left. simpl. split; [apply (L (aname, a)); left; reflexivity|]. split.
    + intros I. apply negb_true_iff in G1.
      assert (X : existsb (String.eqb aname) (acls_in_class_maps s0) = true).
      { apply existsb_exists. exists aname. split; [exact I|apply String.eqb_refl]. }
      rewrite X in G1. discriminate.
    + rewrite <- (is_acl_applied_core _ _ _ C). exact G2.
  - apply IH; auto. intros kv I. apply L. right. exact I.
Qed.

Lemma policy_map_policies_go_origin (s0 : session) (l : list (string * policy_map)) (s : session) :
  (forall kv, In kv l -> In (fst kv) (dict_keys (policy_maps s0))) ->
  Forall (policy_origin s0) (filter_policies s) ->
  Forall (policy_origin s0) (filter_policies (policy_map_policies_go l s)).
Proof.
  revert s. induction l as [|[pname pm] l IH]; intros s L F; simpl; [exact F|].
  lazymatch goal with |- context [class_actions_rules ?t ?cas 0 ?dz] =>
    pose proof (class_actions_rules_frame t cas 0 dz) as K; destruct (class_actions_rules t cas 0 dz) as [rules s2]
  end. simpl in K.
  apply IH; [intros kv I; apply L; right; exact I|].
  simpl. apply Forall_dict_set; [|rewrite (id_frame_policies _ _ K); exact F].
  split; [reflexivity|]. right. left. apply (L (pname, pm)). left. reflexivity.
Qed.

(** Every policy comes from an applied ACL not used by a class-map, from a
    policy-map, or is one of the two defaults. *)
Theorem create_filter_policies_origin (s : session) :
  filter_policies s = [] ->
  Forall (policy_origin s) (filter_policies (create_filter_policies s)).
Proof.
  intros E. unfold create_filter_policies. fold (acls_in_class_maps s).
  pose proof (acl_policies_go_origin s (acls s) s eq_refl) as A.
  destruct (acl_policies_go_core (acls_in_class_maps s) (acls s) s) as [C1 _].
  set (s1 := acl_policies_go _ (acls s) s) in *.
  assert (F1 : Forall (policy_origin s) (filter_policies s1)).
  { apply A; [intros kv I; apply in_map; exact I|rewrite E; constructor]. }
  assert (F2 : Forall (policy_origin s) (filter_policies (policy_map_policies_go (policy_maps s1) s1))).
  { apply policy_map_policies_go_origin; [|exact F1].
    intros kv I. rewrite <- (proj1 (proj2 (proj2 (proj2 (proj2 (core_fields _ _ C1)))))). apply in_map. exact I. }
  set (s2 := policy_map_policies_go (policy_maps s1) s1) in *.
  destruct (filter_policies s2) as [|fp fps] eqn:F; [|rewrite F; exact F2].
  simpl. apply Forall_dict_set; [split; [reflexivity|]; right; right; right; reflexivity|].
  apply Forall_dict_set; [split; [reflexivity|]; right; right; left; reflexivity|]. unfold set_next_id; simpl; rewrite F; constructor.
Qed.

Lemma create_filter_policies_origin_witness :
  filter_policies (init_session cfg_two_allow_all false "") = [] /\
  Forall (policy_origin (init_session cfg_two_allow_all false ""))
    (filter_policies (create_filter_policies (init_session cfg_two_allow_all false ""))).
Proof.
  assert (E : filter_policies (init_session cfg_two_allow_all false "") = []) by reflexivity.
  split; [exact E|]. exact (create_filter_policies_origin _ E).
Defined.

(** On an empty configuration with the internet zone on, two internet zones
    are created and forwarded one to the other, under the default allow. *)
Theorem empty_config_two_internet_zones (nm : string) :
  exists s d z1 z2 f p,
    convert [] true nm = Some (s, d) /\
    doc_zones d = [(z1, mk_zone z1 nm (TriggerList [wan_trigger])); (z2, mk_zone z2 nm (TriggerList [wan_trigger]))] /\
    doc_forwardings d = [(f, mk_fw f z1 z2 true p)] /\
    dict_get p (doc_filter_policies d) = Some (default_allow_policy p) /\ z1 <> z2.
Proof.
  destruct (convert [] true nm) as [[s d]|] eqn:E; [|vm_compute in E; discriminate].
  vm_compute in E. inversion E; subst.
  do 6 eexists. split; [reflexivity|]. split; [reflexivity|].
  split; [reflexivity|]. split; [reflexivity|]. discriminate.
Qed.

Lemma pretty_N_go_digits (x : N) (s : string) :
  exists d, String.list_ascii_of_string (pretty_N_go x s) = d ++ String.list_ascii_of_string s /\
    forallb Py.is_digit d = true /\ ((0 < x)%N -> d <> []).
Proof.
  revert s. induction (N.lt_wf_0 x) as [x _ IH]; intros s.
  destruct (decide (x = 0%N)) as [->|Hx].
  - exists []. rewrite pretty_N_go_0. split; [reflexivity|]. split; [reflexivity|]. lia.
  - rewrite pretty_N_go_step by lia.
    destruct (IH (x `div` 10)%N (N.div_lt x 10 ltac:(lia) ltac:(lia)) (String (pretty_N_char (x `mod` 10)) s))
      as (d & E & D & _).
    exists (d ++ [pretty_N_char (x `mod` 10)]). rewrite E, <- app_assoc. split; [reflexivity|].
    split.
    + rewrite forallb_app, D. simpl.
      unfold pretty_N_char. repeat case_match; reflexivity.
    + intros _ Hd. apply app_eq_nil in Hd as [_ Hd]. discriminate.
Qed.

Lemma str_Z_digits (z : Z) :
  0 <= z -> exists c d, String.list_ascii_of_string (Py.str_Z z) = c :: d /\
    forallb Py.is_digit (c :: d) = true.
Proof.
  intros Hz. unfold Py.str_Z, pretty, pretty_Z.
  destruct z as [|p|p]; [ | | lia].
  - exists "0"%char, []. split; reflexivity.
  - unfold pretty, pretty_positive, pretty_N. simpl.
    destruct (pretty_N_go_digits (Npos p) "") as (d & E & D & Ne).
    change (pretty (N.pos p)) with (pretty_N_go (N.pos p) ""). rewrite E, app_nil_r. destruct d as [|c d]; [exfalso; apply Ne; [lia|reflexivity]|].
    exists c, d. split; [reflexivity|exact D].
Qed.

Lemma digit_span_app (d r : list ascii) :
  forallb Py.is_digit d = true ->
  digit_span (d ++ r) = let '(ds, r') := digit_span r in (d ++ ds, r').
Proof.
  induction d as [|c d IH]; intros D; simpl.
  - destruct (digit_span r); reflexivity.
  - simpl in D. apply andb_prop in D as [Dc D]. rewrite Dc, IH by exact D.
    destruct (digit_span r); reflexivity.
Qed.

Lemma list_ascii_app (s t : string) :
  String.list_ascii_of_string (s +:+ t) = String.list_ascii_of_string s ++ String.list_ascii_of_string t.
Proof. induction s as [|c s IH]; simpl; [reflexivity|]. rewrite IH; reflexivity. Qed.

(** Re-indexing a rule name replaces the index it was given. *)
Theorem update_rule_name_with_index_reindex (name : string) (i j : Z) :
  0 <= i ->
  update_rule_name_with_index (update_rule_name_with_index name i) j = update_rule_name_with_index name j.
Proof.
  intros Hi. unfold update_rule_name_with_index. f_equal.
  destruct (str_Z_digits i Hi) as (c & d & E & D).
  generalize (strip_index_suffix name) as s. intros s. unfold strip_index_suffix.
  rewrite !list_ascii_app, E. remember (c :: d) as L eqn:HL.
  replace (rev (String.list_ascii_of_string s ++ String.list_ascii_of_string "-" ++ L))
    with (rev L ++ "-"%char :: rev (String.list_ascii_of_string s))
    by (rewrite !rev_app_distr, <- app_assoc; reflexivity).
  assert (Dr : forallb Py.is_digit (rev L) = true).
  { rewrite forallb_forall in D |- *. intros x Hx. subst L. apply D, in_rev, Hx. }
  destruct (rev L) as [|c' d'] eqn:R.
  { apply (f_equal (@length _)) in R. rewrite length_rev in R. subst L. discriminate. }
  assert (Nn : Ascii.eqb c' "010"%char = false).
  { simpl in Dr. apply andb_prop in Dr as [Dc _]. destruct (Ascii.eqb c' "010"%char) eqn:Q; [|reflexivity].
    apply Ascii.eqb_eq in Q. subst. discriminate. }
  rewrite <- app_comm_cons. cbn iota beta. rewrite Nn.
  replace (rev (String.list_ascii_of_string s ++ String.list_ascii_of_string "-" ++ L))
    with ((c' :: d') ++ "-"%char :: rev (String.list_ascii_of_string s))
    by (rewrite <- R, !rev_app_distr, <- app_assoc; reflexivity).
  rewrite digit_span_app by exact Dr. simpl.
  rewrite app_nil_r, rev_involutive. apply String.string_of_list_ascii_of_string.
Qed.

Lemma update_rule_name_with_index_reindex_witness :
  0 <= 3 /\ update_rule_name_with_index (update_rule_name_with_index "ACL-WEB" 3) 7
            = update_rule_name_with_index "ACL-WEB" 7.
Proof. split; [lia|]. apply (update_rule_name_with_index_reindex "ACL-WEB" 3 7). lia. Defined.

Lemma substring_long (n : nat) (s : string) :
  (String.length s <= n)%nat -> String.substring 0 n s = s.
Proof.
  revert n. induction s as [|c s IH]; intros n Hn; destruct n as [|n]; simpl in *; try lia; try reflexivity.
  rewrite IH by lia. reflexivity.
Qed.

Lemma dot_not_digit (c : ascii) (s : string) :
  Py.is_digit c = true -> String.prefix "." (String c s) = false.
Proof. intros D. cbn [String.prefix]. destruct (ascii_dec "."%char c) as [<-|]; [discriminate D|reflexivity]. Qed.

Lemma split_sep_go_piece (a rest : string) (f : nat) (cur : list ascii) :
  forallb Py.is_digit (String.list_ascii_of_string a) = true -> (String.length a < f)%nat ->
  Py.split_sep_go f "." (a +:+ String "." rest) cur
  = String.string_of_list_ascii (rev cur ++ String.list_ascii_of_string a)
    :: Py.split_sep_go (f - String.length a - 1) "." rest [].
Proof.
  revert f cur. induction a as [|c a IH]; intros f cur D Hf; destruct f as [|f]; simpl in Hf; try lia.
  - simpl. rewrite app_nil_r, Nat.sub_0_r, substring_long by lia. destruct rest; reflexivity.
  - simpl in D. apply andb_prop in D as [Dc D].
    change (String c a +:+ String "." rest) with (String c (a +:+ String "." rest)).
    cbn [Py.split_sep_go]. rewrite dot_not_digit by exact Dc.
    rewrite IH by (exact D || lia). simpl. rewrite <- app_assoc. reflexivity.
Qed.

Lemma split_sep_go_last (a : string) (f : nat) (cur : list ascii) :
  forallb Py.is_digit (String.list_ascii_of_string a) = true -> (String.length a < f)%nat ->
  Py.split_sep_go f "." a cur = [String.string_of_list_ascii (rev cur ++ String.list_ascii_of_string a)].
Proof.
  revert f cur. induction a as [|c a IH]; intros f cur D Hf; destruct f as [|f]; simpl in Hf; try lia.
  - simpl. rewrite app_nil_r. reflexivity.
  - simpl in D. apply andb_prop in D as [Dc D].
    cbn [Py.split_sep_go]. rewrite dot_not_digit by exact Dc.
    rewrite IH by (exact D || lia). simpl. rewrite <- app_assoc. reflexivity.
Qed.

Lemma slen_app (s t : string) : String.length (s +:+ t) = (String.length s + String.length t)%nat.
Proof. induction s as [|c s IH]; simpl; [reflexivity|]. rewrite IH; reflexivity. Qed.

Lemma int_str_octet (o : Z) :
  0 <= o <= 255 -> Py.int (Py.str_Z o) = Some o.
Proof.
  intros Ho.
  assert (H : forallb (fun n => match Py.int (Py.str_Z (Z.of_nat n)) with
                                | Some v => v =? Z.of_nat n | None => false end) (seq 0 256) = true)
    by (vm_compute; reflexivity).
  rewrite forallb_forall in H. specialize (H (Z.to_nat o)).
  rewrite Z2Nat.id in H by lia.
  destruct (Py.int (Py.str_Z o)) as [v|]; [|discriminate H; apply in_seq; lia].
  f_equal. apply Z.eqb_eq, H, in_seq. lia.
Qed.

(** A dotted mask [255.a.b.c] gives the count of its one bits, whether
    contiguous or not. *)
Theorem cidr_from_mask_dotted (a b c : Z) :
  0 <= a <= 255 -> 0 <= b <= 255 -> 0 <= c <= 255 ->
  cidr_from_mask ("255." +:+ Py.str_Z a +:+ "." +:+ Py.str_Z b +:+ "." +:+ Py.str_Z c)
  = "/" +:+ Py.str_Z (8 + popcount a + popcount b + popcount c).
Proof.
  intros Ha Hb Hc. unfold cidr_from_mask.
  destruct (str_Z_digits a ltac:(lia)) as (ca & da & Ea & Da).
  destruct (str_Z_digits b ltac:(lia)) as (cb & db & Eb & Db).
  destruct (str_Z_digits c ltac:(lia)) as (cc & dc & Ec & Dc).
  rewrite <- Ea in Da. rewrite <- Eb in Db. rewrite <- Ec in Dc.
  change ("255." +:+ Py.str_Z a +:+ "." +:+ Py.str_Z b +:+ "." +:+ Py.str_Z c)
    with ("255" +:+ String "." (Py.str_Z a +:+ String "." (Py.str_Z b +:+ String "." (Py.str_Z c)))).
  unfold Py.split_sep.
  rewrite (split_sep_go_piece "255"); [| reflexivity | (rewrite ?slen_app; cbn [String.length]; rewrite ?slen_app; cbn [String.length]; rewrite ?slen_app; simpl; lia)].
  rewrite (split_sep_go_piece (Py.str_Z a)); [| exact Da | (rewrite ?slen_app; cbn [String.length]; rewrite ?slen_app; cbn [String.length]; rewrite ?slen_app; simpl; lia)].
  rewrite (split_sep_go_piece (Py.str_Z b)); [| exact Db | (rewrite ?slen_app; cbn [String.length]; rewrite ?slen_app; cbn [String.length]; rewrite ?slen_app; simpl; lia)].
  rewrite (split_sep_go_last (Py.str_Z c)); [| exact Dc | (rewrite ?slen_app; cbn [String.length]; rewrite ?slen_app; cbn [String.length]; rewrite ?slen_app; simpl; lia)].
  simpl rev. rewrite !app_nil_l, !String.string_of_list_ascii_of_string.
  simpl map. rewrite !int_str_octet by assumption.
  assert (Hs : forall x, Py.startswith ("255" +:+ String "." x) "255." = true) by (intros x; unfold Py.startswith; change ("255" +:+ String "." x) with (String "2" (String "5" (String "5" (String "." x)))); destruct x; reflexivity). rewrite Hs.
  reflexivity.
Qed.

Lemma cidr_from_mask_dotted_witness :
  (0 <= 0 <= 255 /\ 0 <= 255 <= 255 /\ 0 <= 0 <= 255) /\
  cidr_from_mask ("255." +:+ Py.str_Z 0 +:+ "." +:+ Py.str_Z 255 +:+ "." +:+ Py.str_Z 0)
  = "/" +:+ Py.str_Z (8 + popcount 0 + popcount 255 + popcount 0).
Proof. split; [lia|]. apply (cidr_from_mask_dotted 0 255 0); lia. Defined.

Lemma zone_shape_add_device (k did : string) (dev : zone_device) (zs : dict zone) :
  zone_shape (dict_update k (add_device did dev) zs) = zone_shape zs.
Proof.
  unfold zone_shape, dict_update. rewrite map_map. apply map_ext. intros [k' z]. simpl.
  destruct (String.eqb k k'); reflexivity.
Qed.

(** The interface pass keeps the ids and names of all zones. *)
Theorem parse_interfaces_keeps_zones (s : session) :
  zone_shape (zones (parse_interfaces s)) = zone_shape (zones s).
Proof.
  unfold parse_interfaces. generalize (@None string) as cur. generalize s at 2 3 as s0.
  induction (config_lines s) as [|l ls IH]; intros s0 cur; simpl; [reflexivity|].
  destruct (Py.startswith (Py.strip l) "interface ").
  { rewrite IH. reflexivity. }
  destruct cur as [iname|]; [|apply IH].
  destruct (Py.startswith (Py.strip l) "zone-member security ").
  { rewrite IH. cbv zeta.
    match goal with |- context [match ?m with Some _ => _ | None => _ end] => destruct m end;
      [|reflexivity].
    unfold generate_id. simpl. apply zone_shape_add_device. }
  destruct (Py.startswith (Py.strip l) "ip address ").
  { rewrite IH. match goal with |- context [if ?b then _ else _] => destruct b end; reflexivity. }
  match goal with |- context [if ?b then _ else _] => destruct b end; apply IH.
Qed.

(** Without a [range ] line, the object-group parser never fails. *)
Theorem parse_object_groups_no_range (s : session) :
  Forall (fun l => Py.contains "range " (Py.strip l) = false) (config_lines s) ->
  exists s', parse_object_groups s = Some s'.
Proof.
  unfold parse_object_groups. generalize (@None string) as cur. generalize s at 3 as s0.
  induction (config_lines s) as [|l ls IH]; intros s0 cur H; cbn [parse_object_groups_go]; [eauto|].
  apply Forall_cons in H as [Hl H].
  destruct (Py.startswith (Py.strip l) "object-group ").
  { match goal with |- context [if ?b then _ else _] => destruct b end; apply IH, H. }
  destruct cur as [g|]; [|apply IH, H].
  destruct (starts_any (Py.strip l) og_end_prefixes); [apply IH, H|].
  destruct (og_entry_line (Py.strip l));
    [|match goal with |- context [if ?b then _ else _] => destruct b end; apply IH, H].
  assert (E : exists e, (if String.eqb (match dict_get g (object_groups s0) with Some g0 => og_type g0 | None => "" end) "network"
               then Some (network_entry (Py.strip l))
               else if String.eqb (match dict_get g (object_groups s0) with Some g0 => og_type g0 | None => "" end) "service"
               then service_entry (Py.strip l) else Some None) = Some e).
  { destruct (String.eqb _ "network"); [eauto|]. destruct (String.eqb _ "service"); [|eauto].
    unfold service_entry. rewrite Hl.
    destruct (starts_any _ _); [|destruct (Py.contains "object-group " _); eauto].
    match goal with |- context [if ?b then _ else _] => destruct b end; [|eauto]. destruct (Py.isdigit _); [eauto|].
    destruct (dict_get _ _); [eauto|]. destruct (Py.int _); eauto. }
  destruct E as [e E]. rewrite E. destruct e; apply IH, H.
Qed.

Lemma parse_object_groups_no_range_witness :
  Forall (fun l => Py.contains "range " (Py.strip l) = false)
    (config_lines (init_session ["object-group service SVC-A"; " tcp eq 80"] false "")) /\
  exists s', parse_object_groups (init_session ["object-group service SVC-A"; " tcp eq 80"] false "") = Some s'.
Proof.
  assert (H : Forall (fun l => Py.contains "range " (Py.strip l) = false)
    (config_lines (init_session ["object-group service SVC-A"; " tcp eq 80"] false ""))) by (repeat constructor).
  split; [exact H|]. exact (parse_object_groups_no_range _ H).
Defined.
